(** * ToUI signals: a shallow embedding of [toui/_signals.py]

    The module wraps methods of pages and elements so that a call may also be
    forwarded to JavaScript, over a websocket or through an in-process
    evaluator, and exposes uploaded files as generators of chunks.

    Python values are a first-order data type, the interpreter state is an
    explicit [World] threaded through a state-and-exception monad, and the
    code outside the module (the [json] library, the application's validator,
    the evaluator, the bodies of the wrapped methods and of the signal
    builders) is collected in an environment [Env].  The [debug] and [info]
    lines of the module only write to the log and are left out. *)

From Stdlib Require Import ZArith List String Ascii Bool Lia PrimFloat.
From Stdlib Require Import DecimalString.
Import ListNotations.
Local Open Scope string_scope.
Local Open Scope list_scope.

Set Implicit Arguments.
Set Warnings "-register-all".

(** ** Python values *)

Definition addr := nat.  (* address of an instance in the heap *)
Definition chan := nat.  (* identity of a websocket *)
Definition sid := nat.   (* identity of a [Signal] instance (a decorator) *)
Definition fid := nat.   (* identity of a Python function *)

Inductive pyval : Type :=
| VNone
| VBool (b : bool)
| VInt (z : Z)
| VFloat (f : float)
| VStr (s : string)
| VList (l : list pyval)
| VDict (d : list (string * pyval))   (* insertion-ordered, string keys *)
| VBytes (b : list Byte.byte)         (* bytearray *)
| VRef (a : addr)                     (* an instance living in the heap *)
| VWs (c : chan)                      (* a websocket object *)
| VEvalJs (page : addr).              (* the bound method page._evaluate_js *)

Inductive exn : Type :=
| KeyError (k : string)
| TypeError
| ValueError
| OverflowError
| JSONDecodeError
| AttributeError (attr : string)
| UnboundLocalError (var : string)
| UserError (tag : string).

(** A computation returns, raises, or never comes back (a blocking receive on
    a channel that stays silent). *)
Inductive outcome (A : Type) : Type :=
| Ok (a : A)
| Raise (e : exn)
| Blocked.
Arguments Raise {A} e.
Arguments Blocked {A}.

(** ** Dictionaries with string keys *)

Fixpoint dict_get (k : string) (d : list (string * pyval)) : option pyval :=
  match d with
  | [] => None
  | (k', v) :: r => if String.eqb k k' then Some v else dict_get k r
  end.

(** [d[k] = v]: an existing key keeps its position, a new one goes last. *)
Fixpoint dict_set (k : string) (v : pyval) (d : list (string * pyval))
  : list (string * pyval) :=
  match d with
  | [] => [(k, v)]
  | (k', v') :: r =>
      if String.eqb k k' then (k, v) :: r else (k', v') :: dict_set k v r
  end.

Fixpoint dict_del (k : string) (d : list (string * pyval))
  : list (string * pyval) :=
  match d with
  | [] => []
  | (k', v') :: r =>
      if String.eqb k k' then r else (k', v') :: dict_del k r
  end.

Definition dict_has (k : string) (d : list (string * pyval)) : bool :=
  match dict_get k d with Some _ => true | None => false end.

(** ** Built-in operations on values *)

(** [bool(v)], the test of [if v:] and [not v]. *)
Definition truthy (v : pyval) : bool :=
  match v with
  | VNone => false
  | VBool b => b
  | VInt z => negb (z =? 0)%Z
  | VFloat f => negb (PrimFloat.eqb f 0%float)
  | VStr s => match s with EmptyString => false | _ => true end
  | VList l => match l with [] => false | _ => true end
  | VDict d => match d with [] => false | _ => true end
  | VBytes b => match b with [] => false | _ => true end
  | VRef _ | VWs _ | VEvalJs _ => true
  end.

(** [v == s] for a string literal [s]. *)
Definition eq_str (v : pyval) (s : string) : bool :=
  match v with VStr s' => String.eqb s' s | _ => false end.

(** [v == True]: booleans are integers, so [1] and [1.0] are equal to it. *)
Definition eq_True (v : pyval) : bool :=
  match v with
  | VBool b => b
  | VInt z => (z =? 1)%Z
  | VFloat f => PrimFloat.eqb f 1%float
  | _ => false
  end.

(** [v[k]] for a string key [k]: only dictionaries take one. *)
Definition getitem (v : pyval) (k : string) : outcome pyval :=
  match v with
  | VDict d =>
      match dict_get k d with Some x => Ok x | None => Raise (KeyError k) end
  | _ => Raise TypeError
  end.

Fixpoint chars (s : string) : list pyval :=
  match s with
  | EmptyString => []
  | String c r => VStr (String c EmptyString) :: chars r
  end.

Definition int_of_byte (b : Byte.byte) : pyval := VInt (Z.of_N (Byte.to_N b)).

(** The elements [for x in v] goes through. *)
Definition iterate (v : pyval) : outcome (list pyval) :=
  match v with
  | VList l => Ok l
  | VDict d => Ok (map (fun kv => VStr (fst kv)) d)
  | VStr s => Ok (chars s)
  | VBytes b => Ok (map int_of_byte b)
  | _ => Raise TypeError
  end.

(** One element of the argument of [bytearray(iterable)]. *)
Definition byte_of_item (x : pyval) : outcome Byte.byte :=
  let of_Z (z : Z) :=
    if (z <? 0)%Z then Raise ValueError
    else match Byte.of_N (Z.to_N z) with
         | Some b => Ok b
         | None => Raise ValueError
         end in
  match x with
  | VInt z => of_Z z
  | VBool b => of_Z (if b then 1 else 0)%Z
  | _ => Raise TypeError
  end.

Fixpoint bytes_of_items (l : list pyval) : outcome (list Byte.byte) :=
  match l with
  | [] => Ok []
  | x :: r =>
      match byte_of_item x with
      | Ok b =>
          match bytes_of_items r with
          | Ok bs => Ok (b :: bs)
          | Raise e => Raise e
          | Blocked => Blocked
          end
      | Raise e => Raise e
      | Blocked => Blocked
      end
  end.

(** The largest index of the interpreter, [sys.maxsize] on a 64-bit build. *)
Definition maxsize : Z := 9223372036854775807.

(** [bytearray(v)] with one argument: a count of zero bytes, an iterable of
    integers below 256, or a bytes-like object; a string needs an encoding and
    is refused, a count that does not fit an index raises [OverflowError]
    and a negative one that fits raises [ValueError].  Running out of memory
    on a large count is outside the model. *)
Definition bytearray (v : pyval) : outcome pyval :=
  let of_items l :=
    match bytes_of_items l with
    | Ok bs => Ok (VBytes bs)
    | Raise e => Raise e
    | Blocked => Blocked
    end in
  let zeros (z : Z) :=
    if ((z <? - maxsize - 1) || (maxsize <? z))%Z then Raise OverflowError
    else if (z <? 0)%Z then Raise ValueError
    else Ok (VBytes (repeat Byte.x00 (Z.to_nat z))) in
  match v with
  | VInt z => zeros z
  | VBool b => zeros (if b then 1 else 0)%Z
  | VBytes b => Ok (VBytes b)
  | VList l => of_items l
  | VDict d => of_items (map (fun kv => VStr (fst kv)) d)
  | VStr _ | VNone | VFloat _ | VRef _ | VWs _ | VEvalJs _ => Raise TypeError
  end.

(** ** Objects, the interpreter state and the collaborators *)

(** A [File] instance, with the attributes [File.__init__] sets. *)
Record File : Type := mkFile {
  _file_dict : pyval;
  name : pyval;
  size : pyval;
  type : pyval;
  last_modified : pyval;
  _ws : pyval;
  _id : pyval;
  _app : pyval;
  _signal : pyval;
  is_binary : pyval
}.

Inductive pyobject : Type :=
| Instance (cls : string) (dict : list (string * pyval))  (* __class__.__name__, __dict__ *)
| FileObj (f : File).

(** The attributes of a [Signal] instance.  [object] and [evaluate_js] exist
    only once a wrapper has assigned them. *)
Record Signal : Type := mkSignal {
  ws : pyval;
  return_type : pyval;
  object : option pyval;
  evaluate_js : option pyval;
  _func : option fid;
  no_return_functions : list string;
  included_private_methods : list string;
  (* inspect.getmembers(self, inspect.isfunction), sorted by name *)
  getmembers : list (string * fid)
}.

(** What went over the transports, oldest first. *)
Inductive event : Type :=
| EvSend (c : chan) (text : string)
| EvReceive (c : chan) (data : pyval)
| EvValidate (app data : pyval)
| EvEvaluate (page : addr) (func kwargs : pyval).

Record World : Type := mkWorld {
  heap : list pyobject;          (* an address is an index; allocation appends *)
  signals : sid -> Signal;
  inbox : chan -> list pyval;    (* what each websocket will deliver, in order *)
  trace : list event
}.

(** Code that is not part of the module. *)
Record Env : Type := mkEnv {
  json_loads : pyval -> outcome pyval;
  json_dumps : pyval -> outcome string;
  (* app._validate_data(data) *)
  validate_data : pyval -> pyval -> outcome pyval;
  (* page._evaluate_js(func=..., kwargs=...) *)
  run_js : World -> addr -> pyval -> pyval -> outcome pyval;
  (* f.__name__ *)
  fn_name : fid -> string;
  (* calling f with positional and keyword arguments *)
  fn_call : fid -> list pyval -> list (string * pyval) -> World
            -> outcome pyval * World;
  (* the arguments of inspect.signature(f).bind(...), defaults applied *)
  fn_bind : fid -> list pyval -> list (string * pyval)
            -> outcome (list (string * pyval))
}.

(** ** The monad of Python computations *)

Definition M (A : Type) : Type := World -> outcome A * World.

Definition ret {A} (a : A) : M A := fun w => (Ok a, w).

Definition bind {A B} (m : M A) (k : A -> M B) : M B :=
  fun w =>
    match m w with
    | (Ok a, w') => k a w'
    | (Raise e, w') => (Raise e, w')
    | (Blocked, w') => (Blocked, w')
    end.

Definition lift {A} (o : outcome A) : M A := fun w => (o, w).

Definition raise {A} (e : exn) : M A := fun w => (Raise e, w).

(** [try: m  except: h], with a bare [except]. *)
Definition try_except {A} (m : M A) (h : M A) : M A :=
  fun w =>
    match m w with
    | (Raise _, w') => h w'
    | r => r
    end.

Notation "x <- m ;; k" := (bind m (fun x => k))
  (at level 61, m at next level, right associativity).
Notation "m ;;; k" := (bind m (fun _ => k))
  (at level 61, right associativity).

Definition get_world : M World := fun w => (Ok w, w).

Definition log (e : event) : M unit :=
  fun w => (Ok tt, mkWorld (heap w) (signals w) (inbox w) (trace w ++ [e])).

Definition set_signal (d : sid) (s : Signal) : M unit :=
  fun w =>
    (Ok tt,
     mkWorld (heap w) (fun d' => if Nat.eqb d' d then s else signals w d')
             (inbox w) (trace w)).

Definition get_signal (d : sid) : M Signal := fun w => (Ok (signals w d), w).

Definition alloc (o : pyobject) : M pyval :=
  fun w =>
    (Ok (VRef (List.length (heap w))),
     mkWorld (heap w ++ [o]) (signals w) (inbox w) (trace w)).

Definition pop_inbox (c : chan) : M unit :=
  fun w =>
    (Ok tt,
     mkWorld (heap w) (signals w)
             (fun c' => if Nat.eqb c' c then tl (inbox w c') else inbox w c')
             (trace w)).

(** ** Attribute access *)

Definition file_attr (f : File) (a : string) : outcome pyval :=
  if String.eqb a "_file_dict" then Ok (_file_dict f)
  else if String.eqb a "name" then Ok (name f)
  else if String.eqb a "size" then Ok (size f)
  else if String.eqb a "type" then Ok (type f)
  else if String.eqb a "last_modified" then Ok (last_modified f)
  else if String.eqb a "_ws" then Ok (_ws f)
  else if String.eqb a "_id" then Ok (_id f)
  else if String.eqb a "_app" then Ok (_app f)
  else if String.eqb a "_signal" then Ok (_signal f)
  else if String.eqb a "is_binary" then Ok (is_binary f)
  else Raise (AttributeError a).

(** [v.a] for a data attribute [a]: instances answer from their [__dict__],
    values of the built-in types have none of the attributes the module
    reads. *)
Definition attr_of (h : list pyobject) (v : pyval) (a : string)
  : outcome pyval :=
  match v with
  | VRef p =>
      match nth_error h p with
      | Some (Instance _ d) =>
          match dict_get a d with
          | Some x => Ok x
          | None => Raise (AttributeError a)
          end
      | Some (FileObj f) => file_attr f a
      | None => Raise (AttributeError a)
      end
  | _ => Raise (AttributeError a)
  end.

Definition getattr (v : pyval) (a : string) : M pyval :=
  fun w => (attr_of (heap w) v a, w).

(** [v.__dict__.get(k)]. *)
Definition dict_attr_get (v : pyval) (k : string) : M pyval :=
  fun w =>
    match v with
    | VRef p =>
        match nth_error (heap w) p with
        | Some (Instance _ d) =>
            (Ok match dict_get k d with Some x => x | None => VNone end, w)
        | Some (FileObj f) =>
            (match file_attr f k with Ok x => Ok x | _ => Ok VNone end, w)
        | None => (Raise (AttributeError "__dict__"), w)
        end
    | _ => (Raise (AttributeError "__dict__"), w)
    end.

(** [v._evaluate_js]: an instance attribute of that name if there is one,
    otherwise the method of the instance's class, bound to it.  Instances
    are taken to be of classes that define the method, as the pages are. *)
Definition getattr_evaluate_js (v : pyval) : M pyval :=
  fun w =>
    match v with
    | VRef p =>
        match nth_error (heap w) p with
        | Some (Instance _ d) =>
            (Ok match dict_get "_evaluate_js" d with
                | Some x => x
                | None => VEvalJs p
                end, w)
        | _ => (Raise (AttributeError "_evaluate_js"), w)
        end
    | _ => (Raise (AttributeError "_evaluate_js"), w)
    end.

(** [v.__class__.__name__]. *)
Definition class_name (w : World) (v : pyval) : string :=
  match v with
  | VNone => "NoneType"
  | VBool _ => "bool"
  | VInt _ => "int"
  | VFloat _ => "float"
  | VStr _ => "str"
  | VList _ => "list"
  | VDict _ => "dict"
  | VBytes _ => "bytearray"
  | VRef p =>
      match nth_error (heap w) p with
      | Some (Instance c _) => c
      | Some (FileObj _) => "File"
      | None => "object"
      end
  | VWs _ => "Server"
  | VEvalJs _ => "method"
  end.

(** [copy.copy(v)]: a new instance with the same [__dict__]; the other
    values are immutable here and are their own copies. *)
Definition copy (v : pyval) : M pyval :=
  fun w =>
    match v with
    | VRef p =>
        match nth_error (heap w) p with
        | Some o => alloc o w
        | None => (Ok v, w)
        end
    | _ => (Ok v, w)
    end.

(** [Signal.__init__] on the base class: no function members, and the class
    attributes [included_private_methods] and [no_return_functions]. *)
Definition Signal___init__ (return_type_ : pyval) : Signal :=
  mkSignal VNone return_type_ None None None [] ["_open_another_page"] [].

(** Reading a local variable that an earlier branch may not have assigned. *)
Definition read_local (var : string) (x : option pyval) : M pyval :=
  match x with
  | Some v => ret v
  | None => raise (UnboundLocalError var)
  end.

Definition read_attr (a : string) (x : option pyval) : M pyval :=
  match x with
  | Some v => ret v
  | None => raise (AttributeError a)
  end.

Definition starts_with_underscore (s : string) : bool :=
  match s with
  | String c _ => Ascii.eqb c "_"%char
  | EmptyString => false
  end.

Definition mem_str (s : string) (l : list string) : bool :=
  existsb (String.eqb s) l.

(** ** Transports *)

(** [v.send] and [v.receive] exist on websockets only. *)
Definition ws_method (v : pyval) (meth : string) : M chan :=
  match v with
  | VWs c => ret c
  | _ => raise (AttributeError meth)
  end.

Definition ws_send (c : chan) (text : string) : M unit := log (EvSend c text).

(** A blocking receive: the next scripted message, or no return at all. *)
Definition ws_receive (c : chan) : M pyval :=
  fun w =>
    match inbox w c with
    | m :: _ => (pop_inbox c ;;; log (EvReceive c m) ;;; ret m) w
    | [] => (Blocked, w)
    end.

Section Signals.

Variable E : Env.

Definition validate (app data : pyval) : M pyval :=
  log (EvValidate app data) ;;; lift (validate_data E app data).

(** Calling [ev(func=f, kwargs=k)]; only the bound evaluator is callable. *)
Definition call_evaluate_js (ev f k : pyval) : M pyval :=
  match ev with
  | VEvalJs p =>
      log (EvEvaluate p f k) ;;;
      w <- get_world ;;
      lift (run_js E w p f k)
  | _ => raise TypeError
  end.

(** ** class File *)

Definition File___init__ (file_dict signal app file_id ws_ : pyval) : M pyval :=
  nm <- lift (getitem file_dict "name") ;;
  sz <- lift (getitem file_dict "size") ;;
  ty <- lift (getitem file_dict "type") ;;
  lm <- lift (getitem file_dict "last-modified") ;;
  alloc (FileObj (mkFile file_dict nm sz ty lm ws_ file_id app signal
                         (VBool false))).

(** Where the generator of [File.__iter__] stands between two [next] calls,
    with the local variables it still needs. *)
Inductive gen_state : Type :=
| GenStart
| GenWs (data_dict : pyval)
| GenDirect (out data_dict : pyval)
| GenDone.

Inductive gen_result : Type :=
| Yield (v : pyval)
| StopIteration.

Definition apply_is_binary (self data : pyval) : M pyval :=
  b <- getattr self "is_binary" ;;
  if truthy b then lift (bytearray data) else ret data.

(** One turn of the loop over the websocket, up to its [yield]. *)
Definition iter_ws_turn (self : pyval) : M (gen_result * gen_state) :=
  wsv <- getattr self "_ws" ;;
  c <- ws_method wsv "receive" ;;
  data_from_js <- ws_receive c ;;
  app <- getattr self "_app" ;;
  data_validation <- validate app data_from_js ;;
  if negb (truthy data_validation) then ret (StopIteration, GenDone)
  else
    data_dict <- lift (json_loads E data_from_js) ;;
    data <- lift (getitem data_dict "data") ;;
    data <- apply_is_binary self data ;;
    ret (Yield data, GenWs data_dict).

(** One turn of the loop over the evaluator's text, up to its [yield]. *)
Definition iter_direct_turn (self out : pyval) : M (gen_result * gen_state) :=
  data_dict <- lift (json_loads E out) ;;
  data <- lift (getitem data_dict "data") ;;
  data <- apply_is_binary self data ;;
  ret (Yield data, GenDirect out data_dict).

Definition save_file_signal (file_id binary : pyval) : pyval :=
  VDict [("func", VStr "_saveFile");
         ("args", VList []);
         ("kwargs", VDict [("file-id", file_id); ("binary", binary)])].

(** [next(g)] for the generator [g] of [File.__iter__] on [self]. *)
Definition File___iter___next (self : pyval) (st : gen_state)
  : M (gen_result * gen_state) :=
  match st with
  | GenStart =>
      file_id <- getattr self "_id" ;;
      binary <- getattr self "is_binary" ;;
      let signal := save_file_signal file_id binary in
      wsv <- getattr self "_ws" ;;
      if truthy wsv then
        c <- ws_method wsv "send" ;;
        text <- lift (json_dumps E signal) ;;
        ws_send c text ;;;
        iter_ws_turn self
      else
        sg <- getattr self "_signal" ;;
        ev <- getattr sg "evaluate_js" ;;
        f <- lift (getitem signal "func") ;;
        k <- lift (getitem signal "kwargs") ;;
        out <- call_evaluate_js ev f k ;;
        iter_direct_turn self out
  | GenWs data_dict =>
      e <- lift (getitem data_dict "end") ;;
      if eq_True e then ret (StopIteration, GenDone)
      else iter_ws_turn self
  | GenDirect out data_dict =>
      e <- lift (getitem data_dict "end") ;;
      if eq_True e then ret (StopIteration, GenDone)
      else iter_direct_turn self out
  | GenDone => ret (StopIteration, GenDone)
  end.

(** How a run of the generator ended. *)
Inductive gen_end : Type :=
| Exhausted
| Raised (e : exn)
| Hung
| Suspended (st : gen_state).

(** [for data in self], collecting what is yielded, for at most [fuel]
    calls of [next]. *)
Fixpoint iterate_file (fuel : nat) (self : pyval) (st : gen_state)
         (w : World) : list pyval * gen_end * World :=
  match fuel with
  | O => ([], Suspended st, w)
  | S fuel' =>
      match File___iter___next self st w with
      | (Ok (Yield v, st'), w') =>
          match iterate_file fuel' self st' w' with
          | (vs, e, w'') => (v :: vs, e, w'')
          end
      | (Ok (StopIteration, _), w') => ([], Exhausted, w')
      | (Raise e, w') => ([], Raised e, w')
      | (Blocked, w') => ([], Hung, w')
      end
  end.

(** ** class Signal *)

(** The loop of [_send] that turns the entries of a "files" response into
    [File] objects; [with_ws] tells whether they are bound to [self.ws]
    (websocket branch) or to no channel (evaluator branch). *)
Fixpoint make_files (self : sid) (signal : pyval) (with_ws : bool)
         (entries files : list pyval) : M (list pyval) :=
  match entries with
  | [] => ret files
  | file_dict :: rest =>
      s <- get_signal self ;;
      obj <- read_attr "object" (object s) ;;
      app <- getattr obj "_app" ;;
      file_id <- lift (getitem file_dict "file-id") ;;
      f <- File___init__ file_dict signal app file_id
             (if with_ws then ws s else VNone) ;;
      make_files self signal with_ws rest (files ++ [f])
  end.

(** [list(data_dict.keys())], evaluated for the debug line. *)
Definition keys_of (data_dict : pyval) : M unit :=
  match data_dict with
  | VDict _ => ret tt
  | _ => raise (AttributeError "keys")
  end.

(** The body of the [try] in the evaluator branch: [inl] is its [return],
    [inr] the [data_dict] it leaves behind. *)
Definition decode_direct (self : sid) (signal out : pyval)
  : M (pyval + pyval) :=
  data_dict <- lift (json_loads E out) ;;
  ty <- lift (getitem data_dict "type") ;;
  if eq_str ty "files" then
    data <- lift (getitem data_dict "data") ;;
    entries <- lift (iterate data) ;;
    files <- make_files self signal false entries [] ;;
    ret (inl (VList files))
  else ret (inr data_dict).

Definition _send (self : sid) (signal : pyval) : M pyval :=
  s <- get_signal self ;;
  if truthy (ws s) then
    c <- ws_method (ws s) "send" ;;
    text <- lift (json_dumps E signal) ;;
    ws_send c text ;;;
    s <- get_signal self ;;
    if eq_str (return_type s) "js" then
      c <- ws_method (ws s) "receive" ;;
      data_from_js <- ws_receive c ;;
      obj <- read_attr "object" (object s) ;;
      app <- getattr obj "_app" ;;
      data_validation <- validate app data_from_js ;;
      if negb (truthy data_validation) then ret VNone
      else
        data_dict <- lift (json_loads E data_from_js) ;;
        keys_of data_dict ;;;
        ty <- lift (getitem data_dict "type") ;;
        if eq_str ty "files" then
          data <- lift (getitem data_dict "data") ;;
          entries <- lift (iterate data) ;;
          files <- make_files self signal true entries [] ;;
          ret (VList files)
        else lift (getitem data_dict "data")
    else ret VNone
  else
    ev <- read_attr "evaluate_js" (evaluate_js s) ;;
    f <- lift (getitem signal "func") ;;
    k <- lift (getitem signal "kwargs") ;;
    out <- call_evaluate_js ev f k ;;
    s <- get_signal self ;;
    if eq_str (return_type s) "js" then
      r <- try_except (decode_direct self signal out)
                      (ret (inr (VDict [("data", VNone)]))) ;;
      match r with
      | inl files => ret files
      | inr data_dict => lift (getitem data_dict "data")
      end
    else ret VNone.

(** The loop of [_call_method] over the function members of the instance. *)
Fixpoint call_method_loop (self : sid) (func_name : string)
         (included : list string) (kwargs : list (string * pyval))
         (ms : list (string * fid)) : M pyval :=
  match ms with
  | [] => ret VNone
  | (method_name, method) :: rest =>
      if String.eqb method_name func_name
         && (negb (starts_with_underscore method_name)
             || mem_str method_name included)
      then
        signal <- fn_call E method [] kwargs ;;
        if truthy signal then _send self signal else ret VNone
      else call_method_loop self func_name included kwargs rest
  end.

Definition _call_method (self : sid) (func : fid)
           (kwargs : list (string * pyval)) : M pyval :=
  s <- get_signal self ;;
  call_method_loop self (fn_name E func) (included_private_methods s) kwargs
                   (getmembers s).

(** Lines 30 to 35 of the wrapper: where the transports come from. *)
Definition resolve_channel (decorator : sid) (self : pyval) : M unit :=
  w <- get_world ;;
  let cn := class_name w self in
  if String.eqb cn "Element" then
    page <- getattr self "_parent_page" ;;
    wsv <- dict_attr_get page "_ws" ;;
    s <- get_signal decorator ;;
    set_signal decorator
      (mkSignal wsv (return_type s) (object s) (evaluate_js s) (_func s)
                (no_return_functions s) (included_private_methods s)
                (getmembers s)) ;;;
    page <- getattr self "_parent_page" ;;
    ev <- getattr_evaluate_js page ;;
    s <- get_signal decorator ;;
    set_signal decorator
      (mkSignal (ws s) (return_type s) (object s) (Some ev) (_func s)
                (no_return_functions s) (included_private_methods s)
                (getmembers s))
  else if String.eqb cn "Page" then
    wsv <- dict_attr_get self "_ws" ;;
    s <- get_signal decorator ;;
    set_signal decorator
      (mkSignal wsv (return_type s) (object s) (evaluate_js s) (_func s)
                (no_return_functions s) (included_private_methods s)
                (getmembers s)) ;;;
    ev <- getattr_evaluate_js self ;;
    s <- get_signal decorator ;;
    set_signal decorator
      (mkSignal (ws s) (return_type s) (object s) (Some ev) (_func s)
                (no_return_functions s) (included_private_methods s)
                (getmembers s))
  else ret tt.

Definition read_func (decorator : sid) : M fid :=
  s <- get_signal decorator ;;
  match _func s with
  | Some f => ret f
  | None => raise (AttributeError "_func")
  end.

(** Lines 30 to 43 of the wrapper: the block run when the object is in
    signal mode after the method returned [value]. *)
Definition forward (decorator : sid) (self : pyval) (args : list pyval)
           (kwargs : list (string * pyval)) (value : pyval)
           (original_copy : option pyval) : M pyval :=
  resolve_channel decorator self ;;;
  f <- read_func decorator ;;
  kwargs <- lift (fn_bind E f (self :: args) kwargs) ;;
  let kwargs := dict_set "return_value" value kwargs in
  self_ <- lift (getitem (VDict kwargs) "self") ;;
  let kwargs := dict_set "object" self_ kwargs in
  oc <- read_local "original_copy" original_copy ;;
  let kwargs := dict_set "original_copy" oc kwargs in
  let kwargs := dict_del "self" kwargs in
  f <- read_func decorator ;;
  if dict_has "func" kwargs then raise TypeError
  else _call_method decorator f kwargs.

(** Lines 25 and 26 of the wrapper: the copy taken before the call, bound
    only in signal mode. *)
Definition snapshot (self : pyval) : M (option pyval) :=
  mode <- getattr self "_signal_mode" ;;
  if truthy mode then c <- copy self ;; ret (Some c) else ret None.

(** Lines 44 to 48 of the wrapper. *)
Definition return_policy (decorator : sid) (func : fid)
           (value real_output : pyval) : M pyval :=
  s <- get_signal decorator ;;
  if mem_str (fn_name E func) (no_return_functions s) then ret VNone
  else if eq_str (return_type s) "js" then ret real_output
  else ret value.

(** The wrapper [new_func] that [Signal.__call__] returns for [func]. *)
Definition new_func (decorator : sid) (func : fid) (self : pyval)
           (args : list pyval) (kwargs : list (string * pyval)) : M pyval :=
  s <- get_signal decorator ;;
  set_signal decorator
    (mkSignal (ws s) (return_type s) (Some self) (evaluate_js s) (_func s)
              (no_return_functions s) (included_private_methods s)
              (getmembers s)) ;;;
  original_copy <- snapshot self ;;
  f <- read_func decorator ;;
  value <- fn_call E f (self :: args) kwargs ;;
  mode <- getattr self "_signal_mode" ;;
  real_output <- (if truthy mode
                  then forward decorator self args kwargs value original_copy
                  else ret value) ;;
  return_policy decorator func value real_output.

(** [Signal.__call__]: record the function on the instance and hand out its
    wrapper. *)
Definition Signal___call__ (decorator : sid) (func : fid)
  : M (pyval -> list pyval -> list (string * pyval) -> M pyval) :=
  s <- get_signal decorator ;;
  set_signal decorator
    (mkSignal (ws s) (return_type s) (object s) (evaluate_js s) (Some func)
              (no_return_functions s) (included_private_methods s)
              (getmembers s)) ;;;
  ret (new_func decorator func).

End Signals.

(** ** File.save *)

(** The stream handed to [File.save] belongs to the caller: a state and its
    two methods. *)
Record Stream (S : Type) : Type := mkStream {
  stream_write : S -> pyval -> outcome S;
  stream_flush : S -> outcome S
}.

Section Save.

Variable E : Env.
Variable S : Type.
Variable ops : Stream S.

(** The [for] loop of [File.save] from a state of the generator, for at most
    [fuel] calls of [next]: every chunk is written, then the stream is
    flushed; an exception of the stream leaves the loop. *)
Fixpoint save_loop (fuel : nat) (self : pyval) (st : gen_state) (stream : S)
         (w : World) : gen_end * S * World :=
  match fuel with
  | O => (Suspended st, stream, w)
  | Datatypes.S fuel' =>
      match File___iter___next E self st w with
      | (Ok (Yield data, st'), w') =>
          match stream_write ops stream data with
          | Ok s1 =>
              match stream_flush ops s1 with
              | Ok s2 => save_loop fuel' self st' s2 w'
              | Raise e => (Raised e, s1, w')
              | Blocked => (Hung, s1, w')
              end
          | Raise e => (Raised e, stream, w')
          | Blocked => (Hung, stream, w')
          end
      | (Ok (StopIteration, _), w') => (Exhausted, stream, w')
      | (Raise e, w') => (Raised e, stream, w')
      | (Blocked, w') => (Hung, stream, w')
      end
  end.

(** [File.save(stream)]: the loop over a new generator. *)
Definition File_save (fuel : nat) (self : pyval) (stream : S) (w : World)
  : gen_end * S * World :=
  save_loop fuel self GenStart stream w.

End Save.

(** ** Vocabulary of the statements *)

(** The same environment with another decoder. *)
Definition with_json_loads (loads : pyval -> outcome pyval) (E : Env) : Env :=
  mkEnv loads (json_dumps E) (validate_data E) (run_js E) (fn_name E)
        (fn_call E) (fn_bind E).

(** The world once [evs] were added to the trace. *)
Definition logged (evs : list event) (w : World) : World :=
  mkWorld (heap w) (signals w) (inbox w) (trace w ++ evs).

(** The world once websocket [c] delivered its next message. *)
Definition popped (c : chan) (w : World) : World :=
  mkWorld (heap w) (signals w)
          (fun c' => if Nat.eqb c' c then tl (inbox w c') else inbox w c')
          (trace w).

(** The signal builder [_call_method] picks for a function name: the first
    function member of that name that is public or listed as included. *)
Fixpoint find_builder (func_name : string) (included : list string)
         (ms : list (string * fid)) : option fid :=
  match ms with
  | [] => None
  | (method_name, method) :: rest =>
      if String.eqb method_name func_name
         && (negb (starts_with_underscore method_name)
             || mem_str method_name included)
      then Some method
      else find_builder func_name included rest
  end.

(** The number of messages sent, received and evaluated in a trace. *)
Definition is_send (e : event) : bool :=
  match e with EvSend _ _ => true | _ => false end.
Definition is_receive (e : event) : bool :=
  match e with EvReceive _ _ => true | _ => false end.
Definition is_evaluate (e : event) : bool :=
  match e with EvEvaluate _ _ _ => true | _ => false end.
Definition count_events (p : event -> bool) (t : list event) : nat :=
  List.length (filter p t).

(** The world when websocket [c] has taken [text] and delivered [m], and [m]
    has been shown to the validator of [app]. *)
Definition answered (c : chan) (text : string) (m app : pyval) (w : World)
  : World :=
  logged [EvSend c text; EvReceive c m; EvValidate app m] (popped c w).

(** The [File] that [File.__init__] builds from one entry of a listing. *)
Definition file_of_entry (signal app ws_ file_dict : pyval) : option File :=
  match getitem file_dict "file-id", getitem file_dict "name",
        getitem file_dict "size", getitem file_dict "type",
        getitem file_dict "last-modified" with
  | Ok i, Ok n, Ok s, Ok t, Ok l =>
      Some (mkFile file_dict n s t l ws_ i app signal (VBool false))
  | _, _, _, _, _ => None
  end.

Fixpoint files_of_entries (signal app ws_ : pyval) (entries : list pyval)
  : option (list File) :=
  match entries with
  | [] => Some []
  | e :: r =>
      match file_of_entry signal app ws_ e,
            files_of_entries signal app ws_ r with
      | Some f, Some fs => Some (f :: fs)
      | _, _ => None
      end
  end.

(** The world once [objs] were allocated. *)
Definition allocated (objs : list pyobject) (w : World) : World :=
  mkWorld (heap w ++ objs) (signals w) (inbox w) (trace w).

(** References to [n] objects allocated from address [a] on. *)
Definition refs (a n : nat) : list pyval := map VRef (seq a n).

(** The world once line 24 of the wrapper has stored [self] on the
    decorator. *)
Definition with_object (decorator : sid) (self : pyval) (w : World) : World :=
  let s := signals w decorator in
  mkWorld (heap w)
          (fun d' => if Nat.eqb d' decorator
                     then mkSignal (ws s) (return_type s) (Some self)
                                   (evaluate_js s) (_func s)
                                   (no_return_functions s)
                                   (included_private_methods s) (getmembers s)
                     else signals w d')
          (inbox w) (trace w).

(** What lines 155 and 156, or 167 and 168, make of a chunk for a file whose
    [is_binary] attribute is [b]. *)
Definition converted (b data : pyval) : outcome pyval :=
  if truthy b then bytearray data else Ok data.

(** The keyword arguments lines 36 to 42 of the wrapper hand to the signal
    builder: the bound arguments without [self], with the return value, the
    object and its copy from before the call. *)
Definition call_context (bound : list (string * pyval))
           (value self_ original_copy : pyval) : list (string * pyval) :=
  dict_del "self"
    (dict_set "original_copy" original_copy
       (dict_set "object" self_ (dict_set "return_value" value bound))).

(** ** Further vocabulary *)

(** Writing and flushing a list of chunks, one after the other. *)
Fixpoint write_all {S} (ops : Stream S) (stream : S) (chunks : list pyval)
  : outcome S :=
  match chunks with
  | [] => Ok stream
  | data :: rest =>
      match stream_write ops stream data with
      | Ok s1 =>
          match stream_flush ops s1 with
          | Ok s2 => write_all ops s2 rest
          | Raise e => Raise e
          | Blocked => Blocked
          end
      | Raise e => Raise e
      | Blocked => Blocked
      end
  end.

(** The decorator [s] with its transports set. *)
Definition with_transports (ws_ ev : pyval) (s : Signal) : Signal :=
  mkSignal ws_ (return_type s) (object s) (Some ev) (_func s)
           (no_return_functions s) (included_private_methods s)
           (getmembers s).

(** The websocket and the evaluator a page with the [__dict__] [d] at
    address [p] offers. *)
Definition page_ws (d : list (string * pyval)) : pyval :=
  match dict_get "_ws" d with Some x => x | None => VNone end.

Definition page_evaluate_js (p : addr) (d : list (string * pyval)) : pyval :=
  match dict_get "_evaluate_js" d with Some x => x | None => VEvalJs p end.

(** [w'] is [w] but for the decorator, which is now [s]. *)
Definition only_decorator (decorator : sid) (s : Signal) (w w' : World)
  : Prop :=
  signals w' decorator = s
  /\ (forall d', d' <> decorator -> signals w' d' = signals w d')
  /\ heap w' = heap w /\ inbox w' = inbox w /\ trace w' = trace w.

(** A generator state of the loop over the websocket. *)
Definition over_websocket (st : gen_state) : bool :=
  match st with
  | GenDirect _ _ => false
  | _ => true
  end.

Definition is_start (st : gen_state) : bool :=
  match st with
  | GenStart => true
  | _ => false
  end.

(** What lines 44 to 48 of the wrapper return. *)
Definition returned (E : Env) (s : Signal) (func : fid)
           (value real_output : pyval) : pyval :=
  if mem_str (fn_name E func) (no_return_functions s) then VNone
  else if eq_str (return_type s) "js" then real_output
  else value.

(** What is wrong with an entry of a listing, if anything: the first of the
    lookups of lines 77 and 127 to 130 that fails. *)
Definition entry_error (file_dict : pyval) : option exn :=
  match getitem file_dict "file-id" with
  | Raise e => Some e
  | _ =>
      match getitem file_dict "name" with
      | Raise e => Some e
      | _ =>
          match getitem file_dict "size" with
          | Raise e => Some e
          | _ =>
              match getitem file_dict "type" with
              | Raise e => Some e
              | _ =>
                  match getitem file_dict "last-modified" with
                  | Raise e => Some e
                  | _ => None
                  end
              end
          end
      end
  end.

(** [w'] is [w] with the events [evs] added to its trace, and the same heap
    and decorators. *)
Definition traced (evs : list event) (w w' : World) : Prop :=
  heap w' = heap w /\ signals w' = signals w /\ trace w' = trace w ++ evs.

(** What a run of the generator leaves behind: [n] messages taken from the
    websocket [c], [s] signals sent, nothing evaluated, no other channel
    touched, the heap as it was. *)
Definition consumed (c : chan) (n s : nat) (w w' : World) : Prop :=
  heap w' = heap w
  /\ inbox w' c = skipn n (inbox w c)
  /\ (forall c', c' <> c -> inbox w' c' = inbox w c')
  /\ exists evs, trace w' = trace w ++ evs
                 /\ count_events is_receive evs = n
                 /\ count_events is_send evs = s
                 /\ count_events is_evaluate evs = 0.

(** What lines 148 to 158 make of the message [m] for the file [f]: the
    chunk yielded for it and whether its [end] is [True]; [None] when the
    message is rejected, or is not such a chunk. *)
Definition chunk_of (E : Env) (f : File) (m : pyval) : option (pyval * bool) :=
  match validate_data E (_app f) m with
  | Ok v =>
      if truthy v then
        match json_loads E m with
        | Ok data_dict =>
            match getitem data_dict "data" with
            | Ok data =>
                match converted (is_binary f) data with
                | Ok x =>
                    match getitem data_dict "end" with
                    | Ok e => Some (x, eq_True e)
                    | _ => None
                    end
                | _ => None
                end
            | _ => None
            end
        | _ => None
        end
      else None
  | _ => None
  end.

(** The events of receiving and validating the messages [ms], in order. *)
Definition chunk_events (c : chan) (app : pyval) (ms : list pyval)
  : list event :=
  flat_map (fun m => [EvReceive c m; EvValidate app m]) ms.

(** The world once websocket [c] delivered its next [n] messages. *)
Fixpoint received (n : nat) (c : chan) (w : World) : World :=
  match n with
  | O => w
  | S n' => received n' c (popped c w)
  end.

(** ** A small JSON codec

    An instance of the [json] functions for running the model: [null],
    booleans, integers, strings with the two escapes for the quote and the
    backslash, lists and objects, written with the separators [json.dumps]
    uses by default. *)

Module MiniJson.

Definition dq : ascii := ascii_of_nat 34.
Definition backslash : ascii := ascii_of_nat 92.

Fixpoint escape (s : string) : string :=
  match s with
  | EmptyString => EmptyString
  | String c r =>
      if Ascii.eqb c dq || Ascii.eqb c backslash
      then String backslash (String c (escape r))
      else String c (escape r)
  end.

Definition quoted (s : string) : string :=
  String dq (escape s ++ String dq EmptyString)%string.

Fixpoint join (sep : string) (l : list string) : string :=
  match l with
  | [] => EmptyString
  | [x] => x
  | x :: r => (x ++ sep ++ join sep r)%string
  end.

Fixpoint dumps_text (v : pyval) : option string :=
  let fix elems (l : list pyval) : option (list string) :=
    match l with
    | [] => Some []
    | x :: r =>
        match dumps_text x, elems r with
        | Some t, Some ts => Some (t :: ts)
        | _, _ => None
        end
    end in
  let fix items (d : list (string * pyval)) : option (list string) :=
    match d with
    | [] => Some []
    | (k, x) :: r =>
        match dumps_text x, items r with
        | Some t, Some ts => Some ((quoted k ++ ": " ++ t)%string :: ts)
        | _, _ => None
        end
    end in
  match v with
  | VNone => Some "null"
  | VBool true => Some "true"
  | VBool false => Some "false"
  | VInt z => Some (NilZero.string_of_int (Z.to_int z))
  | VStr t => Some (quoted t)
  | VList l =>
      match elems l with
      | Some ts => Some ("[" ++ join ", " ts ++ "]")%string
      | None => None
      end
  | VDict d =>
      match items d with
      | Some ts => Some ("{" ++ join ", " ts ++ "}")%string
      | None => None
      end
  | _ => None
  end.

Definition dumps (v : pyval) : outcome string :=
  match dumps_text v with
  | Some t => Ok t
  | None => Raise TypeError
  end.

Definition is_space (c : ascii) : bool :=
  Ascii.eqb c " "%char || Ascii.eqb c (ascii_of_nat 10)
  || Ascii.eqb c (ascii_of_nat 13) || Ascii.eqb c (ascii_of_nat 9).

Definition is_digit (c : ascii) : bool :=
  let n := nat_of_ascii c in Nat.leb 48 n && Nat.leb n 57.

Fixpoint skip_ws (s : string) : string :=
  match s with
  | String c r => if is_space c then skip_ws r else s
  | EmptyString => s
  end.

(** The rest of a string literal, after its opening quote. *)
Fixpoint string_body (s : string) (acc : string) : option (string * string) :=
  match s with
  | EmptyString => None
  | String c r =>
      if Ascii.eqb c dq then Some (acc, r)
      else if Ascii.eqb c backslash then
        match r with
        | String c2 r2 =>
            if Ascii.eqb c2 dq || Ascii.eqb c2 backslash
            then string_body r2 (acc ++ String c2 EmptyString)%string
            else None
        | EmptyString => None
        end
      else string_body r (acc ++ String c EmptyString)%string
  end.

Fixpoint digits (s : string) (acc : string) : string * string :=
  match s with
  | String c r =>
      if is_digit c then digits r (acc ++ String c EmptyString)%string
      else (acc, s)
  | EmptyString => (acc, s)
  end.

Definition number (s : string) : option (pyval * string) :=
  let (neg, r) :=
    match s with
    | String "-"%char r => (true, r)
    | _ => (false, s)
    end in
  let (ds, rest) := digits r EmptyString in
  match ds with
  | EmptyString => None
  | String "0"%char (String _ _) => None
  | _ =>
      match NilZero.int_of_string ds with
      | Some i => Some (VInt (if neg then - Z.of_int i else Z.of_int i)%Z, rest)
      | None => None
      end
  end.

Definition literal (word : string) (v : pyval) (s : string)
  : option (pyval * string) :=
  if String.prefix word s
  then Some (v, substring (String.length word)
                          (String.length s - String.length word) s)
  else None.

Fixpoint value (fuel : nat) (s : string) : option (pyval * string) :=
  match fuel with
  | O => None
  | S n =>
      match skip_ws s with
      | EmptyString => None
      | String c r as s' =>
          if Ascii.eqb c dq then
            match string_body r EmptyString with
            | Some (t, rest) => Some (VStr t, rest)
            | None => None
            end
          else if Ascii.eqb c "["%char then
            match skip_ws r with
            | String "]"%char rest => Some (VList [], rest)
            | r' => elements n r' []
            end
          else if Ascii.eqb c "{"%char then
            match skip_ws r with
            | String "}"%char rest => Some (VDict [], rest)
            | r' => members n r' []
            end
          else if Ascii.eqb c "n"%char then literal "null" VNone s'
          else if Ascii.eqb c "t"%char then literal "true" (VBool true) s'
          else if Ascii.eqb c "f"%char then literal "false" (VBool false) s'
          else number s'
      end
  end
with elements (fuel : nat) (s : string) (acc : list pyval)
  : option (pyval * string) :=
  match fuel with
  | O => None
  | S n =>
      match value n s with
      | Some (v, rest) =>
          match skip_ws rest with
          | String ","%char rest' => elements n rest' (acc ++ [v])
          | String "]"%char rest' => Some (VList (acc ++ [v]), rest')
          | _ => None
          end
      | None => None
      end
  end
with members (fuel : nat) (s : string) (acc : list (string * pyval))
  : option (pyval * string) :=
  match fuel with
  | O => None
  | S n =>
      match skip_ws s with
      | String c r =>
          if Ascii.eqb c dq then
            match string_body r EmptyString with
            | Some (k, rest) =>
                match skip_ws rest with
                | String ":"%char rest' =>
                    match value n rest' with
                    | Some (v, rest'') =>
                        match skip_ws rest'' with
                        | String ","%char t => members n t (dict_set k v acc)
                        | String "}"%char t => Some (VDict (dict_set k v acc), t)
                        | _ => None
                        end
                    | None => None
                    end
                | _ => None
                end
            | None => None
            end
          else None
      | EmptyString => None
      end
  end.

Definition loads (v : pyval) : outcome pyval :=
  match v with
  | VStr s =>
      match value (2 * String.length s + 2) s with
      | Some (x, rest) =>
          match skip_ws rest with
          | EmptyString => Ok x
          | _ => Raise JSONDecodeError
          end
      | None => Raise JSONDecodeError
      end
  | _ => Raise TypeError
  end.

End MiniJson.

(** ** A scripted environment

    Three methods of a page and their signal builders, a validator that
    accepts the messages the codec can decode, and an evaluator answering by
    function name.  It serves to run the model on concrete calls. *)

Module Demo.

Definition get_value : fid := 0.        (* def get_value(self): return 1 *)
Definition enable : fid := 1.           (* def enable(self): self._signal_mode = True *)
Definition get_files : fid := 2.        (* def get_files(self): return None *)
Definition build_get_value : fid := 10. (* the builder of get_value *)
Definition build_enable : fid := 11.    (* the builder of enable: opts out *)
Definition build_get_files : fid := 12. (* the builder of get_files *)

Definition fn_name (f : fid) : string :=
  match f with
  | 0 | 10 => "get_value"
  | 1 | 11 => "enable"
  | 2 | 12 => "get_files"
  | _ => "<lambda>"
  end.

Fixpoint update_nth {A} (n : nat) (g : A -> A) (l : list A) : list A :=
  match l, n with
  | [], _ => []
  | x :: r, O => g x :: r
  | x :: r, S n' => x :: update_nth n' g r
  end.

(** [v.a = x] on an instance. *)
Definition setattr (v : pyval) (a : string) (x : pyval) : M unit :=
  fun w =>
    match v with
    | VRef p =>
        (Ok tt,
         mkWorld (update_nth p (fun o => match o with
                                         | Instance c d => Instance c (dict_set a x d)
                                         | FileObj f => FileObj f
                                         end) (heap w))
                 (signals w) (inbox w) (trace w))
    | _ => (Raise (AttributeError a), w)
    end.

Definition descriptor (func : string) : pyval :=
  VDict [("func", VStr func); ("args", VList []); ("kwargs", VDict [])].

Definition fn_call (f : fid) (args : list pyval)
           (kwargs : list (string * pyval)) : M pyval :=
  match f, args with
  | 0, [_] => ret (VInt 1)
  | 1, [self] => setattr self "_signal_mode" (VBool true) ;;; ret VNone
  | 2, [_] => ret VNone
  | 10, [] => ret (descriptor "_getValue")
  | 11, [] => ret VNone
  | 12, [] => ret (descriptor "_getFiles")
  | _, _ => raise TypeError
  end.

Definition fn_bind (f : fid) (args : list pyval)
           (kwargs : list (string * pyval))
  : outcome (list (string * pyval)) :=
  match args, kwargs with
  | [self], [] => Ok [("self", self)]
  | _, _ => Raise TypeError
  end.

Definition validate_data (app data : pyval) : outcome pyval :=
  match MiniJson.loads data with
  | Ok _ => Ok (VBool true)
  | _ => Ok (VBool false)
  end.

Definition q := MiniJson.quoted.

(** A listing with one uploaded file. *)
Definition files_text : string :=
  ("{" ++ q "type" ++ ": " ++ q "files" ++ ", " ++ q "data" ++ ": [{"
   ++ q "name" ++ ": " ++ q "a.txt" ++ ", " ++ q "size" ++ ": 2, "
   ++ q "type" ++ ": " ++ q "text/plain" ++ ", " ++ q "last-modified"
   ++ ": 0, " ++ q "file-id" ++ ": 7}]}")%string.

Definition file_entry : pyval :=
  VDict [("name", VStr "a.txt"); ("size", VInt 2);
         ("type", VStr "text/plain"); ("last-modified", VInt 0);
         ("file-id", VInt 7)].

(** A chunk message carrying a JSON value given as text. *)
Definition chunk_text (data : string) (last : bool) : string :=
  ("{" ++ q "data" ++ ": " ++ data ++ ", " ++ q "end" ++ ": "
   ++ (if last then "true" else "false") ++ "}")%string.

Definition run_js (w : World) (page : addr) (func kwargs : pyval)
  : outcome pyval :=
  match func with
  | VStr "_getFiles" => Ok (VStr files_text)
  | VStr "_saveFile" => Ok (VStr (chunk_text (q "a") true))
  | VStr "_getValue" => Ok (VStr "<undefined>")
  | _ => Ok VNone
  end.

Definition env : Env :=
  mkEnv MiniJson.loads MiniJson.dumps validate_data run_js fn_name fn_call
        fn_bind.

(** An application, a page attached to websocket [0], a page without a
    websocket, and an element of the first page. *)
Definition app : pyval := VRef 0.
Definition page : pyval := VRef 1.
Definition desktop_page : pyval := VRef 2.
Definition element : pyval := VRef 3.

Definition heap0 (mode : bool) : list pyobject :=
  [Instance "App" [];
   Instance "Page" [("_signal_mode", VBool mode); ("_app", app);
                    ("_ws", VWs 0)];
   Instance "Page" [("_signal_mode", VBool mode); ("_app", app)];
   Instance "Element" [("_signal_mode", VBool mode); ("_app", app);
                       ("_parent_page", page)]].

(** The decorator of each method, as [Signal.__call__] leaves it. *)
Definition signal_of (return_type_ : pyval) (no_return : list string)
           (f : fid) : Signal :=
  mkSignal VNone return_type_ None None (Some f) no_return
           ["_open_another_page"]
           [("enable", build_enable); ("get_files", build_get_files);
            ("get_value", build_get_value)].

Definition world0 (mode : bool) (s : Signal) (script : list pyval) : World :=
  mkWorld (heap0 mode) (fun _ => s) (fun _ => script) [].

(** A decorator in the middle of a call on [obj], its transports resolved. *)
Definition in_call (return_type_ ws_ obj : pyval) (f : fid) : Signal :=
  mkSignal ws_ return_type_ (Some obj) (Some (VEvalJs 2)) (Some f) []
           ["_open_another_page"]
           [("enable", build_enable); ("get_files", build_get_files);
            ("get_value", build_get_value)].

(** An ordinary answer of the given kind, its data given as JSON text. *)
Definition answer_text (kind data : string) : string :=
  ("{" ++ q "type" ++ ": " ++ q kind ++ ", " ++ q "data" ++ ": " ++ data
   ++ "}")%string.

(** The file of the listing, as [_send] builds it for the channel [ws_]. *)
Definition upload (ws_ binary : pyval) : File :=
  mkFile file_entry (VStr "a.txt") (VInt 2) (VStr "text/plain") (VInt 0)
         ws_ (VInt 7) app (descriptor "_getFiles") binary.

(** A world whose heap holds that file at address 4. *)
Definition file_world (f : File) (script : list pyval) : World :=
  mkWorld (heap0 true ++ [FileObj f])
          (fun _ => in_call (VStr "js") (_ws f) page get_files)
          (fun _ => script) [].

Definition save_text (binary : string) : string :=
  ("{" ++ q "func" ++ ": " ++ q "_saveFile" ++ ", " ++ q "args" ++ ": [], "
   ++ q "kwargs" ++ ": {" ++ q "file-id" ++ ": 7, " ++ q "binary" ++ ": "
   ++ binary ++ "}}")%string.

End Demo.

(** ** More scripted functions

    The environment above with two private methods, [_refresh] and
    [_open_another_page], a method [rename(self, func)] whose parameter is
    called [func], and a function [helper(page)] without [self]. *)

Module Demo2.

Definition refresh : fid := 20.            (* def _refresh(self): return 2 *)
Definition open_another_page : fid := 21.  (* def _open_another_page(self): return 3 *)
Definition rename : fid := 22.             (* def rename(self, func): return None *)
Definition helper : fid := 23.             (* def helper(page): return None *)
Definition build_refresh : fid := 30.
Definition build_open_another_page : fid := 31.
Definition build_rename : fid := 32.
Definition build_helper : fid := 33.

Definition fn_name (f : fid) : string :=
  match f with
  | 20 | 30 => "_refresh"
  | 21 | 31 => "_open_another_page"
  | 22 | 32 => "rename"
  | 23 | 33 => "helper"
  | _ => Demo.fn_name f
  end.

Definition fn_call (f : fid) (args : list pyval)
           (kwargs : list (string * pyval)) : M pyval :=
  match f, args with
  | 20, [_] => ret (VInt 2)
  | 21, [_] => ret (VInt 3)
  | 22, [_; _] => ret VNone
  | 23, [_] => ret VNone
  | 30, [] => ret (Demo.descriptor "_refresh")
  | 31, [] => ret (Demo.descriptor "_openAnotherPage")
  | 32, [] => ret (Demo.descriptor "_rename")
  | 33, [] => ret (Demo.descriptor "_helper")
  | _, _ => Demo.fn_call f args kwargs
  end.

Definition fn_bind (f : fid) (args : list pyval)
           (kwargs : list (string * pyval))
  : outcome (list (string * pyval)) :=
  match f, args, kwargs with
  | 22, [self; x], [] => Ok [("self", self); ("func", x)]
  | 23, [x], [] => Ok [("page", x)]
  | _, _, _ => Demo.fn_bind f args kwargs
  end.

Definition env : Env :=
  mkEnv MiniJson.loads MiniJson.dumps Demo.validate_data Demo.run_js fn_name
        fn_call fn_bind.

Definition members : list (string * fid) :=
  [("_open_another_page", build_open_another_page);
   ("_refresh", build_refresh);
   ("enable", Demo.build_enable);
   ("get_files", Demo.build_get_files);
   ("get_value", Demo.build_get_value);
   ("helper", build_helper);
   ("rename", build_rename)].

Definition signal_of (return_type_ ws_ : pyval) (f : fid) : Signal :=
  mkSignal ws_ return_type_ None None (Some f) [] ["_open_another_page"]
           members.

Definition world0 (mode : bool) (s : Signal) (script : list pyval) : World :=
  mkWorld (Demo.heap0 mode) (fun _ => s) (fun _ => script) [].

(** A stream that records what is done to it and refuses bytearrays, as a
    file opened in text mode does. *)
Inductive stream_op : Type :=
| Written (data : pyval)
| Flushed.

Definition text_stream : Stream (list stream_op) :=
  mkStream
    (fun s data =>
       match data with
       | VStr _ => Ok (s ++ [Written data])
       | _ => Raise TypeError
       end)
    (fun s => Ok (s ++ [Flushed])).

(** A file without a websocket whose [_signal] is an instance that carries
    the evaluator of the desktop page, at addresses 5 and 4. *)
Definition evaluator_file : File :=
  mkFile Demo.file_entry (VStr "a.txt") (VInt 2) (VStr "text/plain")
         (VInt 0) VNone (VInt 7) Demo.app (VRef 4) (VBool false).

Definition evaluator_world : World :=
  mkWorld (Demo.heap0 true
           ++ [Instance "Signal" [("evaluate_js", VEvalJs 2)];
               FileObj evaluator_file])
          (fun _ => Demo.in_call (VStr "js") VNone Demo.desktop_page
                                 Demo.get_files)
          (fun _ => []) [].

End Demo2.

(** * Properties *)

(** ** Stepping through the monad *)

Lemma bind_ok {A B} (m : M A) (k : A -> M B) w a w' :
  m w = (Ok a, w') -> bind m k w = k a w'.
Proof. intros H. unfold bind. now rewrite H. Qed.

Lemma bind_raise {A B} (m : M A) (k : A -> M B) w e w' :
  m w = (Raise e, w') -> bind m k w = (Raise e, w').
Proof. intros H. unfold bind. now rewrite H. Qed.

Lemma bind_blocked {A B} (m : M A) (k : A -> M B) w w' :
  m w = (Blocked, w') -> bind m k w = (Blocked, w').
Proof. intros H. unfold bind. now rewrite H. Qed.

Lemma logged_app evs1 evs2 w :
  logged evs2 (logged evs1 w) = logged (evs1 ++ evs2) w.
Proof. unfold logged. simpl. now rewrite app_assoc. Qed.

Lemma ws_receive_next c m rest w :
  inbox w c = m :: rest ->
  ws_receive c w = (Ok m, logged [EvReceive c m] (popped c w)).
Proof. intros H. unfold ws_receive. now rewrite H. Qed.

Lemma ws_receive_silent c w :
  inbox w c = [] -> ws_receive c w = (Blocked, w).
Proof. intros H. unfold ws_receive. now rewrite H. Qed.

Section SendOverWebsocket.

Variable E : Env.
Variables (self : sid) (signal : pyval) (w : World).
Variables (c : chan) (text : string) (m : pyval) (rest : list pyval).
Variables (obj app : pyval).

Hypothesis Hws : ws (signals w self) = VWs c.
Hypothesis Hdumps : json_dumps E signal = Ok text.
Hypothesis Hjs : eq_str (return_type (signals w self)) "js" = true.
Hypothesis Hinbox : inbox w c = m :: rest.
Hypothesis Hobj : object (signals w self) = Some obj.
Hypothesis Happ : attr_of (heap w) obj "_app" = Ok app.

Lemma send_ws_prefix v :
  validate_data E app m = Ok v ->
  _send E self signal w
  = (if negb (truthy v) then ret VNone
     else
       data_dict <- lift (json_loads E m) ;;
       keys_of data_dict ;;;
       ty <- lift (getitem data_dict "type") ;;
       if eq_str ty "files" then
         data <- lift (getitem data_dict "data") ;;
         entries <- lift (iterate data) ;;
         files <- make_files self signal true entries [] ;;
         ret (VList files)
       else lift (getitem data_dict "data")) (answered c text m app w).
Proof.
  intros Hv.
  unfold _send, validate, ws_send, getattr, get_signal, log, lift, ret, bind.
  rewrite Hws. simpl. rewrite Hdumps, Hjs, Hws. simpl.
  rewrite (@ws_receive_next c m rest) by exact Hinbox.
  rewrite Hobj. simpl. rewrite Happ, Hv.
  unfold answered, logged, popped. simpl.
  rewrite <- !app_assoc. simpl.
  destruct (truthy v); reflexivity.
Qed.

End SendOverWebsocket.

(** ** Allocation of the file handles *)

Lemma attr_of_app h objs v a x :
  attr_of h v a = Ok x -> attr_of (h ++ objs) v a = Ok x.
Proof.
  destruct v; simpl; try discriminate.
  destruct (nth_error h a0) eqn:Hn; try discriminate.
  rewrite nth_error_app1 by (apply nth_error_Some; congruence).
  now rewrite Hn.
Qed.

Lemma make_files_entries signal (with_ws : bool) self obj app :
  forall entries fs files w,
    object (signals w self) = Some obj ->
    attr_of (heap w) obj "_app" = Ok app ->
    files_of_entries signal app
      (if with_ws then ws (signals w self) else VNone) entries = Some fs ->
    make_files self signal with_ws entries files w
    = (Ok (files ++ refs (List.length (heap w)) (List.length fs)),
       allocated (map FileObj fs) w).
Proof.
  induction entries as [|e r IH]; intros fs files w Hobj Happ Hfs.
  - simpl in Hfs. injection Hfs as <-. simpl.
    unfold ret, allocated, refs. simpl. rewrite !app_nil_r.
    now destruct w.
  - simpl in Hfs.
    destruct (file_of_entry _ _ _ e) as [f|] eqn:Hf; try discriminate.
    destruct (files_of_entries _ _ _ r) as [fs'|] eqn:Hr; try discriminate.
    injection Hfs as <-.
    unfold file_of_entry in Hf.
    destruct (getitem e "file-id") as [i| |] eqn:Hi; try discriminate.
    destruct (getitem e "name") as [n| |] eqn:Hn; try discriminate.
    destruct (getitem e "size") as [s| |] eqn:Hs; try discriminate.
    destruct (getitem e "type") as [t| |] eqn:Ht; try discriminate.
    destruct (getitem e "last-modified") as [l| |] eqn:Hl; try discriminate.
    injection Hf as <-.
    simpl make_files.
    unfold File___init__, alloc, getattr, get_signal, lift, ret, bind.
    rewrite Hobj. simpl. rewrite Happ, Hi, Hn, Hs, Ht, Hl.
    rewrite (IH fs'); simpl; auto using attr_of_app.
    unfold allocated, refs. simpl.
    rewrite <- !app_assoc. simpl.
    rewrite length_app. simpl. rewrite Nat.add_1_r. reflexivity.
Qed.

(** ** Ordinary calls over the websocket *)

(** C5. An ordinary call over a websocket whose decorator expects a result
    from JavaScript: when the validator answers a falsy value on the message
    received, [_send] returns [None] without raising, after one send, one
    receive and one validation, and whatever the decoder is, so the message
    is neither decoded nor used. *)
Theorem send_validator_rejects E self signal w c text m rest obj app v :
  ws (signals w self) = VWs c ->
  json_dumps E signal = Ok text ->
  eq_str (return_type (signals w self)) "js" = true ->
  inbox w c = m :: rest ->
  object (signals w self) = Some obj ->
  attr_of (heap w) obj "_app" = Ok app ->
  validate_data E app m = Ok v ->
  truthy v = false ->
  _send E self signal w = (Ok VNone, answered c text m app w)
  /\ forall loads,
      _send (with_json_loads loads E) self signal w = _send E self signal w.
Proof.
  intros Hws Hd Hjs Hin Hobj Happ Hv Hfalsy.
  assert (Hsend : forall E', json_dumps E' signal = Ok text ->
                             validate_data E' app m = Ok v ->
                             _send E' self signal w
                             = (Ok VNone, answered c text m app w)).
  { intros E' Hd' Hv'.
    rewrite (@send_ws_prefix E' self signal w c text m rest obj app)
      with (v := v) by assumption.
    now rewrite Hfalsy. }
  split.
  - now apply Hsend.
  - intros loads. rewrite (Hsend E) by assumption.
    now apply Hsend.
Qed.

Lemma send_validator_rejects_witness :
  let w := Demo.world0 true (Demo.in_call (VStr "js") (VWs 0) Demo.page Demo.get_value)
                  [VStr "oops"] in
  _send Demo.env 0 (Demo.descriptor "_getValue") w
  = (Ok VNone,
     answered 0 ("{" ++ Demo.q "func" ++ ": " ++ Demo.q "_getValue" ++ ", " ++ Demo.q "args"
                 ++ ": [], " ++ Demo.q "kwargs" ++ ": {}}")%string
              (VStr "oops") Demo.app w)
  /\ forall loads,
      _send (with_json_loads loads Demo.env) 0 (Demo.descriptor "_getValue") w
      = _send Demo.env 0 (Demo.descriptor "_getValue") w.
Proof.
  intro w.
  apply (@send_validator_rejects Demo.env 0 (Demo.descriptor "_getValue") w 0 _
           (VStr "oops") [] Demo.page Demo.app (VBool false)); reflexivity.
Defined.

Lemma files_of_entries_length signal app ws_ :
  forall entries fs,
    files_of_entries signal app ws_ entries = Some fs ->
    List.length fs = List.length entries.
Proof.
  induction entries as [|e r IH]; simpl; intros fs H.
  - now injection H as <-.
  - destruct (file_of_entry signal app ws_ e); try discriminate.
    destruct (files_of_entries signal app ws_ r); try discriminate.
    injection H as <-. simpl. f_equal. now apply IH.
Qed.

Lemma files_of_entries_bound signal app ws_ :
  forall entries fs,
    files_of_entries signal app ws_ entries = Some fs ->
    Forall (fun f => _ws f = ws_ /\ _signal f = signal /\ _app f = app
                     /\ is_binary f = VBool false) fs.
Proof.
  induction entries as [|e r IH]; simpl; intros fs H.
  - injection H as <-. constructor.
  - destruct (file_of_entry signal app ws_ e) as [f|] eqn:Hf; try discriminate.
    destruct (files_of_entries signal app ws_ r); try discriminate.
    injection H as <-. constructor; [|now apply IH].
    unfold file_of_entry in Hf.
    repeat match type of Hf with
           | match ?x with _ => _ end = _ => destruct x; try discriminate
           end.
    injection Hf as <-. simpl. auto.
Qed.

(** C7, as the code has it.  An accepted answer that decodes to an object
    with a [type] field is never discarded for its type: with the type
    "files" and well-formed entries, [_send] returns one new [File] per entry,
    each bound to the websocket of the call; with any other type, known or
    not, it returns the [data] field as it is. *)
Theorem send_ws_accepted E self signal w c text m rest obj app v dd ty :
  ws (signals w self) = VWs c ->
  json_dumps E signal = Ok text ->
  eq_str (return_type (signals w self)) "js" = true ->
  inbox w c = m :: rest ->
  object (signals w self) = Some obj ->
  attr_of (heap w) obj "_app" = Ok app ->
  validate_data E app m = Ok v ->
  truthy v = true ->
  json_loads E m = Ok (VDict dd) ->
  dict_get "type" dd = Some ty ->
  (forall data,
      eq_str ty "files" = false ->
      dict_get "data" dd = Some data ->
      _send E self signal w = (Ok data, answered c text m app w))
  /\ (forall entries fs,
         eq_str ty "files" = true ->
         dict_get "data" dd = Some (VList entries) ->
         files_of_entries signal app (VWs c) entries = Some fs ->
         _send E self signal w
         = (Ok (VList (refs (List.length (heap w)) (List.length entries))),
            allocated (map FileObj fs) (answered c text m app w))
         /\ Forall (fun f => _ws f = VWs c) fs).
Proof.
  intros Hws Hd Hjs Hin Hobj Happ Hv Htruthy Hloads Hty.
  rewrite (@send_ws_prefix E self signal w c text m rest obj app)
    with (v := v) by assumption.
  rewrite Htruthy. simpl negb. cbv iota.
  split.
  - intros data Hne Hdata.
    unfold bind, lift, keys_of, ret. rewrite Hloads. simpl.
    now rewrite Hty, Hne, Hdata.
  - intros entries fs Heq Hdata Hfs. split.
    + unfold bind, lift, keys_of, ret. rewrite Hloads. simpl.
      rewrite Hty, Heq, Hdata. simpl.
      rewrite (@make_files_entries signal true self obj app entries fs);
        simpl; try assumption.
      * now rewrite (files_of_entries_length _ _ _ _ Hfs).
      * now rewrite Hws.
    + eapply Forall_impl; [|exact (files_of_entries_bound _ _ _ _ Hfs)].
      now intros f [H _].
Qed.

Lemma send_ws_accepted_witness :
  let w := Demo.world0 true
             (Demo.in_call (VStr "js") (VWs 0) Demo.page Demo.get_files)
             [VStr Demo.files_text] in
  let text := ("{" ++ Demo.q "func" ++ ": " ++ Demo.q "_getFiles" ++ ", "
               ++ Demo.q "args" ++ ": [], " ++ Demo.q "kwargs" ++ ": {}}")%string in
  let fs := [mkFile Demo.file_entry (VStr "a.txt") (VInt 2)
                    (VStr "text/plain") (VInt 0) (VWs 0) (VInt 7) Demo.app
                    (Demo.descriptor "_getFiles") (VBool false)] in
  _send Demo.env 0 (Demo.descriptor "_getFiles") w
  = (Ok (VList [VRef 4]),
     allocated (map FileObj fs) (answered 0 text (VStr Demo.files_text) Demo.app w))
  /\ Forall (fun f => _ws f = VWs 0) fs.
Proof.
  intros w text fs.
  apply (fun H1 H2 H3 H4 H5 H6 H7 H8 H9 H10 =>
           proj2 (@send_ws_accepted Demo.env 0 (Demo.descriptor "_getFiles")
                    w 0 text (VStr Demo.files_text) [] Demo.page Demo.app
                    (VBool true)
                    [("type", VStr "files"); ("data", VList [Demo.file_entry])]
                    (VStr "files") H1 H2 H3 H4 H5 H6 H7 H8 H9 H10)
                 [Demo.file_entry] fs);
    reflexivity.
Defined.

(** C7 as stated fails: an accepted answer of an unknown kind is not
    discarded, its data is returned; and an accepted answer without a [type]
    makes [_send] raise [KeyError]. *)
Lemma send_ws_unrecognized_counterexample :
  fst (_send Demo.env 0 (Demo.descriptor "_getValue")
         (Demo.world0 true
            (Demo.in_call (VStr "js") (VWs 0) Demo.page Demo.get_value)
            [VStr (Demo.answer_text "bogus" "5")]))
  = Ok (VInt 5)
  /\ fst (_send Demo.env 0 (Demo.descriptor "_getValue")
            (Demo.world0 true
               (Demo.in_call (VStr "js") (VWs 0) Demo.page Demo.get_value)
               [VStr ("{" ++ Demo.q "data" ++ ": 5}")%string]))
     = Raise (KeyError "type").
Proof. split; vm_compute; reflexivity. Qed.

(** ** Calls through the evaluator *)

Lemma send_direct_prefix E self signal w p f k out :
  truthy (ws (signals w self)) = false ->
  evaluate_js (signals w self) = Some (VEvalJs p) ->
  getitem signal "func" = Ok f ->
  getitem signal "kwargs" = Ok k ->
  run_js E (logged [EvEvaluate p f k] w) p f k = Ok out ->
  _send E self signal w
  = (if eq_str (return_type (signals w self)) "js" then
       r <- try_except (decode_direct E self signal out)
                       (ret (inr (VDict [("data", VNone)]))) ;;
       match r with
       | inl files => ret files
       | inr data_dict => lift (getitem data_dict "data")
       end
     else ret VNone) (logged [EvEvaluate p f k] w).
Proof.
  intros Hws Hev Hf Hk Hout.
  unfold _send, bind at 1, get_signal at 1. rewrite Hws.
  unfold bind at 1. rewrite Hev. simpl read_attr. unfold ret at 1.
  unfold bind at 1, lift at 1. rewrite Hf.
  unfold bind at 1, lift at 1. rewrite Hk.
  unfold bind at 1, call_evaluate_js, bind at 1, log at 1.
  unfold bind at 1, get_world, lift at 1.
  fold (logged [EvEvaluate p f k] w). rewrite Hout.
  unfold bind at 1, get_signal at 1. reflexivity.
Qed.

(** C6. A call through the evaluator whose decorator expects a result from
    JavaScript: when the text the evaluator returns cannot be decoded, the
    [try] block is left with the default [{"data": None}] and [_send] returns
    its [data] field, [None], without raising. *)
Theorem send_direct_undecodable E self signal w p f k out e :
  truthy (ws (signals w self)) = false ->
  evaluate_js (signals w self) = Some (VEvalJs p) ->
  getitem signal "func" = Ok f ->
  getitem signal "kwargs" = Ok k ->
  run_js E (logged [EvEvaluate p f k] w) p f k = Ok out ->
  eq_str (return_type (signals w self)) "js" = true ->
  json_loads E out = Raise e ->
  try_except (decode_direct E self signal out)
             (ret (inr (VDict [("data", VNone)])))
             (logged [EvEvaluate p f k] w)
  = (Ok (inr (VDict [("data", VNone)])), logged [EvEvaluate p f k] w)
  /\ _send E self signal w = (Ok VNone, logged [EvEvaluate p f k] w).
Proof.
  intros Hws Hev Hf Hk Hout Hjs Hloads.
  assert (Htry : try_except (decode_direct E self signal out)
                            (ret (inr (VDict [("data", VNone)])))
                            (logged [EvEvaluate p f k] w)
                 = (Ok (inr (VDict [("data", VNone)])),
                    logged [EvEvaluate p f k] w)).
  { unfold try_except, decode_direct, bind, lift. now rewrite Hloads. }
  split; [exact Htry|].
  rewrite (send_direct_prefix E self signal w Hws Hev Hf Hk Hout), Hjs.
  unfold bind at 1. now rewrite Htry.
Qed.

Lemma send_direct_undecodable_witness :
  let w := Demo.world0 true
             (Demo.in_call (VStr "js") VNone Demo.desktop_page Demo.get_value)
             [] in
  let w' := logged [EvEvaluate 2 (VStr "_getValue") (VDict [])] w in
  try_except (decode_direct Demo.env 0 (Demo.descriptor "_getValue")
                            (VStr "<undefined>"))
             (ret (inr (VDict [("data", VNone)]))) w'
  = (Ok (inr (VDict [("data", VNone)])), w')
  /\ _send Demo.env 0 (Demo.descriptor "_getValue") w = (Ok VNone, w').
Proof.
  intros w w'.
  apply (@send_direct_undecodable Demo.env 0 (Demo.descriptor "_getValue") w 2
           (VStr "_getValue") (VDict []) (VStr "<undefined>") JSONDecodeError);
    reflexivity.
Defined.

(** ** The dispatcher *)

Lemma call_method_loop_found E self func_name included kwargs :
  forall ms m,
    find_builder func_name included ms = Some m ->
    call_method_loop E self func_name included kwargs ms
    = (signal <- fn_call E m [] kwargs ;;
       if truthy signal then _send E self signal else ret VNone).
Proof.
  induction ms as [|[method_name method] rest IH]; simpl; intros m H.
  - discriminate.
  - destruct (String.eqb method_name func_name
              && (negb (starts_with_underscore method_name)
                  || mem_str method_name included)).
    + now injection H as <-.
    + now apply IH.
Qed.

Lemma call_method_loop_missing E self func_name included kwargs :
  forall ms,
    find_builder func_name included ms = None ->
    call_method_loop E self func_name included kwargs ms = ret VNone.
Proof.
  induction ms as [|[method_name method] rest IH]; simpl; intros H.
  - reflexivity.
  - destruct (String.eqb method_name func_name
              && (negb (starts_with_underscore method_name)
                  || mem_str method_name included)).
    + discriminate.
    + now apply IH.
Qed.

(** C3. When the signal builder found under the name of the function
    returns a falsy value, [_call_method] returns [None] and leaves the world
    exactly as the builder left it: nothing is sent, received or
    evaluated. *)
Theorem call_method_falsy_signal E self func kwargs w m signal w' :
  find_builder (fn_name E func) (included_private_methods (signals w self))
               (getmembers (signals w self)) = Some m ->
  fn_call E m [] kwargs w = (Ok signal, w') ->
  truthy signal = false ->
  _call_method E self func kwargs w = (Ok VNone, w')
  /\ trace (snd (_call_method E self func kwargs w)) = trace w'.
Proof.
  intros Hfind Hcall Hfalsy.
  assert (H : _call_method E self func kwargs w = (Ok VNone, w')).
  { unfold _call_method, bind at 1, get_signal.
    rewrite (call_method_loop_found E self _ _ kwargs _ Hfind).
    unfold bind. now rewrite Hcall, Hfalsy. }
  split; [exact H|]. now rewrite H.
Qed.

Lemma call_method_falsy_signal_witness :
  let w := Demo.world0 true
             (Demo.in_call (VStr "js") (VWs 0) Demo.page Demo.enable) [] in
  _call_method Demo.env 0 Demo.enable [("object", Demo.page)] w = (Ok VNone, w)
  /\ trace (snd (_call_method Demo.env 0 Demo.enable [("object", Demo.page)] w))
     = trace w.
Proof.
  intro w.
  apply (@call_method_falsy_signal Demo.env 0 Demo.enable
           [("object", Demo.page)] w Demo.build_enable VNone w); reflexivity.
Defined.

(** ** The wrapper *)

(** Decorating records the function: right after [Signal.__call__] the
    wrapper handed out is the one of the recorded function. *)
Lemma Signal___call___records E decorator func w :
  exists w',
    Signal___call__ E decorator func w
    = (Ok (new_func E decorator func), w')
    /\ _func (signals w' decorator) = Some func
    /\ heap w' = heap w /\ trace w' = trace w.
Proof.
  eexists. unfold Signal___call__, bind, get_signal, set_signal, ret.
  split; [reflexivity|]. simpl. now rewrite Nat.eqb_refl.
Qed.

Lemma snapshot_off self w m0 :
  attr_of (heap w) self "_signal_mode" = Ok m0 ->
  truthy m0 = false ->
  snapshot self w = (Ok None, w).
Proof.
  intros Hm Hf. unfold snapshot, bind, getattr. now rewrite Hm, Hf.
Qed.

Lemma with_object_func decorator self w :
  _func (signals (with_object decorator self w) decorator)
  = _func (signals w decorator).
Proof. unfold with_object. simpl. now rewrite Nat.eqb_refl. Qed.

(** The wrapper up to the call of the method, for an object out of signal
    mode. *)
Lemma new_func_off_prefix E decorator func self args kwargs w m0 f :
  attr_of (heap w) self "_signal_mode" = Ok m0 ->
  truthy m0 = false ->
  _func (signals w decorator) = Some f ->
  new_func E decorator func self args kwargs w
  = (value <- fn_call E f (self :: args) kwargs ;;
     mode <- getattr self "_signal_mode" ;;
     real_output <- (if truthy mode
                     then forward E decorator self args kwargs value None
                     else ret value) ;;
     return_policy E decorator func value real_output)
      (with_object decorator self w).
Proof.
  intros Hm Hf Hfunc.
  unfold new_func, bind at 1, get_signal at 1.
  unfold bind at 1, set_signal at 1. fold (with_object decorator self w).
  unfold bind at 1. rewrite (@snapshot_off self _ m0) by assumption.
  unfold bind at 1, read_func, bind at 1, get_signal at 1.
  now rewrite with_object_func, Hfunc.
Qed.

(** C2, as the code has it.  For an object out of signal mode before and
    after the method body, the wrapper of the recorded method behaves as the
    method itself, called once line 24 has stored the object on the
    decorator: the same value and the same world, hence no send, receive or
    evaluation of its own; unless the name of the method is among
    [no_return_functions], where it returns [None], still in that world. *)
Theorem new_func_signal_mode_off E decorator func self args kwargs w m0 v w2 m1 :
  attr_of (heap w) self "_signal_mode" = Ok m0 ->
  truthy m0 = false ->
  _func (signals w decorator) = Some func ->
  fn_call E func (self :: args) kwargs (with_object decorator self w)
  = (Ok v, w2) ->
  attr_of (heap w2) self "_signal_mode" = Ok m1 ->
  truthy m1 = false ->
  (mem_str (fn_name E func) (no_return_functions (signals w2 decorator)) = false ->
   new_func E decorator func self args kwargs w
   = fn_call E func (self :: args) kwargs (with_object decorator self w))
  /\ (mem_str (fn_name E func) (no_return_functions (signals w2 decorator)) = true ->
      new_func E decorator func self args kwargs w = (Ok VNone, w2)).
Proof.
  intros Hm0 Hf0 Hfunc Hcall Hm1 Hf1.
  assert (H : new_func E decorator func self args kwargs w
              = (Ok (if mem_str (fn_name E func)
                                (no_return_functions (signals w2 decorator))
                     then VNone else v), w2)).
  { rewrite (@new_func_off_prefix E decorator func self args kwargs w m0 func)
      by assumption.
    unfold bind at 1. rewrite Hcall.
    unfold bind at 1, getattr at 1. rewrite Hm1, Hf1.
    unfold bind at 1, ret at 1, return_policy, bind, get_signal, ret.
    destruct (mem_str _ _); [reflexivity|].
    destruct (eq_str (return_type (signals w2 decorator)) "js"); reflexivity. }
  rewrite H, Hcall. split; intros ->; reflexivity.
Qed.

Lemma new_func_signal_mode_off_witness :
  let w := Demo.world0 false (Demo.signal_of (VStr "js") [] Demo.get_value) [] in
  new_func Demo.env 0 Demo.get_value Demo.page [] [] w
  = (Ok (VInt 1), with_object 0 Demo.page w).
Proof.
  intro w.
  apply (fun H1 H2 H3 H4 H5 H6 =>
           proj1 (@new_func_signal_mode_off Demo.env 0 Demo.get_value Demo.page
                    [] [] w (VBool false) (VInt 1) (with_object 0 Demo.page w)
                    (VBool false) H1 H2 H3 H4 H5 H6));
    reflexivity.
Defined.

(** C2 as stated fails: out of signal mode, the wrapper of a method listed
    in [no_return_functions] returns [None] where the method returns 1. *)
Lemma new_func_no_return_counterexample :
  let w := Demo.world0 false
             (Demo.signal_of VNone ["get_value"] Demo.get_value) [] in
  attr_of (heap w) Demo.page "_signal_mode" = Ok (VBool false)
  /\ fst (new_func Demo.env 0 Demo.get_value Demo.page [] [] w) = Ok VNone
  /\ fst (fn_call Demo.env Demo.get_value [Demo.page] []
                  (with_object 0 Demo.page w)) = Ok (VInt 1)
  /\ fst (new_func Demo.env 0 Demo.get_value Demo.page [] [] w)
     <> fst (fn_call Demo.env Demo.get_value [Demo.page] []
                     (with_object 0 Demo.page w)).
Proof. repeat split. discriminate. Qed.

(** ** The snapshot taken before the call *)

Lemma dict_get_set_other k1 k2 v d :
  k1 <> k2 -> dict_get k1 (dict_set k2 v d) = dict_get k1 d.
Proof.
  intros Hne. induction d as [|[k x] r IH]; simpl.
  - destruct (String.eqb k1 k2) eqn:H; [|reflexivity].
    apply String.eqb_eq in H. contradiction.
  - destruct (String.eqb k2 k) eqn:H2; simpl.
    + apply String.eqb_eq in H2. subst k.
      destruct (String.eqb k1 k2) eqn:H; [|reflexivity].
      apply String.eqb_eq in H. contradiction.
    + destruct (String.eqb k1 k); [reflexivity|exact IH].
Qed.

Lemma snapshot_on self w m0 :
  attr_of (heap w) self "_signal_mode" = Ok m0 ->
  truthy m0 = true ->
  exists c, snapshot self w = (Ok (Some c), snd (copy self w)).
Proof.
  intros Hm Ht. unfold snapshot, bind at 1, getattr. rewrite Hm, Ht.
  unfold bind, ret.
  assert (H : exists c, copy self w = (Ok c, snd (copy self w))).
  { unfold copy, alloc. destruct self; simpl; eauto.
    destruct (nth_error (heap w) a); simpl; eauto. }
  destruct H as [c Hc]. exists c. now rewrite Hc.
Qed.

Lemma attr_of_not_blocked h v a : attr_of h v a <> Blocked.
Proof.
  destruct v; simpl; try discriminate.
  destruct (nth_error h a0) as [[c d|f]|]; try discriminate.
  - destruct (dict_get a d); discriminate.
  - unfold file_attr.
    repeat match goal with
           | |- context [if ?b then _ else _] => destruct b; try discriminate
           end.
Qed.

(** Resolving the transports only updates [ws] and [evaluate_js] on the
    decorator; it may raise, it does not block. *)
Lemma resolve_channel_frame decorator self w :
  exists r w3,
    resolve_channel decorator self w = (r, w3)
    /\ r <> Blocked
    /\ _func (signals w3 decorator) = _func (signals w decorator)
    /\ trace w3 = trace w /\ heap w3 = heap w /\ inbox w3 = inbox w.
Proof.
  unfold resolve_channel, dict_attr_get, getattr_evaluate_js, getattr,
    get_world, get_signal, set_signal, ret, bind.
  simpl.
  repeat match goal with
         | |- context [if ?b then _ else _] => destruct b
         | |- context [match attr_of ?h ?v ?a with _ => _ end] =>
             let Ha := fresh "Ha" in
             destruct (attr_of h v a) eqn:Ha;
             [| |exfalso; exact (attr_of_not_blocked _ _ _ Ha)]
         | |- context [match ?v with VRef _ => _ | _ => _ end] => destruct v
         | |- context [match nth_error ?h ?a with _ => _ end] =>
             destruct (nth_error h a)
         | |- context [match ?o with Instance _ _ => _ | FileObj _ => _ end] =>
             destruct o
         | |- context [match file_attr ?f ?a with _ => _ end] =>
             destruct (file_attr f a)
         end;
    simpl; rewrite ?Nat.eqb_refl;
    do 2 eexists; (split; [reflexivity|]); simpl; rewrite ?Nat.eqb_refl;
    repeat split; try discriminate; reflexivity.
Qed.

(** With [original_copy] unbound the forwarding block never returns, and it
    raises [UnboundLocalError] as soon as the steps before the read go
    through. *)
Lemma forward_unbound E decorator self args kwargs value w :
  (forall x, fst (forward E decorator self args kwargs value None w) <> Ok x)
  /\ (forall w3 f bound sv,
         resolve_channel decorator self w = (Ok tt, w3) ->
         _func (signals w3 decorator) = Some f ->
         fn_bind E f (self :: args) kwargs = Ok bound ->
         dict_get "self" bound = Some sv ->
         forward E decorator self args kwargs value None w
         = (Raise (UnboundLocalError "original_copy"), w3))
  /\ ((forall f, _func (signals w decorator) = Some f ->
                 fn_bind E f (self :: args) kwargs <> Blocked) ->
      exists e w3,
        forward E decorator self args kwargs value None w = (Raise e, w3)
        /\ trace w3 = trace w /\ inbox w3 = inbox w).
Proof.
  split; [|split].
  - intros x. unfold forward, bind at 1.
    destruct (resolve_channel decorator self w) as [[[]| |] w3];
      try discriminate.
    unfold bind at 1, read_func at 1, bind at 1, get_signal at 1.
    destruct (_func (signals w3 decorator)); [|discriminate].
    unfold ret at 1, bind at 1, lift at 1.
    destruct (fn_bind E f (self :: args) kwargs); try discriminate.
    unfold bind at 1, lift at 1.
    destruct (getitem _ "self"); discriminate.
  - intros w3 f bound sv Hres Hfunc Hbind Hself.
    unfold forward, bind at 1. rewrite Hres.
    unfold bind at 1, read_func at 1, bind at 1, get_signal at 1.
    rewrite Hfunc. unfold ret at 1, bind at 1, lift at 1. rewrite Hbind.
    unfold bind at 1, lift at 1, getitem.
    assert (Hs : dict_get "self" (dict_set "return_value" value bound)
                 = Some sv)
      by (rewrite dict_get_set_other; [exact Hself|discriminate]).
    rewrite Hs. reflexivity.
  - intros Hbind.
    destruct (resolve_channel_frame decorator self w)
      as (r & w3 & Hr & Hnb & Hfu & Htr & _ & Hin).
    unfold forward, bind at 1. rewrite Hr.
    destruct r as [[]|e|]; [|eauto|contradiction].
    unfold bind at 1, read_func at 1, bind at 1, get_signal at 1.
    rewrite Hfu.
    destruct (_func (signals w decorator)) as [f|] eqn:Hf;
      [|unfold raise; eauto].
    unfold ret at 1, bind at 1, lift at 1.
    specialize (Hbind f eq_refl).
    destruct (fn_bind E f (self :: args) kwargs) as [bound|e|];
      [|eauto|contradiction].
    unfold bind at 1, lift at 1.
    destruct (getitem _ "self") as [sv|e|] eqn:Hs; [|eauto|].
    + unfold bind at 1, read_local, raise. eauto.
    + unfold getitem in Hs. destruct (dict_get "self" _); discriminate.
Qed.

(** With [original_copy] bound, the forwarding block hands the call context
    to the dispatcher, whose result is [real_output]. *)
Lemma forward_dispatches E decorator self args kwargs value c w w3 f bound sv :
  resolve_channel decorator self w = (Ok tt, w3) ->
  _func (signals w3 decorator) = Some f ->
  fn_bind E f (self :: args) kwargs = Ok bound ->
  dict_get "self" bound = Some sv ->
  dict_has "func" (call_context bound value sv c) = false ->
  forward E decorator self args kwargs value (Some c) w
  = _call_method E decorator f (call_context bound value sv c) w3.
Proof.
  intros Hres Hfunc Hbind Hself Hnofunc.
  unfold forward, bind at 1. rewrite Hres.
  unfold bind at 1, read_func at 1, bind at 1, get_signal at 1.
  rewrite Hfunc. unfold ret at 1, bind at 1, lift at 1. rewrite Hbind.
  unfold bind at 1, lift at 1, getitem.
  rewrite dict_get_set_other by discriminate. rewrite Hself.
  unfold bind at 1, read_local, ret at 1.
  unfold bind at 1, read_func at 1, bind at 1, get_signal at 1.
  rewrite Hfunc. unfold ret at 1.
  fold (call_context bound value sv c). now rewrite Hnofunc.
Qed.

Lemma snapshot_signals self w :
  signals (snd (snapshot self w)) = signals w.
Proof.
  unfold snapshot, bind, getattr, copy, alloc, ret.
  destruct (attr_of (heap w) self "_signal_mode") as [m| |]; try reflexivity.
  destruct (truthy m); [|reflexivity].
  destruct self; try reflexivity.
  destruct (nth_error (heap w) a); reflexivity.
Qed.

(** The wrapper, once the snapshot is taken and the method has returned. *)
Lemma new_func_after_call E decorator func self args kwargs w oc f v w2 m1 :
  fst (snapshot self (with_object decorator self w)) = Ok oc ->
  _func (signals w decorator) = Some f ->
  fn_call E f (self :: args) kwargs
          (snd (snapshot self (with_object decorator self w))) = (Ok v, w2) ->
  attr_of (heap w2) self "_signal_mode" = Ok m1 ->
  new_func E decorator func self args kwargs w
  = (real_output <- (if truthy m1
                     then forward E decorator self args kwargs v oc
                     else ret v) ;;
     return_policy E decorator func v real_output) w2.
Proof.
  intros Hoc Hfunc Hcall Hm1.
  unfold new_func, bind at 1, get_signal at 1.
  unfold bind at 1, set_signal at 1. fold (with_object decorator self w).
  unfold bind at 1.
  pose proof (snapshot_signals self (with_object decorator self w)) as Hsig.
  destruct (snapshot self (with_object decorator self w)) as [o w1].
  cbn [fst snd] in Hoc, Hcall, Hsig. subst o.
  unfold bind at 1, read_func, bind at 1, get_signal at 1.
  rewrite Hsig, with_object_func, Hfunc.
  unfold ret at 1, bind at 1. rewrite Hcall.
  unfold bind at 1, getattr at 1. now rewrite Hm1.
Qed.

(** C9. The local variable [original_copy] is bound by the snapshot only
    for an object in signal mode before the call, and read whenever the
    object is in signal mode after it.  When the method body switches the
    mode on, the wrapper does not return: it raises, nothing having gone over
    a transport, and the exception is [UnboundLocalError] once the steps
    before the read have gone through.  When the body leaves the mode as it
    was, the variable is bound whenever it is read. *)
Theorem original_copy_binding E decorator func self args kwargs w m0 f v w2 m1 :
  attr_of (heap w) self "_signal_mode" = Ok m0 ->
  _func (signals w decorator) = Some f ->
  fn_call E f (self :: args) kwargs
          (snd (snapshot self (with_object decorator self w))) = (Ok v, w2) ->
  attr_of (heap w2) self "_signal_mode" = Ok m1 ->
  (truthy m0 = false -> truthy m1 = true ->
   fst (snapshot self (with_object decorator self w)) = Ok None
   /\ (forall x, fst (new_func E decorator func self args kwargs w) <> Ok x)
   /\ (forall w3 f' bound sv,
          resolve_channel decorator self w2 = (Ok tt, w3) ->
          _func (signals w3 decorator) = Some f' ->
          fn_bind E f' (self :: args) kwargs = Ok bound ->
          dict_get "self" bound = Some sv ->
          new_func E decorator func self args kwargs w
          = (Raise (UnboundLocalError "original_copy"), w3))
   /\ ((forall f', _func (signals w2 decorator) = Some f' ->
                   fn_bind E f' (self :: args) kwargs <> Blocked) ->
       exists e w3,
         new_func E decorator func self args kwargs w = (Raise e, w3)
         /\ trace w3 = trace w2))
  /\ (truthy m0 = truthy m1 ->
      exists oc,
        fst (snapshot self (with_object decorator self w)) = Ok oc
        /\ new_func E decorator func self args kwargs w
           = (real_output <- (if truthy m1
                              then forward E decorator self args kwargs v oc
                              else ret v) ;;
              return_policy E decorator func v real_output) w2
        /\ (truthy m1 = true ->
            exists c, oc = Some c
                      /\ read_local "original_copy" oc = ret c)).
Proof.
  intros Hm0 Hfunc Hcall Hm1.
  assert (Hm0' : attr_of (heap (with_object decorator self w)) self
                         "_signal_mode" = Ok m0) by exact Hm0.
  split.
  - intros Hoff Hon.
    assert (Hsnap : fst (snapshot self (with_object decorator self w))
                    = Ok None)
      by now rewrite (snapshot_off _ _ Hm0' Hoff).
    pose proof (new_func_after_call E decorator func self args kwargs w
                  Hsnap Hfunc Hcall Hm1) as Hnew.
    rewrite Hon in Hnew.
    destruct (forward_unbound E decorator self args kwargs v w2)
      as (Hnever & Hraise & Hexn).
    split; [exact Hsnap|]. split; [|split].
    + intros x. rewrite Hnew. unfold bind.
      destruct (forward E decorator self args kwargs v None w2)
        as [[ro| |] w3] eqn:Hfw; simpl; try discriminate.
      exfalso. apply (Hnever ro). reflexivity.
    + intros w3 f' bound sv Hres Hf' Hbind Hself.
      rewrite Hnew. unfold bind.
      now rewrite (Hraise w3 f' bound sv Hres Hf' Hbind Hself).
    + intros Hbind. destruct (Hexn Hbind) as (e & w3 & Hfw & Htr & _).
      exists e, w3. split; [|exact Htr].
      rewrite Hnew. unfold bind. now rewrite Hfw.
  - intros Hsame.
    destruct (truthy m0) eqn:Ht0.
    + destruct (snapshot_on _ _ Hm0' Ht0) as [c Hc].
      exists (Some c).
      assert (Hsnap : fst (snapshot self (with_object decorator self w))
                      = Ok (Some c)) by now rewrite Hc.
      split; [exact Hsnap|]. split.
      * exact (new_func_after_call E decorator func self args kwargs w
                 Hsnap Hfunc Hcall Hm1).
      * intros _. exists c. split; reflexivity.
    + exists None.
      assert (Hsnap : fst (snapshot self (with_object decorator self w))
                      = Ok None)
        by now rewrite (snapshot_off _ _ Hm0' Ht0).
      split; [exact Hsnap|]. split.
      * exact (new_func_after_call E decorator func self args kwargs w
                 Hsnap Hfunc Hcall Hm1).
      * intros Hon. rewrite Hon in Hsame. discriminate.
Qed.

Lemma original_copy_binding_witness :
  let w := Demo.world0 false (Demo.signal_of (VStr "js") [] Demo.enable) [] in
  exists w3,
    new_func Demo.env 0 Demo.enable Demo.page [] [] w
    = (Raise (UnboundLocalError "original_copy"), w3)
    /\ trace w3 = [].
Proof.
  intro w.
  pose (w2 := snd (fn_call Demo.env Demo.enable [Demo.page] []
                           (with_object 0 Demo.page w))).
  pose (w3 := snd (resolve_channel 0 Demo.page w2)).
  exists w3. split; [|reflexivity].
  refine (proj1 (proj2 (proj2 (proj1
           (@original_copy_binding Demo.env 0 Demo.enable Demo.page [] [] w
              (VBool false) Demo.enable VNone w2 (VBool true)
              _ _ _ _) _ _)))
           w3 Demo.enable [("self", Demo.page)] Demo.page _ _ _ _);
    reflexivity.
Defined.

(** ** What the wrapper returns *)

(** C1, as the code has it.  For the wrapper of the function the decorator
    records, on a call where the body of that function returns [v]: when the
    object is not in signal mode after the body, [real_output] is [v] and the
    wrapper returns [None] for a name among [no_return_functions] and [v]
    otherwise; when it is in signal mode, the dispatcher is called with the
    call context and, with [real_output] its result, the wrapper returns
    [None] for a name among [no_return_functions], otherwise [real_output]
    when the decorator's [return_type] is "js", otherwise [v]. *)
Theorem new_func_returns E decorator func self args kwargs w m0 v w2 m1 :
  attr_of (heap w) self "_signal_mode" = Ok m0 ->
  _func (signals w decorator) = Some func ->
  fn_call E func (self :: args) kwargs
          (snd (snapshot self (with_object decorator self w))) = (Ok v, w2) ->
  attr_of (heap w2) self "_signal_mode" = Ok m1 ->
  (truthy m1 = false ->
   new_func E decorator func self args kwargs w
   = (Ok (if mem_str (fn_name E func)
                     (no_return_functions (signals w2 decorator))
          then VNone else v), w2))
  /\ (truthy m1 = true ->
      forall c w3 f' bound sv real_output w4,
        fst (snapshot self (with_object decorator self w)) = Ok (Some c) ->
        resolve_channel decorator self w2 = (Ok tt, w3) ->
        _func (signals w3 decorator) = Some f' ->
        fn_bind E f' (self :: args) kwargs = Ok bound ->
        dict_get "self" bound = Some sv ->
        dict_has "func" (call_context bound v sv c) = false ->
        _call_method E decorator f' (call_context bound v sv c) w3
        = (Ok real_output, w4) ->
        new_func E decorator func self args kwargs w
        = (Ok (if mem_str (fn_name E func)
                          (no_return_functions (signals w4 decorator))
               then VNone
               else if eq_str (return_type (signals w4 decorator)) "js"
                    then real_output
                    else v), w4)).
Proof.
  intros Hm0 Hfunc Hcall Hm1.
  assert (Hsnap : exists oc,
             fst (snapshot self (with_object decorator self w)) = Ok oc).
  { destruct (truthy m0) eqn:Ht0.
    - destruct (@snapshot_on self (with_object decorator self w) m0 Hm0 Ht0)
        as [c Hc].
      exists (Some c). now rewrite Hc.
    - exists None.
      now rewrite (@snapshot_off self (with_object decorator self w) m0 Hm0
                     Ht0). }
  destruct Hsnap as [oc Hoc]. split.
  - intros Hoff.
    rewrite (@new_func_after_call E decorator func self args kwargs w oc func
               v w2 m1 Hoc Hfunc Hcall Hm1).
    rewrite Hoff.
    unfold bind at 1, ret at 1, return_policy, bind, get_signal, ret.
    destruct (mem_str _ _); [reflexivity|].
    destruct (eq_str (return_type (signals w2 decorator)) "js"); reflexivity.
  - intros Hon c w3 f' bound sv real_output w4 Hc Hres Hf' Hbind Hself
           Hnofunc Hdisp.
    rewrite (@new_func_after_call E decorator func self args kwargs w
               (Some c) func v w2 m1 Hc Hfunc Hcall Hm1).
    rewrite Hon. unfold bind at 1.
    rewrite (@forward_dispatches E decorator self args kwargs v c w2 w3 f'
               bound sv Hres Hf' Hbind Hself Hnofunc).
    rewrite Hdisp.
    unfold return_policy, bind, get_signal, ret.
    destruct (mem_str _ _); [reflexivity|].
    destruct (eq_str (return_type (signals w4 decorator)) "js"); reflexivity.
Qed.

Lemma new_func_returns_witness :
  let w := Demo.world0 true (Demo.signal_of (VStr "js") [] Demo.get_value)
                       [VStr (Demo.answer_text "value" "5")] in
  let w2 := snd (snapshot Demo.page (with_object 0 Demo.page w)) in
  let w3 := snd (resolve_channel 0 Demo.page w2) in
  let context := [("return_value", VInt 1); ("object", Demo.page);
                  ("original_copy", VRef 4)] in
  new_func Demo.env 0 Demo.get_value Demo.page [] [] w
  = (Ok (VInt 5), snd (_call_method Demo.env 0 Demo.get_value context w3)).
Proof.
  intros w w2 w3 context.
  exact (proj2
           (@new_func_returns Demo.env 0 Demo.get_value Demo.page [] [] w
              (VBool true) (VInt 1) w2 (VBool true)
              eq_refl eq_refl eq_refl eq_refl)
           eq_refl (VRef 4) w3 Demo.get_value [("self", Demo.page)] Demo.page
           (VInt 5) (snd (_call_method Demo.env 0 Demo.get_value context w3))
           eq_refl eq_refl eq_refl eq_refl eq_refl eq_refl eq_refl).
Defined.

(** C1 as stated fails: once the decorator of [get_value] has decorated
    [_refresh] as well, the wrapper of [get_value], neither a no-return name
    nor under the "js" policy, returns 2, the value of [_refresh], where
    [get_value] returns 1. *)
Lemma new_func_returns_other_counterexample :
  let w0 := Demo2.world0 false
              (Demo2.signal_of VNone (VWs 0) Demo.get_value) [] in
  let w := snd (Signal___call__ Demo2.env 0 Demo2.refresh
                  (snd (Signal___call__ Demo2.env 0 Demo.get_value w0))) in
  mem_str (fn_name Demo2.env Demo.get_value)
          (no_return_functions (signals w 0)) = false
  /\ eq_str (return_type (signals w 0)) "js" = false
  /\ fst (fn_call Demo2.env Demo.get_value [Demo.page] []
                  (with_object 0 Demo.page w)) = Ok (VInt 1)
  /\ fst (new_func Demo2.env 0 Demo.get_value Demo.page [] [] w)
     = Ok (VInt 2).
Proof. repeat split. Qed.

(** ** Reading a file over the websocket *)

Section FileOverWebsocket.

Variable E : Env.
Variables (a : addr) (f : File) (c : chan).

Hypothesis Hws : _ws f = VWs c.

Lemma iter_ws_turn_accepted w m rest v dd data :
  nth_error (heap w) a = Some (FileObj f) ->
  inbox w c = m :: rest ->
  validate_data E (_app f) m = Ok v ->
  truthy v = true ->
  json_loads E m = Ok dd ->
  getitem dd "data" = Ok data ->
  iter_ws_turn E (VRef a) w
  = (match converted (is_binary f) data with
     | Ok x => Ok (Yield x, GenWs dd)
     | Raise e => Raise e
     | Blocked => Blocked
     end,
     logged [EvReceive c m; EvValidate (_app f) m] (popped c w)).
Proof.
  intros Hf Hin Hv Ht Hl Hd.
  unfold iter_ws_turn, apply_is_binary, validate, getattr, log, lift, ret,
    bind, converted.
  simpl. rewrite Hf. simpl. rewrite Hws. simpl.
  rewrite (@ws_receive_next c m rest) by exact Hin.
  simpl. rewrite Hf. simpl. rewrite Hv, Ht. simpl. rewrite Hl, Hd, Hf. simpl.
  unfold logged, popped. simpl. rewrite <- !app_assoc. simpl.
  destruct (truthy (is_binary f)); [|reflexivity].
  destruct (bytearray data); reflexivity.
Qed.

Lemma iter_ws_turn_rejected w m rest v :
  nth_error (heap w) a = Some (FileObj f) ->
  inbox w c = m :: rest ->
  validate_data E (_app f) m = Ok v ->
  truthy v = false ->
  iter_ws_turn E (VRef a) w
  = (Ok (StopIteration, GenDone),
     logged [EvReceive c m; EvValidate (_app f) m] (popped c w)).
Proof.
  intros Hf Hin Hv Ht.
  unfold iter_ws_turn, apply_is_binary, validate, getattr, log, lift, ret,
    bind.
  simpl. rewrite Hf. simpl. rewrite Hws. simpl.
  rewrite (@ws_receive_next c m rest) by exact Hin.
  simpl. rewrite Hf. simpl. rewrite Hv, Ht. simpl.
  unfold logged, popped. simpl. rewrite <- !app_assoc. reflexivity.
Qed.

(** The first [next]: the descriptor is sent, then the loop is entered. *)
Lemma iter_start_ws w text :
  nth_error (heap w) a = Some (FileObj f) ->
  json_dumps E (save_file_signal (_id f) (is_binary f)) = Ok text ->
  File___iter___next E (VRef a) GenStart w
  = iter_ws_turn E (VRef a) (logged [EvSend c text] w).
Proof.
  intros Hf Hd.
  unfold File___iter___next, getattr, ws_send, log, lift, ret, bind.
  simpl. rewrite Hf. simpl. rewrite Hws. simpl. rewrite Hd. reflexivity.
Qed.

(** Later calls of [next]: the [end] flag of the last chunk decides. *)
Lemma iter_resume_ws w dd e :
  getitem dd "end" = Ok e ->
  File___iter___next E (VRef a) (GenWs dd) w
  = if eq_True e then (Ok (StopIteration, GenDone), w)
    else iter_ws_turn E (VRef a) w.
Proof.
  intros He. unfold File___iter___next, lift, bind. rewrite He.
  destruct (eq_True e); reflexivity.
Qed.

End FileOverWebsocket.

Lemma popped_logged c evs w :
  popped c (logged evs w) = logged evs (popped c w).
Proof. reflexivity. Qed.

Lemma inbox_popped c w : inbox (popped c w) c = tl (inbox w c).
Proof. unfold popped. simpl. now rewrite Nat.eqb_refl. Qed.

Lemma count_events_app p t1 t2 :
  count_events p (t1 ++ t2) = count_events p t1 + count_events p t2.
Proof. unfold count_events. now rewrite filter_app, length_app. Qed.

(** C4. A file bound to a websocket that delivers the two chunks
    [{"data": "a", "end": false}] and [{"data": "b", "end": true}], with
    [is_binary] false: when the validator accepts both, iterating sends the
    descriptor once, yields "a" then "b" and stops, having received twice;
    when the validator rejects a chunk, the iteration ends there and yields
    nothing more. *)
Theorem file_iter_scripted E a f c w text m1 m2 rest v1 v2 :
  nth_error (heap w) a = Some (FileObj f) ->
  _ws f = VWs c ->
  truthy (is_binary f) = false ->
  json_dumps E (save_file_signal (_id f) (is_binary f)) = Ok text ->
  inbox w c = m1 :: m2 :: rest ->
  json_loads E m1 = Ok (VDict [("data", VStr "a"); ("end", VBool false)]) ->
  json_loads E m2 = Ok (VDict [("data", VStr "b"); ("end", VBool true)]) ->
  validate_data E (_app f) m1 = Ok v1 ->
  validate_data E (_app f) m2 = Ok v2 ->
  let w2 := logged [EvSend c text;
                    EvReceive c m1; EvValidate (_app f) m1;
                    EvReceive c m2; EvValidate (_app f) m2]
                   (popped c (popped c w)) in
  let w1 := logged [EvSend c text; EvReceive c m1; EvValidate (_app f) m1]
                   (popped c w) in
  (truthy v1 = true -> truthy v2 = true ->
   forall n, iterate_file E (3 + n) (VRef a) GenStart w
             = ([VStr "a"; VStr "b"], Exhausted, w2))
  /\ (truthy v1 = true -> truthy v2 = false ->
      forall n, iterate_file E (2 + n) (VRef a) GenStart w
                = ([VStr "a"], Exhausted, w2))
  /\ (truthy v1 = false ->
      forall n, iterate_file E (1 + n) (VRef a) GenStart w
                = ([], Exhausted, w1))
  /\ count_events is_send (trace w2) = count_events is_send (trace w) + 1
  /\ count_events is_receive (trace w2) = count_events is_receive (trace w) + 2
  /\ inbox w2 c = rest.
Proof.
  intros Hf Hws Hb Hd Hin Hl1 Hl2 Hv1 Hv2 w2 w1.
  assert (Hstart : File___iter___next E (VRef a) GenStart w
                   = iter_ws_turn E (VRef a) (logged [EvSend c text] w))
    by now apply (iter_start_ws E a Hws).
  assert (Hfirst : truthy v1 = true ->
                   File___iter___next E (VRef a) GenStart w
                   = (Ok (Yield (VStr "a"),
                          GenWs (VDict [("data", VStr "a");
                                        ("end", VBool false)])), w1)).
  { intros Ht1. rewrite Hstart.
    rewrite (@iter_ws_turn_accepted E a f c Hws (logged [EvSend c text] w)
               m1 (m2 :: rest) v1
               (VDict [("data", VStr "a"); ("end", VBool false)])
               (VStr "a")); try assumption;
      try reflexivity.
    unfold converted. rewrite Hb. unfold w1.
    now rewrite <- popped_logged, logged_app. }
  assert (Hin1 : inbox w1 c = m2 :: rest).
  { unfold w1. change (inbox (popped c w) c = m2 :: rest).
    now rewrite inbox_popped, Hin. }
  assert (Hsecond : File___iter___next E (VRef a)
                      (GenWs (VDict [("data", VStr "a");
                                     ("end", VBool false)])) w1
                    = iter_ws_turn E (VRef a) w1)
    by now rewrite (@iter_resume_ws E a _ _ (VBool false)).
  assert (Hw2 : logged [EvReceive c m2; EvValidate (_app f) m2] (popped c w1)
                = w2).
  { unfold w1, w2. now rewrite popped_logged, logged_app. }
  repeat split.
  - intros Ht1 Ht2 n. change (3 + n) with (S (S (S n))).
    cbn [iterate_file]. rewrite (Hfirst Ht1).
    cbn [iterate_file]. rewrite Hsecond.
    rewrite (@iter_ws_turn_accepted E a f c Hws w1 m2 rest v2
               (VDict [("data", VStr "b"); ("end", VBool true)]) (VStr "b"));
      try assumption; try reflexivity.
    unfold converted. rewrite Hb, Hw2. cbn [iterate_file].
    rewrite (@iter_resume_ws E a _ _ (VBool true)) by reflexivity.
    reflexivity.
  - intros Ht1 Ht2 n. change (2 + n) with (S (S n)).
    cbn [iterate_file]. rewrite (Hfirst Ht1).
    cbn [iterate_file]. rewrite Hsecond.
    rewrite (@iter_ws_turn_rejected E a f c Hws w1 m2 rest v2);
      try assumption.
    now rewrite Hw2.
  - intros Ht1 n. change (1 + n) with (S n).
    cbn [iterate_file]. rewrite Hstart.
    rewrite (@iter_ws_turn_rejected E a f c Hws (logged [EvSend c text] w)
               m1 (m2 :: rest) v1); try assumption.
    unfold w1. now rewrite <- popped_logged, logged_app.
  - unfold w2. simpl trace. now rewrite count_events_app.
  - unfold w2. simpl trace. now rewrite count_events_app.
  - unfold w2. change (inbox (popped c (popped c w)) c = rest).
    now rewrite !inbox_popped, Hin.
Qed.

Lemma file_iter_scripted_witness :
  let m1 := VStr (Demo.chunk_text (Demo.q "a") false) in
  let m2 := VStr (Demo.chunk_text (Demo.q "b") true) in
  let w := Demo.file_world (Demo.upload (VWs 0) (VBool false)) [m1; m2] in
  iterate_file Demo.env 3 (VRef 4) GenStart w
  = ([VStr "a"; VStr "b"], Exhausted,
     logged [EvSend 0 (Demo.save_text "false");
             EvReceive 0 m1; EvValidate Demo.app m1;
             EvReceive 0 m2; EvValidate Demo.app m2]
            (popped 0 (popped 0 w))).
Proof.
  intros m1 m2 w.
  refine (proj1 (@file_iter_scripted Demo.env 4
                   (Demo.upload (VWs 0) (VBool false)) 0 w
                   (Demo.save_text "false") m1 m2 [] (VBool true) (VBool true)
                   _ _ _ _ _ _ _ _ _) _ _ 0);
    reflexivity.
Defined.

(** X26. A chunk the validator rejects ends the iteration wherever it
    comes: the run stops without an error, the chunk is dropped and nothing
    more is received. *)
Lemma file_iter_chunk_rejected E a f c w m rest v dd e :
  nth_error (heap w) a = Some (FileObj f) ->
  _ws f = VWs c ->
  inbox w c = m :: rest ->
  validate_data E (_app f) m = Ok v ->
  truthy v = false ->
  getitem dd "end" = Ok e ->
  eq_True e = false ->
  forall n,
    iterate_file E (S n) (VRef a) (GenWs dd) w
    = ([], Exhausted,
       logged [EvReceive c m; EvValidate (_app f) m] (popped c w)).
Proof.
  intros Hf Hws Hin Hv Ht He Hne n. cbn [iterate_file].
  rewrite (@iter_resume_ws E a w dd e He), Hne.
  now rewrite (@iter_ws_turn_rejected E a f c Hws w m rest v).
Qed.

(** ** The [is_binary] flag *)

(** Case analysis on an innermost [match] of a hypothesis, dropping the
    cases where it cannot hold. *)
Ltac break_match_in H :=
  match type of H with
  | context [match ?x with _ => _ end] =>
      lazymatch x with
      | context [match _ with _ => _ end] => fail
      | _ => destruct x eqn:?; simpl in H; try discriminate
      end
  end.

Lemma apply_is_binary_file a f data w :
  nth_error (heap w) a = Some (FileObj f) ->
  apply_is_binary (VRef a) data w = (converted (is_binary f) data, w).
Proof.
  intros Hf. unfold apply_is_binary, getattr, bind, lift, ret, converted.
  simpl. rewrite Hf. simpl. now destruct (truthy (is_binary f)).
Qed.

Lemma iter_direct_turn_file E a f out w :
  nth_error (heap w) a = Some (FileObj f) ->
  iter_direct_turn E (VRef a) out w
  = (match json_loads E out with
     | Ok dd =>
         match getitem dd "data" with
         | Ok data =>
             match converted (is_binary f) data with
             | Ok x => Ok (Yield x, GenDirect out dd)
             | Raise e => Raise e
             | Blocked => Blocked
             end
         | Raise e => Raise e
         | Blocked => Blocked
         end
     | Raise e => Raise e
     | Blocked => Blocked
     end, w).
Proof.
  intros Hf. unfold iter_direct_turn, bind, lift, ret.
  destruct (json_loads E out) as [dd| |]; try reflexivity.
  destruct (getitem dd "data") as [data| |]; try reflexivity.
  rewrite (@apply_is_binary_file a f data w Hf).
  destruct (converted (is_binary f) data); reflexivity.
Qed.

Lemma iter_ws_turn_yields E a f w v st' w' :
  nth_error (heap w) a = Some (FileObj f) ->
  iter_ws_turn E (VRef a) w = (Ok (Yield v, st'), w') ->
  exists dd data,
    st' = GenWs dd /\ getitem dd "data" = Ok data
    /\ converted (is_binary f) data = Ok v
    /\ heap w' = heap w.
Proof.
  intros Hf H.
  unfold iter_ws_turn, validate, getattr, ws_method, ws_receive, pop_inbox,
    log, lift, ret, raise, bind in H.
  simpl in H. rewrite Hf in H. simpl in H.
  destruct (_ws f); simpl in H; try discriminate.
  destruct (inbox w c) as [|m rest]; simpl in H; try discriminate.
  rewrite Hf in H. simpl in H.
  destruct (validate_data E (_app f) m) as [x| |]; try discriminate.
  destruct (truthy x); simpl in H; try discriminate.
  destruct (json_loads E m) as [dd| |]; try discriminate.
  destruct (getitem dd "data") as [data| |] eqn:Hd; try discriminate.
  rewrite (@apply_is_binary_file a f data) in H by exact Hf.
  destruct (converted (is_binary f) data) as [y| |] eqn:Hc; try discriminate.
  injection H as <- <- <-. exists dd, data. auto.
Qed.

Lemma iter_direct_turn_yields E a f out w v st' w' :
  nth_error (heap w) a = Some (FileObj f) ->
  iter_direct_turn E (VRef a) out w = (Ok (Yield v, st'), w') ->
  exists dd data,
    st' = GenDirect out dd /\ getitem dd "data" = Ok data
    /\ converted (is_binary f) data = Ok v.
Proof.
  intros Hf H. rewrite (@iter_direct_turn_file E a f out w Hf) in H.
  destruct (json_loads E out) as [dd| |]; try discriminate.
  destruct (getitem dd "data") as [data| |] eqn:Hd; try discriminate.
  destruct (converted (is_binary f) data) as [y| |] eqn:Hc; try discriminate.
  injection H as <- <- <-. exists dd, data. auto.
Qed.

(** Whatever [next] yields is the conversion of the [data] field of a
    decoded chunk. *)
Lemma file_iter_next_yields E a f st w v st' w' :
  nth_error (heap w) a = Some (FileObj f) ->
  File___iter___next E (VRef a) st w = (Ok (Yield v, st'), w') ->
  exists dd data,
    (st' = GenWs dd \/ exists out, st' = GenDirect out dd)
    /\ getitem dd "data" = Ok data
    /\ converted (is_binary f) data = Ok v.
Proof.
  intros Hf H. destruct st as [|dd0|out dd0|]; simpl in H.
  - unfold getattr, ws_method, ws_send, call_evaluate_js, get_world, log,
      lift, ret, raise, bind in H.
    simpl in H. rewrite Hf in H. simpl in H.
    destruct (truthy (_ws f)).
    + destruct (_ws f); simpl in H; try discriminate.
      destruct (json_dumps E _) as [text| |]; try discriminate.
      apply iter_ws_turn_yields with (f := f) in H; [|exact Hf].
      destruct H as (dd & data & -> & Hd & Hc & _). eauto 6.
    + repeat (rewrite Hf in H; simpl in H).
      repeat break_match_in H.
      apply iter_direct_turn_yields with (f := f) in H; [|exact Hf].
      destruct H as (dd & data & -> & Hd & Hc). eauto 7.
  - unfold lift, ret, bind in H.
    destruct (getitem dd0 "end") as [e| |]; try discriminate.
    destruct (eq_True e); try discriminate.
    apply iter_ws_turn_yields with (f := f) in H; [|exact Hf].
    destruct H as (dd & data & -> & Hd & Hc & _). eauto 6.
  - unfold lift, ret, bind in H.
    destruct (getitem dd0 "end") as [e| |]; try discriminate.
    destruct (eq_True e); try discriminate.
    apply iter_direct_turn_yields with (f := f) in H; [|exact Hf].
    destruct H as (dd & data & -> & Hd & Hc). eauto 7.
  - discriminate.
Qed.

(** Two accepted chunks, the second one flagged as the end. *)
Lemma file_iter_two_chunks E a f c w text m1 m2 rest v1 v2
      dd1 dd2 d1 d2 e1 e2 x1 x2 :
  nth_error (heap w) a = Some (FileObj f) ->
  _ws f = VWs c ->
  json_dumps E (save_file_signal (_id f) (is_binary f)) = Ok text ->
  inbox w c = m1 :: m2 :: rest ->
  validate_data E (_app f) m1 = Ok v1 -> truthy v1 = true ->
  validate_data E (_app f) m2 = Ok v2 -> truthy v2 = true ->
  json_loads E m1 = Ok dd1 -> json_loads E m2 = Ok dd2 ->
  getitem dd1 "data" = Ok d1 -> getitem dd2 "data" = Ok d2 ->
  getitem dd1 "end" = Ok e1 -> eq_True e1 = false ->
  getitem dd2 "end" = Ok e2 -> eq_True e2 = true ->
  converted (is_binary f) d1 = Ok x1 ->
  converted (is_binary f) d2 = Ok x2 ->
  forall n,
    iterate_file E (3 + n) (VRef a) GenStart w
    = ([x1; x2], Exhausted,
       logged [EvSend c text;
               EvReceive c m1; EvValidate (_app f) m1;
               EvReceive c m2; EvValidate (_app f) m2]
              (popped c (popped c w))).
Proof.
  intros Hf Hws Hd Hin Hv1 Ht1 Hv2 Ht2 Hl1 Hl2 Hd1 Hd2 He1 Hn1 He2 Hn2
         Hx1 Hx2 n.
  change (3 + n) with (S (S (S n))). cbn [iterate_file].
  rewrite (iter_start_ws E a Hws w Hf Hd).
  rewrite (@iter_ws_turn_accepted E a f c Hws (logged [EvSend c text] w)
             m1 (m2 :: rest) v1 dd1 d1); try assumption.
  rewrite Hx1. cbn [iterate_file].
  rewrite (@iter_resume_ws E a _ dd1 e1 He1), Hn1.
  rewrite (@iter_ws_turn_accepted E a f c Hws _ m2 rest v2 dd2 d2);
    try assumption.
  - rewrite Hx2. cbn [iterate_file].
    rewrite (@iter_resume_ws E a _ dd2 e2 He2), Hn2.
    rewrite !popped_logged, !logged_app. reflexivity.
  - rewrite !popped_logged.
    change (inbox (popped c w) c = m2 :: rest).
    now rewrite inbox_popped, Hin.
Qed.

(** C8, as the code has it.  For a file whose [is_binary] is true, every
    chunk [next] yields is [bytearray(data)] for the [data] field of a decoded
    chunk; so for the two chunks [{"data": [97], "end": false}] and
    [{"data": [98], "end": true}], whose data are the bytes of "a" and "b",
    the iteration yields the bytearrays of "a" and of "b". *)
Theorem file_iter_binary E a f w :
  nth_error (heap w) a = Some (FileObj f) ->
  truthy (is_binary f) = true ->
  (forall st v st' w',
      File___iter___next E (VRef a) st w = (Ok (Yield v, st'), w') ->
      exists dd data,
        (st' = GenWs dd \/ exists out, st' = GenDirect out dd)
        /\ getitem dd "data" = Ok data
        /\ bytearray data = Ok v)
  /\ (forall c text m1 m2 rest v1 v2,
         _ws f = VWs c ->
         json_dumps E (save_file_signal (_id f) (is_binary f)) = Ok text ->
         inbox w c = m1 :: m2 :: rest ->
         json_loads E m1
         = Ok (VDict [("data", VList [VInt 97]); ("end", VBool false)]) ->
         json_loads E m2
         = Ok (VDict [("data", VList [VInt 98]); ("end", VBool true)]) ->
         validate_data E (_app f) m1 = Ok v1 -> truthy v1 = true ->
         validate_data E (_app f) m2 = Ok v2 -> truthy v2 = true ->
         forall n,
           iterate_file E (3 + n) (VRef a) GenStart w
           = ([VBytes [Byte.x61]; VBytes [Byte.x62]], Exhausted,
              logged [EvSend c text;
                      EvReceive c m1; EvValidate (_app f) m1;
                      EvReceive c m2; EvValidate (_app f) m2]
                     (popped c (popped c w)))).
Proof.
  intros Hf Hb. split.
  - intros st v st' w' H.
    destruct (@file_iter_next_yields E a f st w v st' w' Hf H)
      as (dd & data & Hst & Hd & Hc).
    unfold converted in Hc. rewrite Hb in Hc. eauto.
  - intros c text m1 m2 rest v1 v2 Hws Hd Hin Hl1 Hl2 Hv1 Ht1 Hv2 Ht2 n.
    apply (@file_iter_two_chunks E a f c w text m1 m2 rest v1 v2
             (VDict [("data", VList [VInt 97]); ("end", VBool false)])
             (VDict [("data", VList [VInt 98]); ("end", VBool true)])
             (VList [VInt 97]) (VList [VInt 98]) (VBool false) (VBool true));
      try assumption; try reflexivity;
      unfold converted; now rewrite Hb.
Qed.

Lemma file_iter_binary_witness :
  let m1 := VStr (Demo.chunk_text "[97]" false) in
  let m2 := VStr (Demo.chunk_text "[98]" true) in
  let w := Demo.file_world (Demo.upload (VWs 0) (VBool true)) [m1; m2] in
  iterate_file Demo.env 3 (VRef 4) GenStart w
  = ([VBytes [Byte.x61]; VBytes [Byte.x62]], Exhausted,
     logged [EvSend 0 (Demo.save_text "true");
             EvReceive 0 m1; EvValidate Demo.app m1;
             EvReceive 0 m2; EvValidate Demo.app m2]
            (popped 0 (popped 0 w))).
Proof.
  intros m1 m2 w.
  refine (proj2 (@file_iter_binary Demo.env 4
                   (Demo.upload (VWs 0) (VBool true)) w _ _)
                0 (Demo.save_text "true") m1 m2 [] (VBool true) (VBool true)
                _ _ _ _ _ _ _ _ _ 0);
    reflexivity.
Defined.

(** C8 as stated fails: with [is_binary] true and the chunks "a" and "b" as
    strings, [bytearray("a")] raises [TypeError] and nothing is yielded. *)
Lemma file_iter_binary_string_counterexample :
  let m1 := VStr (Demo.chunk_text (Demo.q "a") false) in
  let m2 := VStr (Demo.chunk_text (Demo.q "b") true) in
  let w := Demo.file_world (Demo.upload (VWs 0) (VBool true)) [m1; m2] in
  json_loads Demo.env m1 = Ok (VDict [("data", VStr "a"); ("end", VBool false)])
  /\ json_loads Demo.env m2
     = Ok (VDict [("data", VStr "b"); ("end", VBool true)])
  /\ bytearray (VStr "a") = Raise TypeError
  /\ fst (iterate_file Demo.env 3 (VRef 4) GenStart w) = ([], Raised TypeError).
Proof. repeat split. Qed.

(** ** Reading a file through the evaluator *)

(** A file without a websocket whose [_signal] is a call descriptor: the
    first [next] looks up [evaluate_js] on the dictionary and raises. *)
Lemma file_iter_direct_descriptor E a f d w :
  nth_error (heap w) a = Some (FileObj f) ->
  truthy (_ws f) = false ->
  _signal f = VDict d ->
  File___iter___next E (VRef a) GenStart w
  = (Raise (AttributeError "evaluate_js"), w).
Proof.
  intros Hf Hws Hsig.
  unfold File___iter___next, getattr, bind. simpl.
  rewrite Hf. simpl. rewrite Hws. repeat (rewrite Hf; simpl).
  rewrite Hsig. reflexivity.
Qed.

Lemma send_direct_files E self signal w p fn k out dd ty entries obj app fs :
  truthy (ws (signals w self)) = false ->
  evaluate_js (signals w self) = Some (VEvalJs p) ->
  getitem signal "func" = Ok fn ->
  getitem signal "kwargs" = Ok k ->
  run_js E (logged [EvEvaluate p fn k] w) p fn k = Ok out ->
  eq_str (return_type (signals w self)) "js" = true ->
  json_loads E out = Ok (VDict dd) ->
  dict_get "type" dd = Some ty ->
  eq_str ty "files" = true ->
  dict_get "data" dd = Some (VList entries) ->
  object (signals w self) = Some obj ->
  attr_of (heap w) obj "_app" = Ok app ->
  files_of_entries signal app VNone entries = Some fs ->
  _send E self signal w
  = (Ok (VList (refs (List.length (heap w)) (List.length entries))),
     allocated (map FileObj fs) (logged [EvEvaluate p fn k] w)).
Proof.
  intros Hws Hev Hf Hk Hout Hjs Hl Hty Hfiles Hdata Hobj Happ Hfs.
  rewrite (send_direct_prefix E self signal w Hws Hev Hf Hk Hout), Hjs.
  unfold try_except, decode_direct, bind, lift, ret. rewrite Hl. simpl.
  rewrite Hty, Hfiles, Hdata. simpl.
  rewrite (@make_files_entries signal false self obj app entries fs);
    try assumption.
  now rewrite (files_of_entries_length _ _ _ _ Hfs).
Qed.

(** C10, where the code goes wrong.  Every [File] that [_send] builds on the
    evaluator branch keeps the call descriptor, a dictionary, as its
    [_signal]; iterating such a file raises [AttributeError] on the lookup of
    [evaluate_js], before any call of the evaluator and before any chunk. *)
Theorem file_iter_direct_fails E self signal w p fn k out dd ty entries
        obj app fs :
  truthy (ws (signals w self)) = false ->
  evaluate_js (signals w self) = Some (VEvalJs p) ->
  getitem signal "func" = Ok fn ->
  getitem signal "kwargs" = Ok k ->
  run_js E (logged [EvEvaluate p fn k] w) p fn k = Ok out ->
  eq_str (return_type (signals w self)) "js" = true ->
  json_loads E out = Ok (VDict dd) ->
  dict_get "type" dd = Some ty ->
  eq_str ty "files" = true ->
  dict_get "data" dd = Some (VList entries) ->
  object (signals w self) = Some obj ->
  attr_of (heap w) obj "_app" = Ok app ->
  files_of_entries signal app VNone entries = Some fs ->
  let w' := allocated (map FileObj fs) (logged [EvEvaluate p fn k] w) in
  _send E self signal w
  = (Ok (VList (refs (List.length (heap w)) (List.length entries))), w')
  /\ forall i n,
      i < List.length entries ->
      iterate_file E (S n) (VRef (List.length (heap w) + i)) GenStart w'
      = ([], Raised (AttributeError "evaluate_js"), w').
Proof.
  intros Hws Hev Hf Hk Hout Hjs Hl Hty Hfiles Hdata Hobj Happ Hfs w'.
  split.
  - now apply (@send_direct_files E self signal w p fn k out dd ty entries
                 obj app fs).
  - intros i n Hi.
    rewrite <- (files_of_entries_length _ _ _ _ Hfs) in Hi.
    destruct (nth_error fs i) as [fi|] eqn:Hfi;
      [|apply nth_error_None in Hfi; lia].
    assert (Hheap : nth_error (heap w') (List.length (heap w) + i)
                    = Some (FileObj fi)).
    { unfold w', allocated, logged. simpl.
      rewrite nth_error_app2 by lia.
      replace (List.length (heap w) + i - List.length (heap w)) with i by lia.
      now rewrite nth_error_map, Hfi. }
    pose proof (files_of_entries_bound _ _ _ _ Hfs) as Hall.
    rewrite Forall_forall in Hall.
    destruct (Hall fi (nth_error_In _ _ Hfi)) as (Hfws & Hfsig & _).
    destruct signal as [ | | | | | |d| | | | ]; try discriminate.
    cbn [iterate_file].
    rewrite (@file_iter_direct_descriptor E _ fi d w' Hheap); try assumption.
    + reflexivity.
    + now rewrite Hfws.
Qed.

Lemma file_iter_direct_fails_witness :
  let w := Demo.world0 true
             (Demo.in_call (VStr "js") VNone Demo.desktop_page Demo.get_files)
             [] in
  let w' := allocated [FileObj (Demo.upload VNone (VBool false))]
                      (logged [EvEvaluate 2 (VStr "_getFiles") (VDict [])] w) in
  _send Demo.env 0 (Demo.descriptor "_getFiles") w = (Ok (VList [VRef 4]), w')
  /\ forall i n,
      i < 1 ->
      iterate_file Demo.env (S n) (VRef (4 + i)) GenStart w'
      = ([], Raised (AttributeError "evaluate_js"), w').
Proof.
  intros w w'.
  apply (@file_iter_direct_fails Demo.env 0 (Demo.descriptor "_getFiles") w 2
           (VStr "_getFiles") (VDict []) (VStr Demo.files_text)
           [("type", VStr "files"); ("data", VList [Demo.file_entry])]
           (VStr "files") [Demo.file_entry] Demo.desktop_page Demo.app
           [Demo.upload VNone (VBool false)]);
    reflexivity.
Defined.

(** X25. What the loop of lines 160 to 171 does for a file whose [_signal]
    does carry an evaluator: one evaluation, then the same text decoded at every
    turn; one chunk when its [end] flag equals [True], the same chunk for
    ever otherwise. *)
Lemma file_iter_direct_loop E a f w p out dd data e x :
  nth_error (heap w) a = Some (FileObj f) ->
  truthy (_ws f) = false ->
  attr_of (heap w) (_signal f) "evaluate_js" = Ok (VEvalJs p) ->
  let fn := VStr "_saveFile" in
  let k := VDict [("file-id", _id f); ("binary", is_binary f)] in
  run_js E (logged [EvEvaluate p fn k] w) p fn k = Ok out ->
  json_loads E out = Ok dd ->
  getitem dd "data" = Ok data ->
  getitem dd "end" = Ok e ->
  converted (is_binary f) data = Ok x ->
  (eq_True e = true ->
   forall n, iterate_file E (2 + n) (VRef a) GenStart w
             = ([x], Exhausted, logged [EvEvaluate p fn k] w))
  /\ (eq_True e = false ->
      forall n, iterate_file E (S n) (VRef a) GenStart w
                = (repeat x (S n), Suspended (GenDirect out dd),
                   logged [EvEvaluate p fn k] w)).
Proof.
  intros Hf Hws Hev fn k Hout Hl Hd He Hx.
  set (w1 := logged [EvEvaluate p fn k] w).
  assert (Hf1 : nth_error (heap w1) a = Some (FileObj f)) by exact Hf.
  assert (Hturn : iter_direct_turn E (VRef a) out w1
                  = (Ok (Yield x, GenDirect out dd), w1)).
  { rewrite (@iter_direct_turn_file E a f out w1 Hf1).
    now rewrite Hl, Hd, Hx. }
  assert (Hstart : File___iter___next E (VRef a) GenStart w
                   = (Ok (Yield x, GenDirect out dd), w1)).
  { rewrite <- Hturn.
    unfold File___iter___next, getattr, call_evaluate_js, get_world, log,
      lift, ret, bind.
    simpl. rewrite Hf. simpl. rewrite Hws. repeat (rewrite Hf; simpl).
    rewrite Hev. simpl. unfold fn, k, logged in Hout. simpl in Hout.
    rewrite Hout. reflexivity. }
  assert (Hresume : File___iter___next E (VRef a) (GenDirect out dd) w1
                    = if eq_True e then (Ok (StopIteration, GenDone), w1)
                      else (Ok (Yield x, GenDirect out dd), w1)).
  { unfold File___iter___next, lift, bind. rewrite He.
    destruct (eq_True e); [reflexivity|exact Hturn]. }
  split; intros Hend.
  - intros n. change (2 + n) with (S (S n)). cbn [iterate_file].
    rewrite Hstart. cbn [iterate_file]. now rewrite Hresume, Hend.
  - rewrite Hend in Hresume.
    assert (Hloop : forall n,
               iterate_file E n (VRef a) (GenDirect out dd) w1
               = (repeat x n, Suspended (GenDirect out dd), w1)).
    { induction n as [|n IH]; [reflexivity|].
      cbn [iterate_file]. now rewrite Hresume, IH. }
    intros n. cbn [iterate_file]. now rewrite Hstart, Hloop.
Qed.

(** * Further properties *)

(** ** The dispatcher *)

Lemma find_builder_private func_name included :
  starts_with_underscore func_name = true ->
  mem_str func_name included = false ->
  forall ms, find_builder func_name included ms = None.
Proof.
  intros Hp Hi. induction ms as [|[method_name method] rest IH];
    [reflexivity|].
  simpl. destruct (String.eqb method_name func_name) eqn:Hn; [|exact IH].
  apply String.eqb_eq in Hn. subst method_name.
  now rewrite Hp, Hi.
Qed.

(** X1. A function whose name starts with an underscore and is not listed
    in [included_private_methods] is never forwarded: whatever the function
    members of the instance are, [_call_method] calls none of them, leaves
    the world as it is and returns [None]. *)
Theorem call_method_private_name E self func kwargs w :
  starts_with_underscore (fn_name E func) = true ->
  mem_str (fn_name E func) (included_private_methods (signals w self)) = false ->
  _call_method E self func kwargs w = (Ok VNone, w).
Proof.
  intros Hp Hi. unfold _call_method, bind, get_signal.
  rewrite call_method_loop_missing; [reflexivity|].
  now apply find_builder_private.
Qed.

Lemma call_method_private_name_witness :
  let w := Demo2.world0 true (Demo2.signal_of (VStr "js") (VWs 0) Demo2.refresh)
                        [] in
  _call_method Demo2.env 0 Demo2.refresh [("object", Demo.page)] w
  = (Ok VNone, w).
Proof.
  intro w.
  apply (@call_method_private_name Demo2.env 0 Demo2.refresh
           [("object", Demo.page)] w); reflexivity.
Defined.

(** ** Sending without waiting for an answer *)

(** X2. Over a websocket, a decorator that expects no result from JavaScript
    sends the encoded signal and returns [None] at once: one send, no receive,
    no validation, and the messages waiting on the channel stay there. *)
Theorem send_ws_no_result E self signal w c text :
  ws (signals w self) = VWs c ->
  json_dumps E signal = Ok text ->
  eq_str (return_type (signals w self)) "js" = false ->
  _send E self signal w = (Ok VNone, logged [EvSend c text] w)
  /\ inbox (snd (_send E self signal w)) = inbox w.
Proof.
  intros Hws Hd Hjs.
  assert (H : _send E self signal w = (Ok VNone, logged [EvSend c text] w)).
  { unfold _send, ws_send, get_signal, log, lift, ret, bind.
    rewrite Hws. simpl. now rewrite Hd, Hjs. }
  split; [exact H|]. now rewrite H.
Qed.

Lemma send_ws_no_result_witness :
  let w := Demo.world0 true
             (Demo.in_call VNone (VWs 0) Demo.page Demo.get_value)
             [VStr "waiting"] in
  _send Demo.env 0 (Demo.descriptor "_getValue") w
  = (Ok VNone,
     logged [EvSend 0 ("{" ++ Demo.q "func" ++ ": " ++ Demo.q "_getValue"
                       ++ ", " ++ Demo.q "args" ++ ": [], " ++ Demo.q "kwargs"
                       ++ ": {}}")%string] w)
  /\ inbox (snd (_send Demo.env 0 (Demo.descriptor "_getValue") w)) = inbox w.
Proof.
  intro w.
  apply (@send_ws_no_result Demo.env 0 (Demo.descriptor "_getValue") w 0);
    reflexivity.
Defined.

(** X3. Through the evaluator, a decorator that expects no result from
    JavaScript evaluates once and returns [None] whatever comes back: the
    text is not decoded, so the result is the same for every decoder. *)
Theorem send_direct_no_result E self signal w p f k out :
  truthy (ws (signals w self)) = false ->
  evaluate_js (signals w self) = Some (VEvalJs p) ->
  getitem signal "func" = Ok f ->
  getitem signal "kwargs" = Ok k ->
  run_js E (logged [EvEvaluate p f k] w) p f k = Ok out ->
  eq_str (return_type (signals w self)) "js" = false ->
  forall loads,
    _send (with_json_loads loads E) self signal w
    = (Ok VNone, logged [EvEvaluate p f k] w).
Proof.
  intros Hws Hev Hf Hk Hout Hjs loads.
  rewrite (@send_direct_prefix (with_json_loads loads E) self signal w p f k
             out Hws Hev Hf Hk Hout).
  now rewrite Hjs.
Qed.

Lemma send_direct_no_result_witness :
  let w := Demo.world0 true
             (Demo.in_call VNone VNone Demo.desktop_page Demo.get_value) [] in
  _send (with_json_loads (fun _ => Raise ValueError) Demo.env) 0
        (Demo.descriptor "_getValue") w
  = (Ok VNone, logged [EvEvaluate 2 (VStr "_getValue") (VDict [])] w).
Proof.
  intro w.
  apply (@send_direct_no_result Demo.env 0 (Demo.descriptor "_getValue") w 2
           (VStr "_getValue") (VDict []) (VStr "<undefined>")); reflexivity.
Defined.

(** ** Waiting for an answer on the websocket *)

(** X4. When the decorator expects a result and the websocket delivers
    nothing, [_send] never returns: the signal has been sent and the call
    stays in [receive]. *)
Theorem send_ws_silent E self signal w c text :
  ws (signals w self) = VWs c ->
  json_dumps E signal = Ok text ->
  eq_str (return_type (signals w self)) "js" = true ->
  inbox w c = [] ->
  _send E self signal w = (Blocked, logged [EvSend c text] w).
Proof.
  intros Hws Hd Hjs Hin.
  unfold _send, ws_send, get_signal, log, lift, ret, bind.
  rewrite Hws. simpl. rewrite Hd, Hjs, Hws. simpl.
  unfold ws_receive. simpl. now rewrite Hin.
Qed.

Lemma send_ws_silent_witness :
  let w := Demo.world0 true
             (Demo.in_call (VStr "js") (VWs 0) Demo.page Demo.get_value) [] in
  _send Demo.env 0 (Demo.descriptor "_getValue") w
  = (Blocked,
     logged [EvSend 0 ("{" ++ Demo.q "func" ++ ": " ++ Demo.q "_getValue"
                       ++ ", " ++ Demo.q "args" ++ ": [], " ++ Demo.q "kwargs"
                       ++ ": {}}")%string] w).
Proof.
  intro w.
  apply (@send_ws_silent Demo.env 0 (Demo.descriptor "_getValue") w 0);
    reflexivity.
Defined.

(** X5. On the websocket branch nothing catches what goes wrong after the
    validator accepted the answer: an answer that cannot be decoded raises
    the decoder's exception, one that is not an object raises
    [AttributeError], an object without [type] raises [KeyError], and an
    object of another type than "files" without [data] raises [KeyError]. *)
Theorem send_ws_malformed E self signal w c text m rest obj app v :
  ws (signals w self) = VWs c ->
  json_dumps E signal = Ok text ->
  eq_str (return_type (signals w self)) "js" = true ->
  inbox w c = m :: rest ->
  object (signals w self) = Some obj ->
  attr_of (heap w) obj "_app" = Ok app ->
  validate_data E app m = Ok v ->
  truthy v = true ->
  let w' := answered c text m app w in
  (forall e, json_loads E m = Raise e ->
             _send E self signal w = (Raise e, w'))
  /\ (forall x, json_loads E m = Ok x ->
                (forall d, x <> VDict d) ->
                _send E self signal w = (Raise (AttributeError "keys"), w'))
  /\ (forall d, json_loads E m = Ok (VDict d) ->
                dict_get "type" d = None ->
                _send E self signal w = (Raise (KeyError "type"), w'))
  /\ (forall d ty, json_loads E m = Ok (VDict d) ->
                   dict_get "type" d = Some ty ->
                   eq_str ty "files" = false ->
                   dict_get "data" d = None ->
                   _send E self signal w = (Raise (KeyError "data"), w')).
Proof.
  intros Hws Hd Hjs Hin Hobj Happ Hv Ht w'.
  rewrite (@send_ws_prefix E self signal w c text m rest obj app)
    with (v := v) by assumption.
  rewrite Ht. simpl negb. cbv iota. fold w'.
  unfold bind, lift, keys_of, ret, raise.
  repeat split.
  - intros e ->. reflexivity.
  - intros x -> Hnd. destruct x; try reflexivity. now destruct (Hnd d).
  - intros d -> Hty. simpl. now rewrite Hty.
  - intros d ty -> Hty Hne Hdata. simpl. now rewrite Hty, Hne, Hdata.
Qed.

Lemma send_ws_malformed_witness :
  let w := Demo.world0 true
             (Demo.in_call (VStr "js") (VWs 0) Demo.page Demo.get_value)
             [VStr "[1, 2]"] in
  _send Demo.env 0 (Demo.descriptor "_getValue") w
  = (Raise (AttributeError "keys"),
     answered 0 ("{" ++ Demo.q "func" ++ ": " ++ Demo.q "_getValue" ++ ", "
                 ++ Demo.q "args" ++ ": [], " ++ Demo.q "kwargs" ++ ": {}}")%string
              (VStr "[1, 2]") Demo.app w).
Proof.
  intro w.
  refine (proj1 (proj2
           (@send_ws_malformed Demo.env 0 (Demo.descriptor "_getValue") w 0 _
              (VStr "[1, 2]") [] Demo.page Demo.app (VBool true)
              _ _ _ _ _ _ _ _)) (VList [VInt 1; VInt 2]) _ _);
    try reflexivity.
  intros d. discriminate.
Defined.

(** ** Decoding the evaluator's answer *)

(** X6. On the evaluator branch the bare [except] absorbs whatever the
    [try] block raises: [_send] then returns [None].  So an answer that is
    not an object, or an object without [type], gives [None] here, where the
    websocket branch raises. *)
Theorem send_direct_absorbs E self signal w p f k out :
  truthy (ws (signals w self)) = false ->
  evaluate_js (signals w self) = Some (VEvalJs p) ->
  getitem signal "func" = Ok f ->
  getitem signal "kwargs" = Ok k ->
  run_js E (logged [EvEvaluate p f k] w) p f k = Ok out ->
  eq_str (return_type (signals w self)) "js" = true ->
  let w1 := logged [EvEvaluate p f k] w in
  (forall e w2, decode_direct E self signal out w1 = (Raise e, w2) ->
                _send E self signal w = (Ok VNone, w2))
  /\ (forall x, json_loads E out = Ok x ->
                (forall d, x <> VDict d) ->
                _send E self signal w = (Ok VNone, w1))
  /\ (forall d, json_loads E out = Ok (VDict d) ->
                dict_get "type" d = None ->
                _send E self signal w = (Ok VNone, w1)).
Proof.
  intros Hws Hev Hf Hk Hout Hjs w1.
  assert (Habs : forall e w2,
             decode_direct E self signal out w1 = (Raise e, w2) ->
             _send E self signal w = (Ok VNone, w2)).
  { intros e w2 Hdec.
    rewrite (send_direct_prefix E self signal w Hws Hev Hf Hk Hout), Hjs.
    fold w1. unfold bind at 1, try_except. now rewrite Hdec. }
  split; [exact Habs|]. split.
  - intros x Hl Hnd. apply (Habs TypeError).
    unfold decode_direct, bind, lift. rewrite Hl.
    destruct x; try reflexivity. now destruct (Hnd d).
  - intros d Hl Hty. apply (Habs (KeyError "type")).
    unfold decode_direct, bind, lift. rewrite Hl. simpl. now rewrite Hty.
Qed.

Lemma send_direct_absorbs_witness :
  let w := Demo.world0 true
             (Demo.in_call (VStr "js") VNone Demo.desktop_page Demo.get_value)
             [] in
  _send (with_json_loads (fun _ => Ok (VDict [("data", VInt 5)])) Demo.env) 0
        (Demo.descriptor "_getValue") w
  = (Ok VNone, logged [EvEvaluate 2 (VStr "_getValue") (VDict [])] w).
Proof.
  intro w.
  refine (proj2 (proj2
           (@send_direct_absorbs
              (with_json_loads (fun _ => Ok (VDict [("data", VInt 5)]))
                               Demo.env)
              0 (Demo.descriptor "_getValue") w 2 (VStr "_getValue")
              (VDict []) (VStr "<undefined>") _ _ _ _ _ _))
           [("data", VInt 5)] _ _);
    reflexivity.
Defined.

(** X7. On the evaluator branch an answer of another type than "files" gives
    its [data] field; when that field is missing the [KeyError] of line 93
    reaches the caller, for that line is outside the [try]. *)
Theorem send_direct_value E self signal w p f k out d ty :
  truthy (ws (signals w self)) = false ->
  evaluate_js (signals w self) = Some (VEvalJs p) ->
  getitem signal "func" = Ok f ->
  getitem signal "kwargs" = Ok k ->
  run_js E (logged [EvEvaluate p f k] w) p f k = Ok out ->
  eq_str (return_type (signals w self)) "js" = true ->
  json_loads E out = Ok (VDict d) ->
  dict_get "type" d = Some ty ->
  eq_str ty "files" = false ->
  _send E self signal w
  = (match dict_get "data" d with
     | Some v => Ok v
     | None => Raise (KeyError "data")
     end, logged [EvEvaluate p f k] w).
Proof.
  intros Hws Hev Hf Hk Hout Hjs Hl Hty Hne.
  rewrite (send_direct_prefix E self signal w Hws Hev Hf Hk Hout), Hjs.
  unfold try_except, decode_direct, bind, lift, ret. rewrite Hl. simpl.
  rewrite Hty, Hne. simpl. now destruct (dict_get "data" d).
Qed.

Lemma send_direct_value_witness :
  let w := Demo.world0 true
             (Demo.in_call (VStr "js") VNone Demo.desktop_page Demo.get_value)
             [] in
  _send (with_json_loads (fun _ => Ok (VDict [("type", VStr "value")]))
                         Demo.env) 0
        (Demo.descriptor "_getValue") w
  = (Raise (KeyError "data"),
     logged [EvEvaluate 2 (VStr "_getValue") (VDict [])] w).
Proof.
  intro w.
  apply (@send_direct_value
           (with_json_loads (fun _ => Ok (VDict [("type", VStr "value")]))
                            Demo.env)
           0 (Demo.descriptor "_getValue") w 2 (VStr "_getValue") (VDict [])
           (VStr "<undefined>") [("type", VStr "value")] (VStr "value"));
    reflexivity.
Defined.

(** ** File.__init__ *)

(** [File.__init__] reads [name], [size], [type] and [last-modified] from
    the entry, in that order: the first one missing raises its [KeyError] and
    nothing is allocated. *)
Lemma File_init_keys d signal app file_id ws_ w :
  File___init__ (VDict d) signal app file_id ws_ w
  = match dict_get "name" d, dict_get "size" d, dict_get "type" d,
          dict_get "last-modified" d with
    | Some n, Some s, Some t, Some l =>
        (Ok (VRef (List.length (heap w))),
         allocated [FileObj (mkFile (VDict d) n s t l ws_ file_id app signal
                                    (VBool false))] w)
    | None, _, _, _ => (Raise (KeyError "name"), w)
    | Some _, None, _, _ => (Raise (KeyError "size"), w)
    | Some _, Some _, None, _ => (Raise (KeyError "type"), w)
    | Some _, Some _, Some _, None => (Raise (KeyError "last-modified"), w)
    end.
Proof.
  unfold File___init__, alloc, bind, lift, getitem.
  destruct (dict_get "name" d); [|reflexivity].
  destruct (dict_get "size" d); [|reflexivity].
  destruct (dict_get "type" d); [|reflexivity].
  destruct (dict_get "last-modified" d); reflexivity.
Qed.

(** ** Listings with a malformed entry *)

Lemma getitem_not_blocked v k : getitem v k <> Blocked.
Proof.
  destruct v; simpl; try discriminate. destruct (dict_get k d); discriminate.
Qed.

Lemma make_files_bad_entry signal (with_ws : bool) self obj app bad e :
  entry_error bad = Some e ->
  forall good rest fs files w,
    object (signals w self) = Some obj ->
    attr_of (heap w) obj "_app" = Ok app ->
    files_of_entries signal app
      (if with_ws then ws (signals w self) else VNone) good = Some fs ->
    make_files self signal with_ws (good ++ bad :: rest) files w
    = (Raise e, allocated (map FileObj fs) w).
Proof.
  intros Hbad. induction good as [|g r IH]; intros rest fs files w Hobj Happ Hfs.
  - simpl in Hfs. injection Hfs as <-. simpl.
    unfold File___init__, alloc, getattr, get_signal, lift, ret, bind.
    rewrite Hobj. simpl. rewrite Happ.
    unfold entry_error in Hbad.
    assert (Hw : allocated [] w = w)
      by (unfold allocated; simpl; rewrite app_nil_r; now destruct w).
    change (map FileObj []) with (@nil pyobject). rewrite Hw.
    revert Hbad.
    repeat match goal with
           | |- context [getitem bad ?k] =>
               let H := fresh "H" in
               destruct (getitem bad k) eqn:H;
               [ | intros [= <-]; reflexivity
                 | exfalso; exact (getitem_not_blocked _ _ H) ]
           end.
    discriminate.
  - simpl in Hfs.
    destruct (file_of_entry _ _ _ g) as [fg|] eqn:Hg; try discriminate.
    destruct (files_of_entries _ _ _ r) as [fs'|] eqn:Hr; try discriminate.
    injection Hfs as <-.
    unfold file_of_entry in Hg.
    destruct (getitem g "file-id") as [i| |] eqn:Hi; try discriminate.
    destruct (getitem g "name") as [n| |] eqn:Hn; try discriminate.
    destruct (getitem g "size") as [s| |] eqn:Hs; try discriminate.
    destruct (getitem g "type") as [t| |] eqn:Ht; try discriminate.
    destruct (getitem g "last-modified") as [l| |] eqn:Hl; try discriminate.
    injection Hg as <-.
    change ((g :: r) ++ bad :: rest) with (g :: (r ++ bad :: rest)).
    simpl make_files.
    unfold File___init__, alloc, getattr, get_signal, lift, ret, bind.
    rewrite Hobj. simpl. rewrite Happ, Hi, Hn, Hs, Ht, Hl.
    rewrite (IH rest fs'); simpl; auto using attr_of_app.
    unfold allocated. simpl. now rewrite <- !app_assoc.
Qed.

(** X8. Over the websocket, a listing with a malformed entry gives no file
    at all: [_send] raises the error of the first such entry, the files of
    the entries before it having been built and left behind. *)
Theorem send_ws_bad_entry E self signal w c text m rest obj app v d ty
        good bad others fs e :
  ws (signals w self) = VWs c ->
  json_dumps E signal = Ok text ->
  eq_str (return_type (signals w self)) "js" = true ->
  inbox w c = m :: rest ->
  object (signals w self) = Some obj ->
  attr_of (heap w) obj "_app" = Ok app ->
  validate_data E app m = Ok v ->
  truthy v = true ->
  json_loads E m = Ok (VDict d) ->
  dict_get "type" d = Some ty ->
  eq_str ty "files" = true ->
  dict_get "data" d = Some (VList (good ++ bad :: others)) ->
  files_of_entries signal app (VWs c) good = Some fs ->
  entry_error bad = Some e ->
  _send E self signal w
  = (Raise e, allocated (map FileObj fs) (answered c text m app w)).
Proof.
  intros Hws Hd Hjs Hin Hobj Happ Hv Ht Hl Hty Hfiles Hdata Hfs Hbad.
  rewrite (@send_ws_prefix E self signal w c text m rest obj app)
    with (v := v) by assumption.
  rewrite Ht. simpl negb. cbv iota.
  unfold bind, lift, keys_of, ret. rewrite Hl. simpl.
  rewrite Hty, Hfiles, Hdata. simpl.
  rewrite (@make_files_bad_entry signal true self obj app bad e Hbad
             good others fs); simpl; try assumption.
  - reflexivity.
  - now rewrite Hws.
Qed.

Lemma send_ws_bad_entry_witness :
  let nameless := VDict [("size", VInt 2); ("file-id", VInt 8)] in
  let listing := VDict [("type", VStr "files");
                        ("data", VList [Demo.file_entry; nameless])] in
  let E := with_json_loads (fun _ => Ok listing) Demo.env in
  let w := Demo.world0 true
             (Demo.in_call (VStr "js") (VWs 0) Demo.page Demo.get_files)
             [VStr Demo.files_text] in
  exists text,
    _send E 0 (Demo.descriptor "_getFiles") w
    = (Raise (KeyError "name"),
       allocated [FileObj (Demo.upload (VWs 0) (VBool false))]
                 (answered 0 text (VStr Demo.files_text) Demo.app w)).
Proof.
  intros nameless listing E w. eexists.
  apply (@send_ws_bad_entry E 0 (Demo.descriptor "_getFiles") w 0 _
           (VStr Demo.files_text) [] Demo.page Demo.app (VBool true)
           [("type", VStr "files");
            ("data", VList [Demo.file_entry; nameless])]
           (VStr "files") [Demo.file_entry] nameless []
           [Demo.upload (VWs 0) (VBool false)] (KeyError "name"));
    reflexivity.
Defined.

(** X9. Through the evaluator, a listing with a malformed entry is lost as
    a whole and without an error: [_send] returns [None], not the files of
    the well-formed entries. *)
Theorem send_direct_bad_entry E self signal w p f k out obj app d ty
        good bad others fs e :
  truthy (ws (signals w self)) = false ->
  evaluate_js (signals w self) = Some (VEvalJs p) ->
  getitem signal "func" = Ok f ->
  getitem signal "kwargs" = Ok k ->
  run_js E (logged [EvEvaluate p f k] w) p f k = Ok out ->
  eq_str (return_type (signals w self)) "js" = true ->
  object (signals w self) = Some obj ->
  attr_of (heap w) obj "_app" = Ok app ->
  json_loads E out = Ok (VDict d) ->
  dict_get "type" d = Some ty ->
  eq_str ty "files" = true ->
  dict_get "data" d = Some (VList (good ++ bad :: others)) ->
  files_of_entries signal app VNone good = Some fs ->
  entry_error bad = Some e ->
  _send E self signal w
  = (Ok VNone, allocated (map FileObj fs) (logged [EvEvaluate p f k] w)).
Proof.
  intros Hws Hev Hf Hk Hout Hjs Hobj Happ Hl Hty Hfiles Hdata Hfs Hbad.
  rewrite (send_direct_prefix E self signal w Hws Hev Hf Hk Hout), Hjs.
  unfold try_except, decode_direct, bind, lift, ret. rewrite Hl. simpl.
  rewrite Hty, Hfiles, Hdata. simpl.
  rewrite (@make_files_bad_entry signal false self obj app bad e Hbad
             good others fs); simpl; try assumption.
  reflexivity.
Qed.

Lemma send_direct_bad_entry_witness :
  let nameless := VDict [("size", VInt 2); ("file-id", VInt 8)] in
  let listing := VDict [("type", VStr "files");
                        ("data", VList [Demo.file_entry; nameless])] in
  let E := with_json_loads (fun _ => Ok listing) Demo.env in
  let w := Demo.world0 true
             (Demo.in_call (VStr "js") VNone Demo.desktop_page Demo.get_files)
             [] in
  _send E 0 (Demo.descriptor "_getFiles") w
  = (Ok VNone,
     allocated [FileObj (Demo.upload VNone (VBool false))]
               (logged [EvEvaluate 2 (VStr "_getFiles") (VDict [])] w)).
Proof.
  intros nameless listing E w.
  apply (@send_direct_bad_entry E 0 (Demo.descriptor "_getFiles") w 2
           (VStr "_getFiles") (VDict []) (VStr Demo.files_text)
           Demo.desktop_page Demo.app
           [("type", VStr "files");
            ("data", VList [Demo.file_entry; nameless])]
           (VStr "files") [Demo.file_entry] nameless []
           [Demo.upload VNone (VBool false)] (KeyError "name"));
    reflexivity.
Defined.

(** ** Where the transports come from *)

Lemma neq_eqb d' d : d' <> d -> Nat.eqb d' d = false.
Proof. intros H. now apply Nat.eqb_neq. Qed.

(** X10. For an element in signal mode the wrapper takes the websocket and
    the evaluator of the element's parent page: a [_ws] of the element's own
    plays no part, and nothing but the decorator changes. *)
Theorem resolve_channel_element decorator p d q cls dq w :
  nth_error (heap w) p = Some (Instance "Element" d) ->
  dict_get "_parent_page" d = Some (VRef q) ->
  nth_error (heap w) q = Some (Instance cls dq) ->
  exists w',
    resolve_channel decorator (VRef p) w = (Ok tt, w')
    /\ only_decorator decorator
         (with_transports (page_ws dq) (page_evaluate_js q dq)
                          (signals w decorator)) w w'.
Proof.
  intros Hp Hparent Hq. eexists.
  unfold resolve_channel, dict_attr_get, getattr_evaluate_js, getattr,
    get_world, get_signal, set_signal, ret, bind.
  simpl. repeat (rewrite ?Hp, ?Hparent, ?Hq; simpl).
  split; [reflexivity|].
  unfold only_decorator, with_transports, page_ws, page_evaluate_js. simpl.
  rewrite !Nat.eqb_refl. simpl.
  repeat split. intros d' Hne. now rewrite (neq_eqb Hne).
Qed.

Lemma resolve_channel_element_witness :
  let w := mkWorld [Instance "App" [];
                    Instance "Page" [("_ws", VWs 0)];
                    Instance "Element" [("_ws", VWs 9);
                                        ("_parent_page", VRef 1)]]
                   (fun _ => Signal___init__ (VStr "js")) (fun _ => []) [] in
  exists w',
    resolve_channel 0 (VRef 2) w = (Ok tt, w')
    /\ only_decorator 0
         (with_transports (VWs 0) (VEvalJs 1) (Signal___init__ (VStr "js")))
         w w'.
Proof.
  intro w.
  apply (@resolve_channel_element 0 2
           [("_ws", VWs 9); ("_parent_page", VRef 1)] 1 "Page"
           [("_ws", VWs 0)] w); reflexivity.
Defined.

(** X11. For a page in signal mode the wrapper takes the page's own
    websocket, [None] when its [__dict__] has no [_ws], and its evaluator. *)
Theorem resolve_channel_page decorator p d w :
  nth_error (heap w) p = Some (Instance "Page" d) ->
  exists w',
    resolve_channel decorator (VRef p) w = (Ok tt, w')
    /\ only_decorator decorator
         (with_transports (page_ws d) (page_evaluate_js p d)
                          (signals w decorator)) w w'.
Proof.
  intros Hp. eexists.
  unfold resolve_channel, dict_attr_get, getattr_evaluate_js, getattr,
    get_world, get_signal, set_signal, ret, bind.
  simpl. repeat (rewrite ?Hp; simpl).
  split; [reflexivity|].
  unfold only_decorator, with_transports, page_ws, page_evaluate_js. simpl.
  rewrite !Nat.eqb_refl. simpl.
  repeat split. intros d' Hne. now rewrite (neq_eqb Hne).
Qed.

Lemma resolve_channel_page_witness :
  let w := Demo.world0 true (Demo.signal_of (VStr "js") [] Demo.get_value) [] in
  exists w',
    resolve_channel 0 Demo.desktop_page w = (Ok tt, w')
    /\ only_decorator 0
         (with_transports VNone (VEvalJs 2)
                          (Demo.signal_of (VStr "js") [] Demo.get_value))
         w w'.
Proof.
  intro w.
  apply (@resolve_channel_page 0 2
           [("_signal_mode", VBool true); ("_app", Demo.app)] w); reflexivity.
Defined.

(** X12. For an object whose class is called neither [Element] nor [Page]
    the wrapper resolves nothing: the decorator keeps the websocket and the
    evaluator an earlier call left on it. *)
Theorem resolve_channel_other decorator self w :
  String.eqb (class_name w self) "Element" = false ->
  String.eqb (class_name w self) "Page" = false ->
  resolve_channel decorator self w = (Ok tt, w).
Proof.
  intros He Hp. unfold resolve_channel, get_world, bind.
  now rewrite He, Hp.
Qed.

Lemma resolve_channel_other_witness :
  let w := Demo.world0 true
             (Demo.in_call (VStr "js") (VWs 0) Demo.page Demo.get_value) [] in
  resolve_channel 0 Demo.app w = (Ok tt, w)
  /\ ws (signals w 0) = VWs 0.
Proof.
  intro w. split; [|reflexivity].
  apply (@resolve_channel_other 0 Demo.app w); reflexivity.
Defined.

(** ** One decorator for two functions *)

(** X13. A [Signal] instance keeps one [_func]: when it decorates a second
    function, the wrapper handed out for the first one runs the second.  Out
    of signal mode it returns the second function's value, while the
    no-return check still goes by the first function's name. *)
Theorem new_func_shared_decorator E decorator f1 f2 self args kwargs w0
        m0 v w2 m1 :
  let w := snd (Signal___call__ E decorator f2
                  (snd (Signal___call__ E decorator f1 w0))) in
  attr_of (heap w0) self "_signal_mode" = Ok m0 ->
  truthy m0 = false ->
  fn_call E f2 (self :: args) kwargs (with_object decorator self w)
  = (Ok v, w2) ->
  attr_of (heap w2) self "_signal_mode" = Ok m1 ->
  truthy m1 = false ->
  new_func E decorator f1 self args kwargs w
  = (Ok (if mem_str (fn_name E f1)
                    (no_return_functions (signals w2 decorator))
         then VNone else v), w2).
Proof.
  intros w Hm0 Hf0 Hcall Hm1 Hf1.
  assert (Hfunc : _func (signals w decorator) = Some f2).
  { unfold w, Signal___call__, bind, get_signal, set_signal, ret. simpl.
    now rewrite Nat.eqb_refl. }
  rewrite (@new_func_off_prefix E decorator f1 self args kwargs w m0 f2);
    try assumption.
  unfold bind at 1. rewrite Hcall.
  unfold bind at 1, getattr at 1. rewrite Hm1, Hf1.
  unfold bind at 1, ret at 1, return_policy, bind, get_signal, ret.
  destruct (mem_str _ _); [reflexivity|].
  destruct (eq_str (return_type (signals w2 decorator)) "js"); reflexivity.
Qed.

Lemma new_func_shared_decorator_witness :
  let w0 := Demo2.world0 false
              (Demo2.signal_of VNone (VWs 0) Demo.get_value) [] in
  let w := snd (Signal___call__ Demo2.env 0 Demo2.refresh
                  (snd (Signal___call__ Demo2.env 0 Demo.get_value w0))) in
  new_func Demo2.env 0 Demo.get_value Demo.page [] [] w
  = (Ok (VInt 2), with_object 0 Demo.page w).
Proof.
  intros w0 w.
  apply (@new_func_shared_decorator Demo2.env 0 Demo.get_value Demo2.refresh
           Demo.page [] [] w0 (VBool false) (VInt 2)
           (with_object 0 Demo.page w) (VBool false)); reflexivity.
Defined.

(** ** The wrapper in signal mode *)

Lemma dict_get_del_other k1 k2 d :
  k1 <> k2 -> dict_get k1 (dict_del k2 d) = dict_get k1 d.
Proof.
  intros Hne. induction d as [|[k x] r IH]; simpl; [reflexivity|].
  destruct (String.eqb k2 k) eqn:H2; simpl.
  - apply String.eqb_eq in H2. subst k.
    destruct (String.eqb k1 k2) eqn:H; [|reflexivity].
    apply String.eqb_eq in H. contradiction.
  - destruct (String.eqb k1 k); [reflexivity|exact IH].
Qed.

Lemma dict_get_set_same k v d : dict_get k (dict_set k v d) = Some v.
Proof.
  induction d as [|[k' x] r IH]; simpl.
  - now rewrite String.eqb_refl.
  - destruct (String.eqb k k') eqn:H; simpl.
    + now rewrite String.eqb_refl.
    + now rewrite H.
Qed.

Lemma snapshot_copy p o m0 w :
  nth_error (heap w) p = Some o ->
  attr_of (heap w) (VRef p) "_signal_mode" = Ok m0 ->
  truthy m0 = true ->
  snapshot (VRef p) w
  = (Ok (Some (VRef (List.length (heap w)))), allocated [o] w).
Proof.
  intros Hp Hm Ht. unfold snapshot, bind at 1, getattr. rewrite Hm, Ht.
  unfold bind, copy, alloc, ret. now rewrite Hp.
Qed.

(** X14. The copy handed to the signal builder is a new object: for an
    object in signal mode the snapshot allocates, at the next free address,
    an instance with the class and the [__dict__] the object has before the
    method runs, and binds [original_copy] to it. *)
Theorem snapshot_fresh_copy p o m0 w :
  nth_error (heap w) p = Some o ->
  attr_of (heap w) (VRef p) "_signal_mode" = Ok m0 ->
  truthy m0 = true ->
  snapshot (VRef p) w
  = (Ok (Some (VRef (List.length (heap w)))), allocated [o] w)
  /\ List.length (heap w) <> p
  /\ nth_error (heap (allocated [o] w)) (List.length (heap w)) = Some o
  /\ nth_error (heap (allocated [o] w)) p = Some o.
Proof.
  intros Hp Hm Ht. repeat split.
  - now apply (@snapshot_copy p o m0 w).
  - intros Heq. assert (Hlt : p < List.length (heap w))
      by (apply nth_error_Some; congruence). lia.
  - unfold allocated. simpl. rewrite nth_error_app2 by lia.
    now rewrite Nat.sub_diag.
  - unfold allocated. simpl.
    rewrite nth_error_app1 by (apply nth_error_Some; congruence).
    exact Hp.
Qed.

Lemma snapshot_fresh_copy_witness :
  let w := Demo.world0 true (Demo.signal_of (VStr "js") [] Demo.get_value) [] in
  let o := Instance "Page" [("_signal_mode", VBool true); ("_app", Demo.app);
                            ("_ws", VWs 0)] in
  snapshot Demo.page w = (Ok (Some (VRef 4)), allocated [o] w)
  /\ 4 <> 1
  /\ nth_error (heap (allocated [o] w)) 4 = Some o
  /\ nth_error (heap (allocated [o] w)) 1 = Some o.
Proof.
  intros w o.
  apply (@snapshot_fresh_copy 1 o (VBool true) w); reflexivity.
Defined.

Section SignalModeOn.

Variable E : Env.
Variables (decorator : sid) (func : fid) (p : addr) (o : pyobject).
Variables (args : list pyval) (kwargs : list (string * pyval)).
Variables (w w2 w3 : World) (m0 m1 v : pyval) (f f' : fid).
Variable bound : list (string * pyval).

Hypothesis Hobj : nth_error (heap w) p = Some o.
Hypothesis Hm0 : attr_of (heap w) (VRef p) "_signal_mode" = Ok m0.
Hypothesis Hon0 : truthy m0 = true.
Hypothesis Hfunc : _func (signals w decorator) = Some f.
Hypothesis Hcall :
  fn_call E f (VRef p :: args) kwargs
          (allocated [o] (with_object decorator (VRef p) w)) = (Ok v, w2).
Hypothesis Hm1 : attr_of (heap w2) (VRef p) "_signal_mode" = Ok m1.
Hypothesis Hon1 : truthy m1 = true.
Hypothesis Hres : resolve_channel decorator (VRef p) w2 = (Ok tt, w3).
Hypothesis Hfunc' : _func (signals w2 decorator) = Some f'.
Hypothesis Hbind : fn_bind E f' (VRef p :: args) kwargs = Ok bound.

Lemma signal_mode_on_prefix :
  new_func E decorator func (VRef p) args kwargs w
  = (real_output <- forward E decorator (VRef p) args kwargs v
                      (Some (VRef (List.length (heap w)))) ;;
     return_policy E decorator func v real_output) w2.
Proof.
  assert (Hsnap : snapshot (VRef p) (with_object decorator (VRef p) w)
                  = (Ok (Some (VRef (List.length (heap w)))),
                     allocated [o] (with_object decorator (VRef p) w)))
    by exact (@snapshot_copy p o m0
                (with_object decorator (VRef p) w) Hobj Hm0 Hon0).
  rewrite (@new_func_after_call E decorator func (VRef p) args kwargs w
             (Some (VRef (List.length (heap w)))) f v w2 m1);
    try assumption.
  - now rewrite Hon1.
  - now rewrite Hsnap.
  - now rewrite Hsnap.
Qed.

Lemma resolved_func : _func (signals w3 decorator) = Some f'.
Proof.
  destruct (resolve_channel_frame decorator (VRef p) w2)
    as (r & w3' & Hr & _ & Hfu & _).
  rewrite Hres in Hr. injection Hr as <- <-. now rewrite Hfu.
Qed.

(** X15. In signal mode before and after the call, the wrapper runs the
    method, resolves the transports, binds the arguments and hands the
    dispatcher the call context: the bound arguments without [self], with
    [return_value], [object] and [original_copy], the copy taken before the
    call.  What it returns is chosen from the method's value and the
    dispatcher's result. *)
Theorem new_func_signal_mode_on sv ro w4 :
  dict_get "self" bound = Some sv ->
  dict_has "func" bound = false ->
  _call_method E decorator f'
               (call_context bound v sv (VRef (List.length (heap w)))) w3
  = (Ok ro, w4) ->
  new_func E decorator func (VRef p) args kwargs w
  = (Ok (returned E (signals w4 decorator) func v ro), w4).
Proof.
  intros Hself Hnofunc Hdisp.
  rewrite signal_mode_on_prefix. unfold bind at 1.
  rewrite (@forward_dispatches E decorator (VRef p) args kwargs v
             (VRef (List.length (heap w))) w2 w3 f' bound sv Hres
             resolved_func Hbind Hself).
  - rewrite Hdisp. unfold return_policy, returned, bind, get_signal, ret.
    destruct (mem_str _ _); [reflexivity|].
    destruct (eq_str _ _); reflexivity.
  - unfold dict_has, call_context in *.
    rewrite dict_get_del_other by discriminate.
    rewrite !dict_get_set_other by discriminate.
    exact Hnofunc.
Qed.

(** X16. A method with a parameter called [func] cannot be forwarded: in
    signal mode its wrapper runs the method and then raises [TypeError],
    for the name clashes with the first parameter of [_call_method]; no
    signal builder is called. *)
Theorem new_func_parameter_func sv x :
  dict_get "self" bound = Some sv ->
  dict_get "func" bound = Some x ->
  new_func E decorator func (VRef p) args kwargs w = (Raise TypeError, w3).
Proof.
  intros Hself Hf.
  rewrite signal_mode_on_prefix. unfold bind at 1.
  unfold forward, bind at 1. rewrite Hres.
  unfold bind at 1, read_func at 1, bind at 1, get_signal at 1.
  rewrite resolved_func. unfold ret at 1, bind at 1, lift at 1.
  rewrite Hbind. unfold bind at 1, lift at 1, getitem.
  rewrite dict_get_set_other by discriminate. rewrite Hself.
  unfold bind at 1, read_local, ret at 1.
  unfold bind at 1, read_func at 1, bind at 1, get_signal at 1.
  rewrite resolved_func. unfold ret at 1.
  assert (Hhas : dict_has "func"
                   (dict_del "self"
                      (dict_set "original_copy" (VRef (List.length (heap w)))
                         (dict_set "object" sv
                            (dict_set "return_value" v bound)))) = true).
  { unfold dict_has. rewrite dict_get_del_other by discriminate.
    rewrite !dict_get_set_other by discriminate. now rewrite Hf. }
  now rewrite Hhas.
Qed.

(** X17. A function whose first parameter is not called [self] cannot be
    forwarded either: in signal mode its wrapper runs it and then raises
    [KeyError] on [kwargs['self']]. *)
Theorem new_func_no_self :
  dict_get "self" bound = None ->
  new_func E decorator func (VRef p) args kwargs w
  = (Raise (KeyError "self"), w3).
Proof.
  intros Hself.
  rewrite signal_mode_on_prefix. unfold bind at 1.
  unfold forward, bind at 1. rewrite Hres.
  unfold bind at 1, read_func at 1, bind at 1, get_signal at 1.
  rewrite resolved_func. unfold ret at 1, bind at 1, lift at 1.
  rewrite Hbind. unfold bind at 1, lift at 1, getitem.
  rewrite dict_get_set_other by discriminate. now rewrite Hself.
Qed.

End SignalModeOn.

Lemma new_func_signal_mode_on_witness :
  let w := Demo.world0 true (Demo.signal_of (VStr "js") [] Demo.get_value)
                       [VStr (Demo.answer_text "value" "5")] in
  let o := Instance "Page" [("_signal_mode", VBool true); ("_app", Demo.app);
                            ("_ws", VWs 0)] in
  let w2 := allocated [o] (with_object 0 Demo.page w) in
  let w3 := snd (resolve_channel 0 Demo.page w2) in
  let context := [("return_value", VInt 1); ("object", Demo.page);
                  ("original_copy", VRef 4)] in
  new_func Demo.env 0 Demo.get_value Demo.page [] [] w
  = (Ok (VInt 5), snd (_call_method Demo.env 0 Demo.get_value context w3)).
Proof.
  intros w o w2 w3 context.
  exact (@new_func_signal_mode_on Demo.env 0 Demo.get_value 1 o [] [] w w2 w3
           (VBool true) (VBool true) (VInt 1) Demo.get_value Demo.get_value
           [("self", Demo.page)]
           eq_refl eq_refl eq_refl eq_refl eq_refl eq_refl eq_refl eq_refl
           eq_refl eq_refl
           Demo.page (VInt 5)
           (snd (_call_method Demo.env 0 Demo.get_value context w3))
           eq_refl eq_refl eq_refl).
Defined.

Lemma new_func_parameter_func_witness :
  let w := Demo2.world0 true (Demo2.signal_of (VStr "js") (VWs 0) Demo2.rename)
                        [] in
  let o := Instance "Page" [("_signal_mode", VBool true); ("_app", Demo.app);
                            ("_ws", VWs 0)] in
  let w2 := allocated [o] (with_object 0 Demo.page w) in
  new_func Demo2.env 0 Demo2.rename Demo.page [VStr "title"] [] w
  = (Raise TypeError, snd (resolve_channel 0 Demo.page w2))
  /\ trace (snd (resolve_channel 0 Demo.page w2)) = [].
Proof.
  intros w o w2. split; [|reflexivity].
  exact (@new_func_parameter_func Demo2.env 0 Demo2.rename 1 o [VStr "title"]
           [] w w2 (snd (resolve_channel 0 Demo.page w2))
           (VBool true) (VBool true) VNone Demo2.rename Demo2.rename
           [("self", Demo.page); ("func", VStr "title")]
           eq_refl eq_refl eq_refl eq_refl eq_refl eq_refl eq_refl eq_refl
           eq_refl eq_refl
           Demo.page (VStr "title") eq_refl eq_refl).
Defined.

Lemma new_func_no_self_witness :
  let w := Demo2.world0 true (Demo2.signal_of (VStr "js") (VWs 0) Demo2.helper)
                        [] in
  let o := Instance "Page" [("_signal_mode", VBool true); ("_app", Demo.app);
                            ("_ws", VWs 0)] in
  let w2 := allocated [o] (with_object 0 Demo.page w) in
  new_func Demo2.env 0 Demo2.helper Demo.page [] [] w
  = (Raise (KeyError "self"), snd (resolve_channel 0 Demo.page w2)).
Proof.
  intros w o w2.
  exact (@new_func_no_self Demo2.env 0 Demo2.helper 1 o [] []
           w w2 (snd (resolve_channel 0 Demo.page w2))
           (VBool true) (VBool true) VNone Demo2.helper Demo2.helper
           [("page", Demo.page)]
           eq_refl eq_refl eq_refl eq_refl eq_refl eq_refl eq_refl eq_refl
           eq_refl eq_refl eq_refl).
Defined.

(** ** What an iteration does to the world *)

Lemma traced_nil w : traced [] w w.
Proof. unfold traced. now rewrite app_nil_r. Qed.

Lemma traced_trans evs1 evs2 w1 w2 w3 :
  traced evs1 w1 w2 -> traced evs2 w2 w3 -> traced (evs1 ++ evs2) w1 w3.
Proof.
  unfold traced. intros (H1 & H2 & H3) (H4 & H5 & H6).
  rewrite H4, H5, H6, H3, H1, H2, app_assoc. auto.
Qed.

Lemma iter_ws_turn_traced E self w r w' :
  iter_ws_turn E self w = (r, w') ->
  exists evs, traced evs w w'
              /\ count_events is_send evs = 0
              /\ count_events is_evaluate evs = 0.
Proof.
  intros H.
  unfold iter_ws_turn, apply_is_binary, validate, getattr, ws_method,
    ws_receive, pop_inbox, log, lift, ret, raise, bind in H.
  simpl in H.
  repeat match type of H with
         | context [match ?x with _ => _ end] =>
             lazymatch x with
             | context [match _ with _ => _ end] => fail
             | _ => destruct x eqn:?; simpl in H
             end
         end;
    injection H as <- <-;
    first [ exists []; split; [apply traced_nil|split; reflexivity]
          | eexists; split;
            [unfold traced; simpl; rewrite <- ?app_assoc; simpl;
             repeat split; reflexivity
            |split; reflexivity] ].
Qed.

Lemma iter_direct_turn_same E self out w r w' :
  iter_direct_turn E self out w = (r, w') -> w' = w.
Proof.
  intros H.
  unfold iter_direct_turn, apply_is_binary, getattr, lift, ret, bind in H.
  repeat match type of H with
         | context [match ?x with _ => _ end] =>
             lazymatch x with
             | context [match _ with _ => _ end] => fail
             | _ => destruct x eqn:?; simpl in H
             end
         end;
    now injection H as <- <-.
Qed.

Lemma count_events_one p e :
  count_events p [e] = if p e then 1 else 0.
Proof. unfold count_events. simpl. now destruct (p e). Qed.

(** One call of [next]: the world changes by its trace only, with at most
    one send or evaluation, and none when the generator is resumed. *)
Lemma next_traced E self st w r w' :
  File___iter___next E self st w = (r, w') ->
  exists evs, traced evs w w'
              /\ count_events is_send evs + count_events is_evaluate evs
                 <= (if is_start st then 1 else 0).
Proof.
  intros H. destruct st as [|dd|out dd|]; simpl in H.
  - unfold getattr, ws_method, ws_send, call_evaluate_js, get_world, log,
      lift, ret, raise, bind in H.
    simpl in H.
    repeat match type of H with
           | context [match ?x with _ => _ end] =>
               lazymatch x with
               | context [match _ with _ => _ end] => fail
               | context [iter_ws_turn] => fail
               | context [iter_direct_turn] => fail
               | _ => destruct x eqn:?; simpl in H
               end
           end;
      try (injection H as <- <-;
           first [ exists []; split;
                   [apply traced_nil|unfold count_events; simpl; lia]
                 | eexists; split;
                   [unfold traced; simpl; repeat split; reflexivity
                   |unfold count_events; simpl; lia] ]).
    + destruct (iter_ws_turn_traced _ _ _ H) as (evs & (Hh & Hsg & Ht) & Hs & He).
      simpl in Hh, Hsg, Ht.
      eexists. split.
      * unfold traced. repeat split; [exact Hh|exact Hsg|].
        rewrite Ht, <- app_assoc. reflexivity.
      * rewrite !count_events_app, Hs, He. unfold count_events. simpl. lia.
    + apply iter_direct_turn_same in H. subst w'.
      eexists. split; [unfold traced; simpl; eauto|].
      unfold count_events. simpl. lia.
  - unfold lift, ret, bind in H.
    destruct (getitem dd "end") as [e| |];
      try (injection H as <- <-; exists []; split;
           [apply traced_nil|unfold count_events; simpl; lia]).
    destruct (eq_True e).
    + injection H as <- <-. exists []. split; [apply traced_nil|unfold count_events; simpl; lia].
    + destruct (iter_ws_turn_traced _ _ _ H) as (evs & Htr & Hs & He).
      exists evs. split; [exact Htr|]. rewrite Hs, He. simpl. lia.
  - unfold lift, ret, bind in H.
    destruct (getitem dd "end") as [e| |];
      try (injection H as <- <-; exists []; split;
           [apply traced_nil|unfold count_events; simpl; lia]).
    destruct (eq_True e).
    + injection H as <- <-. exists []. split; [apply traced_nil|unfold count_events; simpl; lia].
    + apply iter_direct_turn_same in H. subst w'.
      exists []. split; [apply traced_nil|unfold count_events; simpl; lia].
  - injection H as <- <-. exists []. split; [apply traced_nil|unfold count_events; simpl; lia].
Qed.

Lemma iter_ws_turn_state E self w x st' w' :
  iter_ws_turn E self w = (Ok (x, st'), w') ->
  is_start st' = false /\ over_websocket st' = true.
Proof.
  intros H.
  unfold iter_ws_turn, apply_is_binary, validate, getattr, ws_method,
    ws_receive, pop_inbox, log, lift, ret, raise, bind in H.
  simpl in H.
  repeat match type of H with
         | context [match ?x with _ => _ end] =>
             lazymatch x with
             | context [match _ with _ => _ end] => fail
             | _ => destruct x eqn:?; simpl in H; try discriminate
             end
         end;
    injection H as <- <- <-; split; reflexivity.
Qed.

Lemma iter_direct_turn_state E self out w x st' w' :
  iter_direct_turn E self out w = (Ok (x, st'), w') -> is_start st' = false.
Proof.
  intros H.
  unfold iter_direct_turn, apply_is_binary, getattr, lift, ret, bind in H.
  repeat match type of H with
         | context [match ?x with _ => _ end] =>
             lazymatch x with
             | context [match _ with _ => _ end] => fail
             | _ => destruct x eqn:?; simpl in H; try discriminate
             end
         end;
    now injection H as <- <- <-.
Qed.

Lemma next_state E self st w x st' w' :
  File___iter___next E self st w = (Ok (x, st'), w') -> is_start st' = false.
Proof.
  intros H. destruct st as [|dd|out dd|]; simpl in H.
  - unfold getattr, ws_method, ws_send, call_evaluate_js, get_world, log,
      lift, ret, raise, bind in H.
    simpl in H.
    repeat match type of H with
           | context [match ?x with _ => _ end] =>
               lazymatch x with
               | context [match _ with _ => _ end] => fail
               | context [iter_ws_turn] => fail
               | context [iter_direct_turn] => fail
               | _ => destruct x eqn:?; simpl in H; try discriminate
               end
           end.
    + now apply iter_ws_turn_state in H.
    + now apply iter_direct_turn_state in H.
  - unfold lift, ret, bind in H.
    destruct (getitem dd "end") as [e| |]; try discriminate.
    destruct (eq_True e).
    + now injection H as <- <- <-.
    + now apply iter_ws_turn_state in H.
  - unfold lift, ret, bind in H.
    destruct (getitem dd "end") as [e| |]; try discriminate.
    destruct (eq_True e).
    + now injection H as <- <- <-.
    + now apply iter_direct_turn_state in H.
  - now injection H as <- <- <-.
Qed.

(** X18. Iterating a file never touches the heap or the decorators, and
    only adds to the trace; it sends or evaluates at most once, and only on
    the first [next]: a generator that is resumed neither sends nor
    evaluates, however long it runs. *)
Theorem iterate_file_traced E self :
  forall fuel st w,
    exists evs,
      traced evs w (snd (iterate_file E fuel self st w))
      /\ count_events is_send evs + count_events is_evaluate evs
         <= (if is_start st then 1 else 0).
Proof.
  induction fuel as [|fuel IH]; intros st w.
  - exists []. split; [apply traced_nil|]. unfold count_events. simpl. lia.
  - cbn [iterate_file].
    destruct (File___iter___next E self st w) as [r w1] eqn:Hn.
    destruct (next_traced _ _ _ _ Hn) as (evs1 & Ht1 & Hc1).
    destruct r as [[[x|] st']| |]; try (exists evs1; now split).
    destruct (IH st' w1) as (evs2 & Ht2 & Hc2).
    rewrite (next_state _ _ _ _ Hn) in Hc2.
    destruct (iterate_file E fuel self st' w1) as [[vs e] w2].
    exists (evs1 ++ evs2). split.
    + exact (traced_trans Ht1 Ht2).
    + rewrite !count_events_app. lia.
Qed.

(** ** Messages and chunks *)

Section ChunksAndMessages.

Variable E : Env.
Variables (a : addr) (f : File) (c : chan) (text : string).

Hypothesis Hws : _ws f = VWs c.
Hypothesis Hdumps :
  json_dumps E (save_file_signal (_id f) (is_binary f)) = Ok text.

Lemma consumed_nothing w : consumed c 0 0 w w.
Proof.
  unfold consumed. repeat split. exists []. now rewrite app_nil_r.
Qed.

Lemma consumed_trans n1 s1 n2 s2 w1 w2 w3 :
  consumed c n1 s1 w1 w2 -> consumed c n2 s2 w2 w3 ->
  consumed c (n1 + n2) (s1 + s2) w1 w3.
Proof.
  intros (Hh1 & Hi1 & Ho1 & evs1 & Ht1 & Hr1 & Hs1 & He1)
         (Hh2 & Hi2 & Ho2 & evs2 & Ht2 & Hr2 & Hs2 & He2).
  unfold consumed. repeat split.
  - now rewrite Hh2.
  - rewrite Hi2, Hi1, skipn_skipn. f_equal. lia.
  - intros c' Hc. now rewrite Ho2, Ho1.
  - exists (evs1 ++ evs2). rewrite Ht2, Ht1, app_assoc.
    rewrite !count_events_app, Hr1, Hr2, Hs1, Hs2, He1, He2. auto.
Qed.

Lemma consumed_send w :
  consumed c 0 1 w (logged [EvSend c text] w).
Proof.
  unfold consumed, logged. simpl. repeat split. eexists. eauto.
Qed.

Lemma iter_ws_turn_consumed w r w' :
  nth_error (heap w) a = Some (FileObj f) ->
  iter_ws_turn E (VRef a) w = (r, w') ->
  exists n, consumed c n 0 w w' /\ n <= 1
            /\ (forall x st', r = Ok (Yield x, st') -> n = 1).
Proof.
  intros Hf H.
  unfold iter_ws_turn, validate, getattr, ws_method, log, lift, ret, raise,
    bind in H.
  simpl in H. rewrite Hf in H. simpl in H. rewrite Hws in H. simpl in H.
  unfold ws_receive in H.
  destruct (inbox w c) as [|m rest] eqn:Hin.
  - injection H as <- <-. exists 0. split; [apply consumed_nothing|].
    split; [lia|]. discriminate.
  - simpl in H. rewrite Hf in H. simpl in H.
    assert (Hc : consumed c 1 0 w
                   (logged [EvReceive c m; EvValidate (_app f) m]
                           (popped c w))).
    { unfold consumed, logged, popped. simpl. rewrite Nat.eqb_refl, Hin.
      repeat split.
      - intros c' Hne. now rewrite (neq_eqb Hne).
      - eexists. eauto. }
    exists 1. split; [|split; [lia|reflexivity]].
    assert (Hw : w' = logged [EvReceive c m; EvValidate (_app f) m]
                             (popped c w)).
    { unfold logged, popped. simpl.
      revert H.
      repeat match goal with
             | |- context [match ?x with _ => _ end] =>
                 lazymatch x with
                 | context [match _ with _ => _ end] => fail
                 | _ => destruct x eqn:?; simpl
                 end
             end;
        unfold apply_is_binary, getattr, lift, ret, bind; simpl;
        rewrite ?Hf; simpl;
        repeat match goal with
               | |- context [match ?x with _ => _ end] =>
                   lazymatch x with
                   | context [match _ with _ => _ end] => fail
                   | _ => destruct x eqn:?; simpl
                   end
               end;
        intros [= <- <-]; rewrite <- ?app_assoc; reflexivity. }
    now rewrite Hw.
Qed.


Lemma next_consumed st w r w' :
  nth_error (heap w) a = Some (FileObj f) ->
  over_websocket st = true ->
  File___iter___next E (VRef a) st w = (r, w') ->
  exists n, consumed c n (if is_start st then 1 else 0) w w' /\ n <= 1
            /\ (forall x st', r = Ok (Yield x, st') ->
                              n = 1 /\ over_websocket st' = true
                              /\ is_start st' = false).
Proof.
  intros Hf Hover H.
  assert (Hturn : forall w0 r0 w0',
             nth_error (heap w0) a = Some (FileObj f) ->
             iter_ws_turn E (VRef a) w0 = (r0, w0') ->
             exists n, consumed c n 0 w0 w0' /\ n <= 1
                       /\ (forall x st', r0 = Ok (Yield x, st') ->
                                         n = 1 /\ over_websocket st' = true
                                         /\ is_start st' = false)).
  { intros w0 r0 w0' Hf0 H0.
    destruct (iter_ws_turn_consumed w0 Hf0 H0) as (n & Hc & Hle & Hy).
    exists n. split; [exact Hc|]. split; [exact Hle|].
    intros x st' ->. split; [now apply (Hy x st')|].
    apply iter_ws_turn_state in H0. destruct H0; auto. }
  destruct st as [|dd|out dd|]; try discriminate.
  - rewrite (iter_start_ws E a Hws w Hf Hdumps) in H.
    destruct (Hturn (logged [EvSend c text] w) r w' Hf H)
      as (n & Hc & Hle & Hy).
    exists n. split; [|split; assumption].
    exact (consumed_trans (consumed_send w) Hc).
  - simpl in H. unfold lift, ret, bind in H.
    destruct (getitem dd "end") as [e| |].
    + destruct (eq_True e).
      * injection H as <- <-. exists 0.
        split; [apply consumed_nothing|]. split; [lia|discriminate].
      * exact (Hturn _ _ _ Hf H).
    + injection H as <- <-. exists 0.
      split; [apply consumed_nothing|]. split; [lia|discriminate].
    + injection H as <- <-. exists 0.
      split; [apply consumed_nothing|]. split; [lia|discriminate].
  - injection H as <- <-. exists 0.
    split; [apply consumed_nothing|]. split; [lia|discriminate].
Qed.

(** X19. For a file bound to a websocket, however long the iteration runs:
    the signal is sent once, on the first [next]; every chunk yielded costs
    one message of that websocket, and at most one more message is taken,
    the one that ended the run; nothing is evaluated and no other channel is
    read. *)
Theorem iterate_file_consumed :
  forall fuel st w,
    nth_error (heap w) a = Some (FileObj f) ->
    over_websocket st = true ->
    let vs := fst (fst (iterate_file E fuel (VRef a) st w)) in
    let w' := snd (iterate_file E fuel (VRef a) st w) in
    exists n,
      consumed c n (if is_start st && negb (Nat.eqb fuel 0) then 1 else 0)
               w w'
      /\ List.length vs <= n <= List.length vs + 1.
Proof.
  induction fuel as [|fuel IH]; intros st w Hf Hover vs w'.
  - exists 0. subst vs w'. simpl. rewrite andb_false_r.
    split; [apply consumed_nothing|lia].
  - subst vs w'. cbn [iterate_file]. simpl Nat.eqb. rewrite andb_true_r.
    destruct (File___iter___next E (VRef a) st w) as [r w1] eqn:Hn.
    destruct (@next_consumed st w r w1 Hf Hover Hn) as (n1 & Hc1 & Hle1 & Hy).
    destruct r as [[[x|] st']| |];
      try (exists n1; simpl; split; [exact Hc1|lia]).
    destruct (Hy x st' eq_refl) as (-> & Hover' & Hstart').
    assert (Hf1 : nth_error (heap w1) a = Some (FileObj f))
      by (destruct Hc1 as (Hh & _); now rewrite Hh).
    destruct (IH st' w1 Hf1 Hover') as (n2 & Hc2 & Hle2).
    rewrite Hstart' in Hc2. simpl in Hc2.
    destruct (iterate_file E fuel (VRef a) st' w1) as [[vs e] w2].
    simpl in *. exists (1 + n2). split.
    + replace (if is_start st then 1 else 0)
        with ((if is_start st then 1 else 0) + 0) by lia.
      exact (consumed_trans Hc1 Hc2).
    + lia.
Qed.

End ChunksAndMessages.

Lemma iterate_file_consumed_witness :
  let m1 := VStr (Demo.chunk_text (Demo.q "a") false) in
  let m2 := VStr (Demo.chunk_text (Demo.q "b") true) in
  let w := Demo.file_world (Demo.upload (VWs 0) (VBool false)) [m1; m2] in
  let vs := fst (fst (iterate_file Demo.env 5 (VRef 4) GenStart w)) in
  let w' := snd (iterate_file Demo.env 5 (VRef 4) GenStart w) in
  exists n, consumed 0 n 1 w w' /\ List.length vs <= n <= List.length vs + 1.
Proof.
  intros m1 m2 w.
  apply (@iterate_file_consumed Demo.env 4 (Demo.upload (VWs 0) (VBool false))
           0 (Demo.save_text "false") eq_refl eq_refl 5 GenStart w);
    reflexivity.
Defined.

(** ** Chunks that are not what they should be *)

(** One turn of the loop over the websocket, for a file bound to [c]. *)
Lemma iter_ws_turn_file E a f c w :
  nth_error (heap w) a = Some (FileObj f) ->
  _ws f = VWs c ->
  iter_ws_turn E (VRef a) w
  = match inbox w c with
    | [] => (Blocked, w)
    | m :: _ =>
        (match validate_data E (_app f) m with
         | Ok v =>
             if truthy v then
               match json_loads E m with
               | Ok dd =>
                   match getitem dd "data" with
                   | Ok data =>
                       match converted (is_binary f) data with
                       | Ok x => Ok (Yield x, GenWs dd)
                       | Raise e => Raise e
                       | Blocked => Blocked
                       end
                   | Raise e => Raise e
                   | Blocked => Blocked
                   end
               | Raise e => Raise e
               | Blocked => Blocked
               end
             else Ok (StopIteration, GenDone)
         | Raise e => Raise e
         | Blocked => Blocked
         end,
         logged [EvReceive c m; EvValidate (_app f) m] (popped c w))
    end.
Proof.
  intros Hf Hws.
  unfold iter_ws_turn, validate, getattr, ws_method, log, lift, ret, raise,
    bind.
  simpl. rewrite Hf. simpl. rewrite Hws. simpl.
  unfold ws_receive. destruct (inbox w c) as [|m rest] eqn:Hin;
    [reflexivity|].
  simpl. rewrite Hf. simpl.
  unfold logged, popped. simpl. rewrite <- !app_assoc. simpl.
  destruct (validate_data E (_app f) m) as [v| |]; try reflexivity.
  destruct (truthy v); simpl; [|reflexivity].
  destruct (json_loads E m) as [dd| |]; try reflexivity.
  destruct (getitem dd "data") as [data| |]; try reflexivity.
  match goal with
  | |- context [apply_is_binary (VRef a) data ?w0] =>
      rewrite (@apply_is_binary_file a f data w0 Hf)
  end.
  destruct (converted (is_binary f) data); reflexivity.
Qed.

(** X20. A chunk without [data] raises [KeyError] and is lost, nothing
    being yielded for it.  A chunk without [end] is yielded first; the
    [KeyError] comes with the next [next], before any further message is
    taken from the websocket. *)
Theorem file_iter_malformed_chunk E a f c w text m rest v d :
  nth_error (heap w) a = Some (FileObj f) ->
  _ws f = VWs c ->
  json_dumps E (save_file_signal (_id f) (is_binary f)) = Ok text ->
  inbox w c = m :: rest ->
  validate_data E (_app f) m = Ok v ->
  truthy v = true ->
  json_loads E m = Ok (VDict d) ->
  let w1 := logged [EvSend c text; EvReceive c m; EvValidate (_app f) m]
                   (popped c w) in
  (dict_get "data" d = None ->
   forall n, iterate_file E (S n) (VRef a) GenStart w
             = ([], Raised (KeyError "data"), w1))
  /\ (forall data x,
         dict_get "data" d = Some data ->
         converted (is_binary f) data = Ok x ->
         dict_get "end" d = None ->
         forall n, iterate_file E (2 + n) (VRef a) GenStart w
                   = ([x], Raised (KeyError "end"), w1)).
Proof.
  intros Hf Hws Hd Hin Hv Ht Hl w1.
  assert (Hstart : File___iter___next E (VRef a) GenStart w
                   = (match getitem (VDict d) "data" with
                      | Ok data =>
                          match converted (is_binary f) data with
                          | Ok x => Ok (Yield x, GenWs (VDict d))
                          | Raise e => Raise e
                          | Blocked => Blocked
                          end
                      | Raise e => Raise e
                      | Blocked => Blocked
                      end, w1)).
  { rewrite (iter_start_ws E a Hws w Hf Hd).
    rewrite (@iter_ws_turn_file E a f c (logged [EvSend c text] w) Hf Hws).
    simpl inbox. rewrite Hin, Hv, Ht, Hl.
    unfold w1. now rewrite popped_logged, logged_app. }
  split.
  - intros Hnone n. cbn [iterate_file]. rewrite Hstart. simpl.
    now rewrite Hnone.
  - intros data x Hdata Hx Hend n. change (2 + n) with (S (S n)).
    cbn [iterate_file]. rewrite Hstart. simpl getitem. rewrite Hdata, Hx.
    cbn [iterate_file]. unfold File___iter___next, lift, bind. simpl.
    now rewrite Hend.
Qed.

Lemma file_iter_malformed_chunk_witness :
  let m := VStr ("{" ++ Demo.q "data" ++ ": " ++ Demo.q "a" ++ "}")%string in
  let w := Demo.file_world (Demo.upload (VWs 0) (VBool false)) [m; m] in
  iterate_file Demo.env 2 (VRef 4) GenStart w
  = ([VStr "a"], Raised (KeyError "end"),
     logged [EvSend 0 (Demo.save_text "false");
             EvReceive 0 m; EvValidate Demo.app m] (popped 0 w)).
Proof.
  intros m w.
  refine (proj2 (@file_iter_malformed_chunk Demo.env 4
                   (Demo.upload (VWs 0) (VBool false)) 0 w
                   (Demo.save_text "false") m [m] (VBool true)
                   [("data", VStr "a")] _ _ _ _ _ _ _)
                (VStr "a") (VStr "a") _ _ _ 0);
    reflexivity.
Defined.

(** ** Runs of any number of chunks *)

Lemma logged_nil w : logged [] w = w.
Proof. destruct w. unfold logged. simpl. now rewrite app_nil_r. Qed.

Lemma received_logged n c evs :
  forall w, received n c (logged evs w) = logged evs (received n c w).
Proof.
  induction n as [|n IH]; intro w; [reflexivity|].
  simpl. rewrite popped_logged. apply IH.
Qed.

Lemma heap_received n c : forall w, heap (received n c w) = heap w.
Proof. induction n as [|n IH]; intro w; [reflexivity|]. simpl. now rewrite IH. Qed.

Lemma trace_received n c : forall w, trace (received n c w) = trace w.
Proof. induction n as [|n IH]; intro w; [reflexivity|]. simpl. now rewrite IH. Qed.

Lemma inbox_received n c :
  forall w, inbox (received n c w) c = skipn n (inbox w c).
Proof.
  induction n as [|n IH]; intro w; [reflexivity|].
  simpl received. rewrite IH, inbox_popped.
  destruct (inbox w c); [now rewrite skipn_nil|reflexivity].
Qed.

Lemma received_add n k c :
  forall w, received (n + k) c w = received k c (received n c w).
Proof. induction n as [|n IH]; intro w; [reflexivity|]. simpl. apply IH. Qed.

Lemma skipn_length_app (A : Type) (l1 l2 : list A) :
  skipn (List.length l1) (l1 ++ l2) = l2.
Proof. induction l1 as [|x l1 IH]; [reflexivity|exact IH]. Qed.

Lemma chunk_events_app c app ms1 ms2 :
  chunk_events c app (ms1 ++ ms2)
  = chunk_events c app ms1 ++ chunk_events c app ms2.
Proof. unfold chunk_events. apply flat_map_app. Qed.

Lemma chunk_events_no_send c app ms :
  count_events is_send (chunk_events c app ms) = 0.
Proof. induction ms as [|m ms IH]; [reflexivity|exact IH]. Qed.

(** The world after one more message, once [ms] were taken. *)
Lemma received_one_more c app ev m ms w :
  logged [EvReceive c m; EvValidate app m]
         (popped c (logged (ev :: chunk_events c app ms)
                           (received (List.length ms) c w)))
  = logged (ev :: chunk_events c app (ms ++ [m]))
           (received (List.length (ms ++ [m])) c w).
Proof.
  rewrite popped_logged, logged_app, chunk_events_app, length_app.
  rewrite received_add. reflexivity.
Qed.

Lemma chunk_of_chunk E f m x b :
  chunk_of E f m = Some (x, b) ->
  exists v dd data e,
    validate_data E (_app f) m = Ok v /\ truthy v = true
    /\ json_loads E m = Ok dd /\ getitem dd "data" = Ok data
    /\ converted (is_binary f) data = Ok x
    /\ getitem dd "end" = Ok e /\ eq_True e = b.
Proof.
  unfold chunk_of. intros H.
  destruct (validate_data E (_app f) m) as [v| |]; try discriminate.
  destruct (truthy v) eqn:Ht; try discriminate.
  destruct (json_loads E m) as [dd| |]; try discriminate.
  destruct (getitem dd "data") as [data| |] eqn:Hd; try discriminate.
  destruct (converted (is_binary f) data) as [y| |] eqn:Hc; try discriminate.
  destruct (getitem dd "end") as [e| |] eqn:He; try discriminate.
  injection H as <- <-. exists v, dd, data, e. repeat split; auto.
Qed.

Section RunsOfChunks.

Variable E : Env.
Variables (a : addr) (f : File) (c : chan) (text : string).

Hypothesis Hws : _ws f = VWs c.
Hypothesis Hdumps :
  json_dumps E (save_file_signal (_id f) (is_binary f)) = Ok text.

(** A turn of the loop on a chunk. *)
Lemma iter_ws_turn_chunk w m rest x b :
  nth_error (heap w) a = Some (FileObj f) ->
  inbox w c = m :: rest ->
  chunk_of E f m = Some (x, b) ->
  exists dd e,
    getitem dd "end" = Ok e /\ eq_True e = b
    /\ iter_ws_turn E (VRef a) w
       = (Ok (Yield x, GenWs dd),
          logged [EvReceive c m; EvValidate (_app f) m] (popped c w)).
Proof.
  intros Hf Hin Hch.
  destruct (chunk_of_chunk _ _ _ Hch)
    as (v & dd & data & e & Hv & Ht & Hl & Hd & Hx & He & Hb).
  exists dd, e. split; [exact He|]. split; [exact Hb|].
  rewrite (@iter_ws_turn_file E a f c w Hf Hws).
  now rewrite Hin, Hv, Ht, Hl, Hd, Hx.
Qed.

(** The first [next] does what a later one does after the send. *)
Lemma iterate_file_start w dd e fuel :
  nth_error (heap w) a = Some (FileObj f) ->
  getitem dd "end" = Ok e -> eq_True e = false ->
  iterate_file E (S fuel) (VRef a) GenStart w
  = iterate_file E (S fuel) (VRef a) (GenWs dd) (logged [EvSend c text] w).
Proof.
  intros Hf He Hne. cbn [iterate_file].
  rewrite (iter_start_ws E a Hws w Hf Hdumps).
  now rewrite (@iter_resume_ws E a _ dd e He), Hne.
Qed.

(** The loop on chunks whose [end] is not [True]: each is yielded and the
    loop goes on. *)
Lemma iterate_file_chunks :
  forall ms xs rest w dd e,
    nth_error (heap w) a = Some (FileObj f) ->
    getitem dd "end" = Ok e -> eq_True e = false ->
    inbox w c = ms ++ rest ->
    map (chunk_of E f) ms = map (fun x => Some (x, false)) xs ->
    exists dd' e',
      getitem dd' "end" = Ok e' /\ eq_True e' = false
      /\ forall fuel,
          iterate_file E (List.length ms + fuel) (VRef a) (GenWs dd) w
          = (xs ++ fst (fst (iterate_file E fuel (VRef a) (GenWs dd')
                               (logged (chunk_events c (_app f) ms)
                                       (received (List.length ms) c w)))),
             snd (fst (iterate_file E fuel (VRef a) (GenWs dd')
                         (logged (chunk_events c (_app f) ms)
                                 (received (List.length ms) c w)))),
             snd (iterate_file E fuel (VRef a) (GenWs dd')
                    (logged (chunk_events c (_app f) ms)
                            (received (List.length ms) c w)))).
Proof.
  induction ms as [|m ms IH]; intros xs rest w dd e Hf He Hne Hin Hmap.
  - destruct xs; [|discriminate]. exists dd, e.
    split; [exact He|]. split; [exact Hne|]. intro fuel.
    simpl. rewrite logged_nil.
    now destruct (iterate_file E fuel (VRef a) (GenWs dd) w) as [[? ?] ?].
  - destruct xs as [|x xs]; [discriminate|].
    simpl in Hmap. injection Hmap as Hm Hmap. simpl in Hin.
    destruct (@iter_ws_turn_chunk w m (ms ++ rest) x false Hf Hin Hm)
      as (dd1 & e1 & He1 & Hne1 & Hturn).
    assert (Hin1 : inbox (logged [EvReceive c m; EvValidate (_app f) m]
                                 (popped c w)) c = ms ++ rest).
    { change (inbox (popped c w) c = ms ++ rest).
      now rewrite inbox_popped, Hin. }
    destruct (IH xs rest
                 (logged [EvReceive c m; EvValidate (_app f) m] (popped c w))
                 dd1 e1 Hf He1 Hne1 Hin1 Hmap)
      as (dd' & e' & He' & Hne' & Hrun).
    exists dd', e'. split; [exact He'|]. split; [exact Hne'|]. intro fuel.
    change (List.length (m :: ms) + fuel) with (S (List.length ms + fuel)).
    cbn [iterate_file].
    rewrite (@iter_resume_ws E a _ dd e He), Hne, Hturn, Hrun.
    rewrite received_logged, logged_app. reflexivity.
Qed.

(** A run from its start, up to the chunks whose [end] is not [True]. *)
Lemma iterate_file_prefix w ms rest xs :
  nth_error (heap w) a = Some (FileObj f) ->
  inbox w c = ms ++ rest ->
  map (chunk_of E f) ms = map (fun x => Some (x, false)) xs ->
  exists dd e w',
    getitem dd "end" = Ok e /\ eq_True e = false
    /\ w' = logged (EvSend c text :: chunk_events c (_app f) ms)
                   (received (List.length ms) c w)
    /\ nth_error (heap w') a = Some (FileObj f)
    /\ inbox w' c = rest
    /\ forall fuel,
        iterate_file E (S (List.length ms + fuel)) (VRef a) GenStart w
        = (xs ++ fst (fst (iterate_file E (S fuel) (VRef a) (GenWs dd) w')),
           snd (fst (iterate_file E (S fuel) (VRef a) (GenWs dd) w')),
           snd (iterate_file E (S fuel) (VRef a) (GenWs dd) w')).
Proof.
  intros Hf Hin Hmap.
  destruct (@iterate_file_chunks ms xs rest (logged [EvSend c text] w)
              (VDict [("end", VBool false)]) (VBool false)
              Hf eq_refl eq_refl Hin Hmap)
    as (dd & e & He & Hne & Hrun).
  exists dd, e. eexists. split; [exact He|]. split; [exact Hne|].
  split; [reflexivity|]. split; [|split].
  - simpl heap. now rewrite heap_received.
  - simpl inbox. now rewrite inbox_received, Hin, skipn_length_app.
  - intro fuel.
    rewrite (@iterate_file_start w (VDict [("end", VBool false)])
               (VBool false) _ Hf eq_refl eq_refl).
    rewrite plus_n_Sm, Hrun, received_logged, logged_app. reflexivity.
Qed.

(** A run from its start to the chunk whose [end] is [True]. *)
Lemma iterate_file_run w ms l rest xs y :
  nth_error (heap w) a = Some (FileObj f) ->
  inbox w c = ms ++ l :: rest ->
  map (chunk_of E f) ms = map (fun x => Some (x, false)) xs ->
  chunk_of E f l = Some (y, true) ->
  forall n,
    iterate_file E (S (List.length (ms ++ [l])) + n) (VRef a) GenStart w
    = (xs ++ [y], Exhausted,
       logged (EvSend c text :: chunk_events c (_app f) (ms ++ [l]))
              (received (List.length (ms ++ [l])) c w)).
Proof.
  intros Hf Hin Hmap Hl n.
  destruct (@iterate_file_prefix w ms (l :: rest) xs Hf Hin Hmap)
    as (dd & e & w' & He & Hne & Hw' & Hf' & Hin' & Hrun).
  replace (S (List.length (ms ++ [l])) + n)
    with (S (List.length ms + S n)) by (rewrite length_app; simpl; lia).
  rewrite Hrun. cbn [iterate_file].
  rewrite (@iter_resume_ws E a _ dd e He), Hne.
  destruct (@iter_ws_turn_chunk w' l rest y true Hf' Hin' Hl)
    as (dd1 & e1 & He1 & Hq1 & Hturn).
  rewrite Hturn, (@iter_resume_ws E a _ dd1 e1 He1), Hq1. simpl.
  now rewrite Hw', received_one_more.
Qed.

End RunsOfChunks.

(** X21. When the websocket stops delivering before a chunk says [end], the
    iteration never finishes, however many chunks came, none included: the
    signal is sent, every chunk received is yielded in order, and the next
    [next] stays in [receive]. *)
Theorem file_iter_silent E a f c w text ms xs :
  nth_error (heap w) a = Some (FileObj f) ->
  _ws f = VWs c ->
  json_dumps E (save_file_signal (_id f) (is_binary f)) = Ok text ->
  inbox w c = ms ->
  map (chunk_of E f) ms = map (fun x => Some (x, false)) xs ->
  forall n,
    iterate_file E (S (List.length ms) + n) (VRef a) GenStart w
    = (xs, Hung,
       logged (EvSend c text :: chunk_events c (_app f) ms)
              (received (List.length ms) c w)).
Proof.
  intros Hf Hws Hd Hin Hmap n.
  rewrite <- (app_nil_r ms) in Hin.
  destruct (@iterate_file_prefix E a f c text Hws Hd w ms [] xs Hf Hin Hmap)
    as (dd & e & w' & He & Hne & Hw' & Hf' & Hin' & Hrun).
  change (S (List.length ms) + n) with (S (List.length ms + n)).
  rewrite Hrun. cbn [iterate_file].
  rewrite (@iter_resume_ws E a _ dd e He), Hne.
  rewrite (@iter_ws_turn_file E a f c w' Hf' Hws), Hin'. simpl.
  now rewrite app_nil_r, Hw'.
Qed.

Lemma file_iter_silent_witness :
  let m1 := VStr (Demo.chunk_text (Demo.q "a") false) in
  let m2 := VStr (Demo.chunk_text (Demo.q "b") false) in
  let w := Demo.file_world (Demo.upload (VWs 0) (VBool false)) [m1; m2] in
  iterate_file Demo.env 7 (VRef 4) GenStart w
  = ([VStr "a"; VStr "b"], Hung,
     logged [EvSend 0 (Demo.save_text "false");
             EvReceive 0 m1; EvValidate Demo.app m1;
             EvReceive 0 m2; EvValidate Demo.app m2] (received 2 0 w)).
Proof.
  intros m1 m2 w.
  exact (@file_iter_silent Demo.env 4 (Demo.upload (VWs 0) (VBool false)) 0 w
           (Demo.save_text "false") [m1; m2] [VStr "a"; VStr "b"]
           eq_refl eq_refl eq_refl eq_refl eq_refl 4).
Defined.

(** ** Iterating again *)

(** X22. Iterating a file a second time does not replay it.  Whatever the
    number of chunks of the two runs, each closed by a chunk whose [end] is
    [True]: the first run yields its chunks, the signal is sent again, and
    the second run yields the chunks the websocket delivers next, leaving
    what comes after them. *)
Theorem file_iter_again E a f c w text ms1 l1 ms2 l2 rest xs1 y1 xs2 y2 :
  nth_error (heap w) a = Some (FileObj f) ->
  _ws f = VWs c ->
  json_dumps E (save_file_signal (_id f) (is_binary f)) = Ok text ->
  inbox w c = (ms1 ++ [l1]) ++ (ms2 ++ [l2]) ++ rest ->
  map (chunk_of E f) ms1 = map (fun x => Some (x, false)) xs1 ->
  chunk_of E f l1 = Some (y1, true) ->
  map (chunk_of E f) ms2 = map (fun x => Some (x, false)) xs2 ->
  chunk_of E f l2 = Some (y2, true) ->
  let w1 := logged (EvSend c text :: chunk_events c (_app f) (ms1 ++ [l1]))
                   (received (List.length (ms1 ++ [l1])) c w) in
  let w2 := logged (EvSend c text :: chunk_events c (_app f) (ms2 ++ [l2]))
                   (received (List.length (ms2 ++ [l2])) c w1) in
  forall n k,
    iterate_file E (S (List.length (ms1 ++ [l1])) + n) (VRef a) GenStart w
    = (xs1 ++ [y1], Exhausted, w1)
    /\ iterate_file E (S (List.length (ms2 ++ [l2])) + k) (VRef a) GenStart w1
       = (xs2 ++ [y2], Exhausted, w2)
    /\ count_events is_send (trace w2) = count_events is_send (trace w) + 2
    /\ inbox w2 c = rest.
Proof.
  intros Hf Hws Hd Hin Hm1 Hl1 Hm2 Hl2 w1 w2 n k.
  assert (Hin1 : inbox w1 c = (ms2 ++ [l2]) ++ rest).
  { unfold w1. simpl inbox.
    now rewrite inbox_received, Hin, skipn_length_app. }
  split; [|split; [|split]].
  - apply (@iterate_file_run E a f c text Hws Hd w ms1 l1
             ((ms2 ++ [l2]) ++ rest) xs1 y1 Hf); try assumption.
    now rewrite Hin, <- app_assoc.
  - apply (@iterate_file_run E a f c text Hws Hd w1 ms2 l2 rest xs2 y2);
      try assumption.
    + unfold w1. simpl heap. now rewrite heap_received.
    + now rewrite Hin1, <- app_assoc.
  - unfold w2, w1. simpl trace. rewrite trace_received. simpl trace.
    rewrite trace_received, !count_events_app.
    change (EvSend c text :: chunk_events c (_app f) (ms1 ++ [l1]))
      with ([EvSend c text] ++ chunk_events c (_app f) (ms1 ++ [l1])).
    change (EvSend c text :: chunk_events c (_app f) (ms2 ++ [l2]))
      with ([EvSend c text] ++ chunk_events c (_app f) (ms2 ++ [l2])).
    rewrite !count_events_app, !chunk_events_no_send.
    unfold count_events. simpl. lia.
  - unfold w2. simpl inbox.
    now rewrite inbox_received, Hin1, skipn_length_app.
Qed.

Lemma file_iter_again_witness :
  let m1 := VStr (Demo.chunk_text (Demo.q "a") false) in
  let m2 := VStr (Demo.chunk_text (Demo.q "b") true) in
  let m3 := VStr (Demo.chunk_text (Demo.q "c") true) in
  let m4 := VStr (Demo.chunk_text (Demo.q "d") true) in
  let w := Demo.file_world (Demo.upload (VWs 0) (VBool false))
                           [m1; m2; m3; m4] in
  let w1 := logged [EvSend 0 (Demo.save_text "false");
                    EvReceive 0 m1; EvValidate Demo.app m1;
                    EvReceive 0 m2; EvValidate Demo.app m2]
                   (received 2 0 w) in
  let w2 := logged [EvSend 0 (Demo.save_text "false");
                    EvReceive 0 m3; EvValidate Demo.app m3]
                   (received 1 0 w1) in
  iterate_file Demo.env 3 (VRef 4) GenStart w
  = ([VStr "a"; VStr "b"], Exhausted, w1)
  /\ iterate_file Demo.env 2 (VRef 4) GenStart w1
     = ([VStr "c"], Exhausted, w2)
  /\ count_events is_send (trace w2) = count_events is_send (trace w) + 2
  /\ inbox w2 0 = [m4].
Proof.
  intros m1 m2 m3 m4 w w1 w2.
  exact (@file_iter_again Demo.env 4 (Demo.upload (VWs 0) (VBool false)) 0 w
           (Demo.save_text "false") [m1] m2 [] m3 [m4]
           [VStr "a"] (VStr "b") [] (VStr "c")
           eq_refl eq_refl eq_refl eq_refl eq_refl eq_refl eq_refl eq_refl
           0 0).
Defined.

(** ** A chunk that ends a run early *)

(** X27. A malformed chunk ends the iteration with its exception wherever
    it comes in a run, the chunks before it having been yielded.  A chunk
    whose [data] is missing or cannot be converted is lost; a chunk without
    [end] is yielded first and the exception raised by the following [next].
    In each case the messages after the chunk stay with the websocket. *)
Theorem file_iter_malformed_anywhere E a f c w text ms m rest xs v dd :
  nth_error (heap w) a = Some (FileObj f) ->
  _ws f = VWs c ->
  json_dumps E (save_file_signal (_id f) (is_binary f)) = Ok text ->
  inbox w c = ms ++ m :: rest ->
  map (chunk_of E f) ms = map (fun x => Some (x, false)) xs ->
  validate_data E (_app f) m = Ok v ->
  truthy v = true ->
  json_loads E m = Ok dd ->
  let w1 := logged (EvSend c text :: chunk_events c (_app f) (ms ++ [m]))
                   (received (List.length (ms ++ [m])) c w) in
  (forall e,
      getitem dd "data" = Raise e ->
      forall n, iterate_file E (S (List.length ms) + n) (VRef a) GenStart w
                = (xs, Raised e, w1))
  /\ (forall data e,
         getitem dd "data" = Ok data ->
         converted (is_binary f) data = Raise e ->
         forall n, iterate_file E (S (List.length ms) + n) (VRef a) GenStart w
                   = (xs, Raised e, w1))
  /\ (forall data x e,
         getitem dd "data" = Ok data ->
         converted (is_binary f) data = Ok x ->
         getitem dd "end" = Raise e ->
         forall n,
           iterate_file E (S (S (List.length ms)) + n) (VRef a) GenStart w
           = (xs ++ [x], Raised e, w1))
  /\ inbox w1 c = rest.
Proof.
  intros Hf Hws Hd Hin Hmap Hv Ht Hl w1.
  destruct (@iterate_file_prefix E a f c text Hws Hd w ms (m :: rest) xs
              Hf Hin Hmap)
    as (dd0 & e0 & w' & He & Hne & Hw' & Hf' & Hin' & Hrun).
  assert (Hturn :
             File___iter___next E (VRef a) (GenWs dd0) w'
             = (match getitem dd "data" with
                | Ok data =>
                    match converted (is_binary f) data with
                    | Ok x => Ok (Yield x, GenWs dd)
                    | Raise e => Raise e
                    | Blocked => Blocked
                    end
                | Raise e => Raise e
                | Blocked => Blocked
                end, w1)).
  { rewrite (@iter_resume_ws E a _ dd0 e0 He), Hne.
    rewrite (@iter_ws_turn_file E a f c w' Hf' Hws), Hin', Hv, Ht, Hl.
    unfold w1. now rewrite Hw', received_one_more. }
  split; [|split; [|split]].
  - intros e Hdata n.
    change (S (List.length ms) + n) with (S (List.length ms + n)).
    rewrite Hrun. cbn [iterate_file]. rewrite Hturn, Hdata. simpl.
    now rewrite app_nil_r.
  - intros data e Hdata Hx n.
    change (S (List.length ms) + n) with (S (List.length ms + n)).
    rewrite Hrun. cbn [iterate_file]. rewrite Hturn, Hdata, Hx. simpl.
    now rewrite app_nil_r.
  - intros data x e Hdata Hx Hend n.
    replace (S (S (List.length ms)) + n)
      with (S (List.length ms + S n)) by lia.
    rewrite Hrun. cbn [iterate_file]. rewrite Hturn, Hdata, Hx.
    unfold File___iter___next, lift, bind. now rewrite Hend.
  - unfold w1. simpl inbox.
    rewrite inbox_received, Hin.
    change (m :: rest) with ([m] ++ rest). rewrite app_assoc.
    apply skipn_length_app.
Qed.

Lemma file_iter_malformed_anywhere_witness :
  let m1 := VStr (Demo.chunk_text (Demo.q "a") false) in
  let m2 := VStr ("{" ++ Demo.q "data" ++ ": " ++ Demo.q "b" ++ "}")%string in
  let m3 := VStr (Demo.chunk_text (Demo.q "c") true) in
  let w := Demo.file_world (Demo.upload (VWs 0) (VBool false)) [m1; m2; m3] in
  iterate_file Demo.env 5 (VRef 4) GenStart w
  = ([VStr "a"; VStr "b"], Raised (KeyError "end"),
     logged [EvSend 0 (Demo.save_text "false");
             EvReceive 0 m1; EvValidate Demo.app m1;
             EvReceive 0 m2; EvValidate Demo.app m2] (received 2 0 w)).
Proof.
  intros m1 m2 m3 w.
  exact (proj1 (proj2 (proj2
           (@file_iter_malformed_anywhere Demo.env 4
              (Demo.upload (VWs 0) (VBool false)) 0 w
              (Demo.save_text "false") [m1] m2 [m3] [VStr "a"] (VBool true)
              (VDict [("data", VStr "b")])
              eq_refl eq_refl eq_refl eq_refl eq_refl eq_refl eq_refl
              eq_refl)))
           (VStr "b") (VStr "b") (KeyError "end") eq_refl eq_refl eq_refl 2).
Defined.

(** X28. A message the validator rejects ends the iteration quietly
    wherever it comes in a run: the chunks before it are yielded, the
    message is taken and dropped, and the iteration stops as if the file
    were complete, the messages after it staying with the websocket. *)
Theorem file_iter_rejected_anywhere E a f c w text ms m rest xs v :
  nth_error (heap w) a = Some (FileObj f) ->
  _ws f = VWs c ->
  json_dumps E (save_file_signal (_id f) (is_binary f)) = Ok text ->
  inbox w c = ms ++ m :: rest ->
  map (chunk_of E f) ms = map (fun x => Some (x, false)) xs ->
  validate_data E (_app f) m = Ok v ->
  truthy v = false ->
  let w1 := logged (EvSend c text :: chunk_events c (_app f) (ms ++ [m]))
                   (received (List.length (ms ++ [m])) c w) in
  (forall n, iterate_file E (S (List.length ms) + n) (VRef a) GenStart w
             = (xs, Exhausted, w1))
  /\ inbox w1 c = rest.
Proof.
  intros Hf Hws Hd Hin Hmap Hv Ht w1.
  destruct (@iterate_file_prefix E a f c text Hws Hd w ms (m :: rest) xs
              Hf Hin Hmap)
    as (dd0 & e0 & w' & He & Hne & Hw' & Hf' & Hin' & Hrun).
  split.
  - intro n.
    change (S (List.length ms) + n) with (S (List.length ms + n)).
    rewrite Hrun. cbn [iterate_file].
    rewrite (@iter_resume_ws E a _ dd0 e0 He), Hne.
    rewrite (@iter_ws_turn_file E a f c w' Hf' Hws), Hin', Hv, Ht. simpl.
    unfold w1. now rewrite app_nil_r, Hw', received_one_more.
  - unfold w1. simpl inbox.
    rewrite inbox_received, Hin.
    change (m :: rest) with ([m] ++ rest). rewrite app_assoc.
    apply skipn_length_app.
Qed.

Lemma file_iter_rejected_anywhere_witness :
  let m1 := VStr (Demo.chunk_text (Demo.q "a") false) in
  let m3 := VStr (Demo.chunk_text (Demo.q "c") true) in
  let w := Demo.file_world (Demo.upload (VWs 0) (VBool false))
                           [m1; VStr "oops"; m3] in
  let w1 := logged [EvSend 0 (Demo.save_text "false");
                    EvReceive 0 m1; EvValidate Demo.app m1;
                    EvReceive 0 (VStr "oops");
                    EvValidate Demo.app (VStr "oops")] (received 2 0 w) in
  iterate_file Demo.env 4 (VRef 4) GenStart w = ([VStr "a"], Exhausted, w1)
  /\ inbox w1 0 = [m3].
Proof.
  intros m1 m3 w w1.
  pose proof (@file_iter_rejected_anywhere Demo.env 4
                (Demo.upload (VWs 0) (VBool false)) 0 w
                (Demo.save_text "false") [m1] (VStr "oops") [m3] [VStr "a"]
                (VBool false) eq_refl eq_refl eq_refl eq_refl eq_refl eq_refl
                eq_refl) as H.
  exact (conj (proj1 H 2) (proj2 H)).
Defined.

(** ** File.save *)

(** X23. [save] writes the chunks of the iteration to the stream in the
    order they are yielded, flushing after each: when the stream takes them
    all, the loop ends as the iteration does, in the same world, and the
    stream holds every chunk. *)
Theorem save_loop_writes E T (ops : Stream T) self :
  forall fuel st stream w s',
    write_all ops stream (fst (fst (iterate_file E fuel self st w))) = Ok s' ->
    save_loop E ops fuel self st stream w
    = (snd (fst (iterate_file E fuel self st w)), s',
       snd (iterate_file E fuel self st w)).
Proof.
  induction fuel as [|fuel IH]; intros st stream w s' Hall.
  - simpl in *. now injection Hall as <-.
  - cbn [iterate_file save_loop] in *.
    destruct (File___iter___next E self st w) as [[[[x|] st']| |] w1];
      simpl in *; try (now injection Hall as <-).
    destruct (iterate_file E fuel self st' w1) as [[vs e] w2] eqn:Hit.
    simpl in *.
    destruct (stream_write ops stream x) as [s1| |]; try discriminate.
    destruct (stream_flush ops s1) as [s2| |]; try discriminate.
    rewrite (IH st' s2 w1 s'); rewrite Hit; simpl; auto.
Qed.

Lemma save_loop_writes_witness :
  let m1 := VStr (Demo.chunk_text (Demo.q "a") false) in
  let m2 := VStr (Demo.chunk_text (Demo.q "b") true) in
  let w := Demo.file_world (Demo.upload (VWs 0) (VBool false)) [m1; m2] in
  File_save Demo.env Demo2.text_stream 3 (VRef 4) [] w
  = (Exhausted,
     [Demo2.Written (VStr "a"); Demo2.Flushed;
      Demo2.Written (VStr "b"); Demo2.Flushed],
     snd (iterate_file Demo.env 3 (VRef 4) GenStart w)).
Proof.
  intros m1 m2 w.
  apply (@save_loop_writes Demo.env _ Demo2.text_stream (VRef 4) 3 GenStart
           [] w); reflexivity.
Defined.

(** X24. When the stream refuses a chunk, [save] raises the stream's error
    and stops there: the chunks before it are written and flushed, the
    refused chunk has been taken from the generator, and nothing further is
    fetched. *)
Theorem save_loop_refused E T (ops : Stream T) self :
  forall k st stream w before st0 w0 x st1 w1 s1 e,
    iterate_file E k self st w = (before, Suspended st0, w0) ->
    File___iter___next E self st0 w0 = (Ok (Yield x, st1), w1) ->
    write_all ops stream before = Ok s1 ->
    stream_write ops s1 x = Raise e ->
    forall n,
      save_loop E ops (k + S n) self st stream w = (Raised e, s1, w1).
Proof.
  induction k as [|k IH];
    intros st stream w before st0 w0 x st1 w1 s1 e Hit Hnext Hall Hw n.
  - simpl in Hit. injection Hit as <- <- <-.
    simpl in Hall. injection Hall as <-.
    cbn [Nat.add save_loop]. now rewrite Hnext, Hw.
  - cbn [iterate_file] in Hit. cbn [Nat.add save_loop].
    destruct (File___iter___next E self st w) as [[[[y|] st']| |] w']
      eqn:Hn; try discriminate.
    destruct (iterate_file E k self st' w') as [[vs e'] w''] eqn:Hit'.
    injection Hit as <- -> ->.
    simpl in Hall.
    destruct (stream_write ops stream y) as [s2| |]; try discriminate.
    destruct (stream_flush ops s2) as [s3| |]; try discriminate.
    exact (IH st' s3 w' vs st0 w0 x st1 w1 s1 e Hit' Hnext Hall Hw n).
Qed.

Lemma save_loop_refused_witness :
  let m1 := VStr (Demo.chunk_text "[97]" false) in
  let m2 := VStr (Demo.chunk_text "[98]" true) in
  let w := Demo.file_world (Demo.upload (VWs 0) (VBool true)) [m1; m2] in
  File_save Demo.env Demo2.text_stream 3 (VRef 4) [] w
  = (Raised TypeError, [],
     logged [EvSend 0 (Demo.save_text "true");
             EvReceive 0 m1; EvValidate Demo.app m1] (popped 0 w))
  /\ inbox (popped 0 w) 0 = [m2].
Proof.
  intros m1 m2 w. split; [|reflexivity].
  apply (@save_loop_refused Demo.env _ Demo2.text_stream (VRef 4) 0 GenStart
           [] w [] GenStart w (VBytes [Byte.x61])
           (GenWs (VDict [("data", VList [VInt 97]); ("end", VBool false)]))
           _ [] TypeError); reflexivity.
Defined.

(** ** Witnesses for the loop through the evaluator and for rejected chunks *)

Lemma file_iter_direct_loop_witness :
  iterate_file Demo2.env 6 (VRef 5) GenStart Demo2.evaluator_world
  = ([VStr "a"], Exhausted,
     logged [EvEvaluate 2 (VStr "_saveFile")
                        (VDict [("file-id", VInt 7); ("binary", VBool false)])]
            Demo2.evaluator_world).
Proof.
  refine (proj1 (@file_iter_direct_loop Demo2.env 5 Demo2.evaluator_file
                   Demo2.evaluator_world 2
                   (VStr (Demo.chunk_text (Demo.q "a") true))
                   (VDict [("data", VStr "a"); ("end", VBool true)])
                   (VStr "a") (VBool true) (VStr "a")
                   _ _ _ _ _ _ _ _) _ 4);
    reflexivity.
Defined.

Lemma file_iter_chunk_rejected_witness :
  let w := Demo.file_world (Demo.upload (VWs 0) (VBool false)) [VStr "oops"] in
  iterate_file Demo.env 4 (VRef 4)
               (GenWs (VDict [("data", VStr "a"); ("end", VBool false)])) w
  = ([], Exhausted,
     logged [EvReceive 0 (VStr "oops"); EvValidate Demo.app (VStr "oops")]
            (popped 0 w)).
Proof.
  intro w.
  apply (@file_iter_chunk_rejected Demo.env 4
           (Demo.upload (VWs 0) (VBool false)) 0 w (VStr "oops") []
           (VBool false) (VDict [("data", VStr "a"); ("end", VBool false)])
           (VBool false)); reflexivity.
Defined.
